(** * Core Exchange sample API: fault injection, paginated activities and
      the retry policy of the durable task layer

    The development embeds [apps/api/src/utils/chaos.ts] (the chaos monkey),
    the activities of [apps/api/src/temporal/activities.ts], the retry options
    and the workflows of [apps/api/src/temporal/workflows.ts], the helpers of
    [apps/api/src/temporal/client.ts], the handlers of the accounts and
    customers routers and the access-token middleware of
    [apps/api/src/index.ts].  The retry engine, the worker-side classifier and
    the activity registry belong to the workflow runtime the repository links
    against; they are modelled from the specification in the modules [Engine]
    and [Registry].

    Conventions.
    - A JavaScript [number] holding a probability or a draw of
      [Math.random()] is an exact rational ([Q]), the value of the double;
      comparisons are those of the values, and the literal [0.3] is the
      double it denotes.  The two products [Math.random() * n] are taken
      exactly, where the code rounds them to the nearest double: the results
      below are ranges, memberships and equalities between runs, which do not
      depend on that rounding.  Integers (offsets, limits, milliseconds,
      status codes) are [Z].
    - A data object keyed by account id is a finite map of its own
      properties on top of [Object.prototype]: reading a key it does not own
      finds the inherited member of that name, if there is one.
    - [process.env] is a finite map from names to strings.  Strings are
      sequences of 8-bit characters; [trim] and [toUpperCase] are those of the
      ASCII range.
    - Effects (draws of the random source, log records, timers) are threaded
      through a state-and-exception monad [M]; the trace is chronological. *)

From Stdlib Require Import QArith Qround Qminmax.
From stdpp Require Import gmap strings list pretty.

Open Scope Z_scope.

(* ===================================================================== *)
(** ** The JavaScript fragment the sources rely on *)
(* ===================================================================== *)

Module Js.

(** The values a [number] obtained from [parseFloat] can take. *)
Inductive number :=
| Finite (q : Q)
| NaN
| Infinity
| NegInfinity.

(** [r > x] for a finite [r]; every comparison with [NaN] is false. *)
Definition gt (r : Q) (x : number) : bool :=
  match x with
  | Finite q => negb (Qle_bool r q)
  | NaN => false
  | Infinity => false
  | NegInfinity => true
  end.

(** The number [x] is the finite value [q]. *)
Definition equals (x : number) (q : Q) : Prop :=
  match x with
  | Finite q' => (q' == q)%Q
  | _ => False
  end.

(** [a < b] on finite numbers. *)
Definition lt (a b : Q) : bool := negb (Qle_bool b a).

(** Builtins of the host that are taken as given: [parseFloat] and the
    time value of [new Date(s)] ([None] is an invalid date, whose time value
    is [NaN]). *)
Record Runtime := {
  parseFloat : string -> number;
  Date_parse : string -> option Z
}.

(** The separator of [split( "," )]. *)
Definition comma : Ascii.ascii := Ascii.ascii_of_nat 44.

(** [s.split(sep)] for a one-character separator. *)
Fixpoint split (sep : Ascii.ascii) (s : string) : list string :=
  match s with
  | EmptyString => [EmptyString]
  | String c s' =>
      if Ascii.eqb c sep then EmptyString :: split sep s'
      else match split sep s' with
           | [] => [String c EmptyString]
           | w :: ws => String c w :: ws
           end
  end.

(** White space of [trim], on the ASCII range. *)
Definition is_space (c : Ascii.ascii) : bool :=
  let n := Ascii.nat_of_ascii c in
  (Nat.eqb n 32 || (Nat.leb 9 n && Nat.leb n 13))%bool.

Fixpoint trimStart (s : string) : string :=
  match s with
  | EmptyString => EmptyString
  | String c s' => if is_space c then trimStart s' else s
  end.

Fixpoint trimEnd (s : string) : string :=
  match s with
  | EmptyString => EmptyString
  | String c s' =>
      match trimEnd s' with
      | EmptyString => if is_space c then EmptyString else String c EmptyString
      | t => String c t
      end
  end.

Definition trim (s : string) : string := trimEnd (trimStart s).

(** [toUpperCase] on the ASCII range. *)
Definition upper (c : Ascii.ascii) : Ascii.ascii :=
  let n := Ascii.nat_of_ascii c in
  if (Nat.leb 97 n && Nat.leb n 122)%bool then Ascii.ascii_of_nat (n - 32) else c.

Fixpoint toUpperCase (s : string) : string :=
  match s with
  | EmptyString => EmptyString
  | String c s' => String (upper c) (toUpperCase s')
  end.

(** [arr[i]] for an integer index: [None] is [undefined]. *)
Definition index {A} (arr : list A) (i : Z) : option A :=
  if i <? 0 then None else arr !! Z.to_nat i.

(** [arr.slice(start, end)] for integer arguments. *)
Definition slice {A} (arr : list A) (start end_ : Z) : list A :=
  let len := Z.of_nat (length arr) in
  let k := if start <? 0 then Z.max (len + start) 0 else Z.min start len in
  let final := if end_ <? 0 then Z.max (len + end_) 0 else Z.min end_ len in
  take (Z.to_nat (Z.max (final - k) 0)) (drop (Z.to_nat k) arr).

(** The double that the literal [0.3] denotes: 5404319552844595 / 2^54. *)
Definition literal_0_3 : Q := 5404319552844595 # 18014398509481984.

(** The names of the members of [Object.prototype], which every plain
    object inherits. *)
Definition Object_prototype : list string :=
  [ "constructor"; "__defineGetter__"; "__defineSetter__"; "hasOwnProperty";
    "__lookupGetter__"; "__lookupSetter__"; "isPrototypeOf";
    "propertyIsEnumerable"; "toString"; "valueOf"; "__proto__";
    "toLocaleString" ].

(** What a property read finds on a plain object whose own properties hold
    values of type [V]: an own value, or the member of [Object.prototype] of
    that name (a function, or the prototype itself for ["__proto__"]).  All
    of these are truthy. *)
Inductive Value (V : Type) :=
| Own (v : V)
| Inherited (name : string).
Arguments Own {V} v.
Arguments Inherited {V} name.

(** [obj[key]] on a plain object with the own properties [obj]: [None] is
    [undefined]. *)
Definition get {V} (obj : gmap string V) (key : string) : option (Value V) :=
  match obj !! key with
  | Some v => Some (Own v)
  | None => if bool_decide (key ∈ Object_prototype) then Some (Inherited key) else None
  end.

(** The key is not stored in [obj] and is the name of a member of
    [Object.prototype]. *)
Definition inherits {V} (obj : gmap string V) (key : string) : bool :=
  bool_decide (obj !! key = None /\ key ∈ Object_prototype).

(** [process.env.NAME || fallback]: the empty string is falsy. *)
Definition or_default (v : option string) (fallback : string) : string :=
  match v with
  | None => fallback
  | Some EmptyString => fallback
  | Some s => s
  end.

(** [!v] for an optional string. *)
Definition falsy (v : option string) : bool :=
  match v with
  | None => true
  | Some EmptyString => true
  | Some _ => false
  end.

(** [v === "true"]. *)
Definition is_true (v : option string) : bool :=
  match v with
  | Some s => String.eqb s "true"
  | None => false
  end.

End Js.

(* ===================================================================== *)
(** ** Effects: random source, log, timers, exceptions *)
(* ===================================================================== *)

(** [ApplicationFailure] of the workflow runtime, as the sources build it. *)
Module ApplicationFailure.

Record t := {
  message : string;
  type : string;
  isNonRetryable : bool
}.

Definition nonRetryable (msg ty : string) : t :=
  {| message := msg; type := ty; isNonRetryable := true |}.

Definition retryable (msg ty : string) : t :=
  {| message := msg; type := ty; isNonRetryable := false |}.

End ApplicationFailure.

(** What a call can throw: a classified failure, or a host [TypeError]. *)
Inductive Thrown :=
| Failure (f : ApplicationFailure.t)
| TypeError (msg : string).

(** Observable events, in the order they happen. *)
Inductive Event :=
| Random (r : Q)
| LogWarn (operation errorType message : string)
| LogDebug (operation : string) (extraLatency : Z)
| Timer (ms : Z).

Record World := {
  rng : nat -> Q;
  cursor : nat;
  trace : list Event
}.

Definition M (A : Type) : Type := World -> (Thrown + A) * World.

Definition ret {A} (a : A) : M A := fun w => (inr a, w).

Definition bind {A B} (m : M A) (k : A -> M B) : M B :=
  fun w =>
    match m w with
    | (inl e, w') => (inl e, w')
    | (inr a, w') => k a w'
    end.

Definition throw {A} (e : Thrown) : M A := fun w => (inl e, w).

Definition emit (e : Event) : M unit :=
  fun w => (inr tt, {| rng := rng w; cursor := cursor w; trace := trace w ++ [e] |}).

(** [Math.random()]: the next value of the source; the draw is recorded. *)
Definition random : M Q :=
  fun w =>
    let r := rng w (cursor w) in
    (inr r, {| rng := rng w; cursor := S (cursor w); trace := trace w ++ [Random r] |}).

(** [await new Promise(resolve => setTimeout(resolve, ms))]. *)
Definition sleep (ms : Z) : M unit := emit (Timer ms).

Declare Scope m_scope.
Delimit Scope m_scope with M.
Notation "x <- c1 ;; c2" := (bind c1 (fun x => c2))
  (at level 100, c1 at next level, right associativity) : m_scope.
Notation "c1 ;;; c2" := (bind c1 (fun _ => c2))
  (at level 100, right associativity) : m_scope.
Open Scope m_scope.

(** What an observer of one invocation sees. *)
Module Observe.

(** The outcome of an activity, from that of the injector and that of the
    callback of its timer: the callback runs when the injector has let the
    call through. *)
Definition run_of {R} (injected : Thrown + unit) (callback : Thrown + R) : Thrown + R :=
  match injected with
  | inl e => inl e
  | inr _ => callback
  end.

(** A log record with its [operation] field blanked. *)
Definition erase_operation (e : Event) : Event :=
  match e with
  | LogWarn _ errorType message => LogWarn EmptyString errorType message
  | LogDebug _ extraLatency => LogDebug EmptyString extraLatency
  | Random r => Random r
  | Timer ms => Timer ms
  end.

(** The timers of a trace: the latency that was injected. *)
Definition timers (tr : list Event) : list Z :=
  omap (fun e => match e with Timer ms => Some ms | _ => None end) tr.

(** The events a run from [w] added to the trace. *)
Definition fresh {A} (w : World) (r : (Thrown + A) * World) : list Event :=
  drop (length (trace w)) (trace (snd r)).

(** The number of draws a run from [w] consumed. *)
Definition drawn {A} (w : World) (r : (Thrown + A) * World) : nat :=
  (cursor (snd r) - cursor w)%nat.

(** Two worlds whose random sources agree from their cursors on. *)
Definition same_draws (w1 w2 : World) : Prop :=
  forall i : nat, rng w1 (cursor w1 + i)%nat = rng w2 (cursor w2 + i)%nat.

(** The contiguous slice [[offset, offset + limit)] of a collection. *)
Definition window {A} (l : list A) (offset limit : Z) : list A :=
  take (Z.to_nat limit) (drop (Z.to_nat offset) l).

(** Every draw of the source is a value of [Math.random()]: in [0, 1). *)
Definition valid (w : World) : Prop :=
  forall n : nat, (0 <= rng w n)%Q /\ (rng w n < 1)%Q.

End Observe.

(* ===================================================================== *)
(** ** [apps/api/src/utils/chaos.ts] *)
(* ===================================================================== *)

Module Chaos.

Inductive ChaosErrorType :=
| DATABASE_CONNECTION
| DATABASE_TIMEOUT
| DATABASE_DEADLOCK
| NETWORK_TIMEOUT
| NETWORK_CONNECTION_REFUSED
| SERVICE_UNAVAILABLE
| INTERNAL_SERVER_ERROR
| RESOURCE_EXHAUSTED
| NON_RETRYABLE_ERROR.

(** The string value of an enum member. *)
Definition value (t : ChaosErrorType) : string :=
  match t with
  | DATABASE_CONNECTION => "DATABASE_CONNECTION"
  | DATABASE_TIMEOUT => "DATABASE_TIMEOUT"
  | DATABASE_DEADLOCK => "DATABASE_DEADLOCK"
  | NETWORK_TIMEOUT => "NETWORK_TIMEOUT"
  | NETWORK_CONNECTION_REFUSED => "NETWORK_CONNECTION_REFUSED"
  | SERVICE_UNAVAILABLE => "SERVICE_UNAVAILABLE"
  | INTERNAL_SERVER_ERROR => "INTERNAL_SERVER_ERROR"
  | RESOURCE_EXHAUSTED => "RESOURCE_EXHAUSTED"
  | NON_RETRYABLE_ERROR => "NON_RETRYABLE_ERROR"
  end.

(** [Object.values(ChaosErrorType)], in declaration order. *)
Definition values : list ChaosErrorType :=
  [ DATABASE_CONNECTION; DATABASE_TIMEOUT; DATABASE_DEADLOCK;
    NETWORK_TIMEOUT; NETWORK_CONNECTION_REFUSED; SERVICE_UNAVAILABLE;
    INTERNAL_SERVER_ERROR; RESOURCE_EXHAUSTED; NON_RETRYABLE_ERROR ].

(** The member whose value is [s], if any. *)
Definition of_value (s : string) : option ChaosErrorType :=
  List.find (fun t => String.eqb (value t) s) values.

Record ErrorConfig := {
  message : string;
  statusCode : Z;
  retryable : bool
}.

Definition errorConfigs (t : ChaosErrorType) : ErrorConfig :=
  match t with
  | DATABASE_CONNECTION =>
      {| message := "Failed to connect to database: connection refused";
         statusCode := 503; retryable := true |}
  | DATABASE_TIMEOUT =>
      {| message := "Database query timed out after 30000ms";
         statusCode := 504; retryable := true |}
  | DATABASE_DEADLOCK =>
      {| message := "Transaction deadlock detected, please retry";
         statusCode := 503; retryable := true |}
  | NETWORK_TIMEOUT =>
      {| message := "Network request timed out";
         statusCode := 504; retryable := true |}
  | NETWORK_CONNECTION_REFUSED =>
      {| message := "Connection refused: upstream service unavailable";
         statusCode := 502; retryable := true |}
  | SERVICE_UNAVAILABLE =>
      {| message := "Service temporarily unavailable due to high load";
         statusCode := 503; retryable := true |}
  | INTERNAL_SERVER_ERROR =>
      {| message := "An unexpected internal error occurred";
         statusCode := 500; retryable := false |}
  | RESOURCE_EXHAUSTED =>
      {| message := "Resource exhausted: too many open connections";
         statusCode := 503; retryable := true |}
  | NON_RETRYABLE_ERROR =>
      {| message := "A non-retryable error occurred";
         statusCode := 500; retryable := false |}
  end.

Record ChaosConfig := {
  enabled : bool;
  errorRate : Js.number;
  enabledErrorTypes : list ChaosErrorType
}.

(** [types.filter(t => Object.values(ChaosErrorType).includes(t))], read
    back as enum members. *)
Definition keep_known (types : list string) : list ChaosErrorType :=
  omap of_value
    (List.filter (fun t => existsb (String.eqb t) (List.map value values)) types).

Definition parseEnabledErrorTypes (env : gmap string string) : list ChaosErrorType :=
  let envTypes := env !! "CHAOS_ERROR_TYPES" in
  if Js.falsy envTypes then values
  else
    let types :=
      List.map (fun t => Js.toUpperCase (Js.trim t))
               (Js.split Js.comma (default EmptyString envTypes)) in
    keep_known types.

Definition getConfig (rt : Js.Runtime) (env : gmap string string) : ChaosConfig :=
  {| enabled := Js.is_true (env !! "CHAOS_ENABLED");
     errorRate := Js.parseFloat rt (Js.or_default (env !! "CHAOS_ERROR_RATE") "0.1");
     enabledErrorTypes := parseEnabledErrorTypes env |}.

(** Reading [.message] of [errorConfigs[undefined]]. *)
Definition undefined_message : string :=
  "Cannot read properties of undefined (reading 'message')".

Definition maybeCauseChaos (rt : Js.Runtime) (env : gmap string string)
    (operationName : string) : M unit :=
  let config := getConfig rt env in
  if negb (enabled config) then ret tt
  else
    r <- random ;;
    if Js.gt r (errorRate config) then ret tt
    else
      r' <- random ;;
      let i := Qfloor (r' * inject_Z (Z.of_nat (length (enabledErrorTypes config)))) in
      match Js.index (enabledErrorTypes config) i with
      | None => throw (TypeError undefined_message)
      | Some errorType =>
          let errorConfig := errorConfigs errorType in
          emit (LogWarn operationName (value errorType) (message errorConfig)) ;;;
          if negb (retryable errorConfig)
          then throw (Failure (ApplicationFailure.nonRetryable
                                 (message errorConfig) (value errorType)))
          else throw (Failure (ApplicationFailure.retryable
                                 (message errorConfig) (value errorType)))
      end.

(** The index [maybeCauseChaos] reads when it runs from [w] and the rate
    check lets it through: it comes from the second draw. *)
Definition selected (rt : Js.Runtime) (env : gmap string string) (w : World) : Z :=
  Qfloor (rng w (S (cursor w))
          * inject_Z (Z.of_nat (length (enabledErrorTypes (getConfig rt env))))).

(** The failure [maybeCauseChaos] throws once it has selected [errorType]. *)
Definition thrown (errorType : ChaosErrorType) : ApplicationFailure.t :=
  let errorConfig := errorConfigs errorType in
  if negb (retryable errorConfig)
  then ApplicationFailure.nonRetryable (message errorConfig) (value errorType)
  else ApplicationFailure.retryable (message errorConfig) (value errorType).

Definition maybeCauseChaosAsync (rt : Js.Runtime) (env : gmap string string)
    (operationName : string) : M unit :=
  let config := getConfig rt env in
  if negb (enabled config) then ret tt
  else
    (if Js.is_true (env !! "CHAOS_ADD_LATENCY")
     then
       r <- random ;;
       if Js.lt r Js.literal_0_3
       then
         r' <- random ;;
         let extraLatency := Qfloor (r' * 500) in
         emit (LogDebug operationName extraLatency) ;;;
         sleep extraLatency
       else ret tt
     else ret tt) ;;;
    maybeCauseChaos rt env operationName.

End Chaos.

(* ===================================================================== *)
(** ** [apps/api/src/types/fdx.ts] *)
(* ===================================================================== *)

Module Currency.
Record t := { currencyCode : string }.
End Currency.

Module Account.
Record t := {
  accountCategory : string;
  accountId : string;
  accountNumberDisplay : string;
  productName : string;
  status : string;
  currency : Currency.t;
  accountType : string;
  currentBalance : Q;
  availableBalance : option Q;
  availableCredit : option Q;
  creditLine : option Q;
  accountNumber : option string;
  principalBalance : option Q;
  originalPrincipal : option Q;
  interestRate : option Q;
  interestRateType : option string;
  loanTerm : option Q
}.
End Account.

Module Link.
Record t := {
  href : string;
  rel : string;
  action : string;
  types : list string
}.
End Link.

Module Statement.
Record t := {
  accountId : string;
  statementId : string;
  statementDate : string;
  description : string;
  links : list Link.t;
  status : string
}.
End Statement.

Module Transaction.
Record t := {
  accountCategory : string;
  transactionType : string;
  checkNumber : option Z;
  payee : option string;
  transactionId : string;
  postedTimestamp : string;
  transactionTimestamp : string;
  description : string;
  debitCreditMemo : string;
  status : string;
  amount : Q
}.
End Transaction.

Module PaymentNetwork.
Record t := {
  bankId : string;
  identifier : string;
  type : string;
  transferIn : bool;
  transferOut : bool
}.
End PaymentNetwork.

Module PaginatedAccountsResult.
Record t := { accounts : list Account.t; total : Z }.
End PaginatedAccountsResult.

Module PaginatedStatementsResult.
Record t := { statements : list Statement.t; total : Z }.
End PaginatedStatementsResult.

Module PaginatedTransactionsResult.
Record t := { transactions : list Transaction.t; total : Z }.
End PaginatedTransactionsResult.

Module PaginatedPaymentNetworksResult.
Record t := { paymentNetworks : list PaymentNetwork.t; total : Z }.
End PaginatedPaymentNetworksResult.

Module PaginatedAssetTransferNetworksResult.
Record t := { assetTransferNetworks : list PaymentNetwork.t; total : Z }.
End PaginatedAssetTransferNetworksResult.

(* ===================================================================== *)
(** ** [apps/api/src/temporal/activities.ts] *)
(* ===================================================================== *)

Module Activities.

(** The exports of [data/accounts.js]; their contents are a parameter: an
    array of accounts and three plain objects keyed by account id, given by
    their own properties. *)
Record DataStore := {
  accounts : list Account.t;
  accountStatements : gmap string (list Statement.t);
  accountTransactions : gmap string (list Transaction.t);
  accountPaymentNetworks : gmap string (list PaymentNetwork.t)
}.

(** [startTime ? new Date( startTime ) : new Date( 0 )]. *)
Definition startDate (rt : Js.Runtime) (startTime : string) : option Z :=
  match startTime with
  | EmptyString => Some 0
  | _ => Js.Date_parse rt startTime
  end.

(** [endTime ? new Date( endTime ) : new Date( 8640000000000000 )]. *)
Definition endDate (rt : Js.Runtime) (endTime : string) : option Z :=
  match endTime with
  | EmptyString => Some 8640000000000000
  | _ => Js.Date_parse rt endTime
  end.

(** [d >= lo && d <= hi] on dates; an invalid date compares false. *)
Definition within (d lo hi : option Z) : bool :=
  match d, lo, hi with
  | Some x, Some a, Some b => (a <=? x) && (x <=? b)
  | _, _, _ => false
  end.

(** The [filter] of [getAccountStatements]. *)
Definition filterStatements (rt : Js.Runtime) (startTime endTime : string)
    (l : list Statement.t) : list Statement.t :=
  List.filter
    (fun statement =>
       within (Js.Date_parse rt (Statement.statementDate statement))
              (startDate rt startTime) (endDate rt endTime))
    l.

(** The [filter] of [getAccountTransactions]. *)
Definition filterTransactions (rt : Js.Runtime) (startTime endTime : string)
    (l : list Transaction.t) : list Transaction.t :=
  List.filter
    (fun tx =>
       within (Js.Date_parse rt (Transaction.postedTimestamp tx))
              (startDate rt startTime) (endDate rt endTime))
    l.

Section WithHost.
Variables (rt : Js.Runtime) (env : gmap string string) (ds : DataStore).

(** Omitted arguments ([None]) take the defaults of the signatures.

    The body of each activity runs in the callback of its timer.  Where
    [obj[accountId] || []] is a member of [Object.prototype], the array method
    called on it does not exist and the callback throws a [TypeError]: nothing
    catches it and the promise of the activity is never resolved; the run ends
    in [inl], after the timer. *)

Definition getAccounts (offset limit : option Z) : M PaginatedAccountsResult.t :=
  let offset := default 0 offset in
  let limit := default 10 limit in
  Chaos.maybeCauseChaosAsync rt env "getAccounts" ;;;
  sleep 100 ;;;
  let paginatedAccounts := Js.slice (accounts ds) offset (offset + limit) in
  ret {| PaginatedAccountsResult.accounts := paginatedAccounts;
         PaginatedAccountsResult.total := Z.of_nat (length (accounts ds)) |}.

Definition getAccountStatements (accountId : string) (offset limit : option Z)
    (startTime endTime : option string) : M PaginatedStatementsResult.t :=
  let offset := default 0 offset in
  let limit := default 100 limit in
  let startTime := default EmptyString startTime in
  let endTime := default EmptyString endTime in
  Chaos.maybeCauseChaosAsync rt env "getAccountStatements" ;;;
  sleep 100 ;;;
  let statementsForAccount :=
    default (Js.Own []) (Js.get (accountStatements ds) accountId) in
  match statementsForAccount with
  | Js.Inherited _ => throw (TypeError "statementsForAccount.filter is not a function")
  | Js.Own statementsForAccount =>
      let statements := filterStatements rt startTime endTime statementsForAccount in
      let paginatedStatements := Js.slice statements offset (offset + limit) in
      ret {| PaginatedStatementsResult.statements := paginatedStatements;
             PaginatedStatementsResult.total := Z.of_nat (length statements) |}
  end.

Definition getAccountTransactions (accountId : string) (offset limit : option Z)
    (startTime endTime : option string) : M PaginatedTransactionsResult.t :=
  let offset := default 0 offset in
  let limit := default 100 limit in
  let startTime := default EmptyString startTime in
  let endTime := default EmptyString endTime in
  Chaos.maybeCauseChaosAsync rt env "getAccountTransactions" ;;;
  sleep 100 ;;;
  let transactionsForAccount :=
    default (Js.Own []) (Js.get (accountTransactions ds) accountId) in
  match transactionsForAccount with
  | Js.Inherited _ => throw (TypeError "transactionsForAccount.filter is not a function")
  | Js.Own transactionsForAccount =>
      let filtered := filterTransactions rt startTime endTime transactionsForAccount in
      let paginated := Js.slice filtered offset (offset + limit) in
      ret {| PaginatedTransactionsResult.transactions := paginated;
             PaginatedTransactionsResult.total := Z.of_nat (length filtered) |}
  end.

Definition getPaymentNetworks (accountId : string) (offset limit : option Z)
    : M PaginatedPaymentNetworksResult.t :=
  let offset := default 0 offset in
  let limit := default 100 limit in
  Chaos.maybeCauseChaosAsync rt env "getPaymentNetworks" ;;;
  sleep 100 ;;;
  let networks := default (Js.Own []) (Js.get (accountPaymentNetworks ds) accountId) in
  match networks with
  | Js.Inherited _ => throw (TypeError "networks.slice is not a function")
  | Js.Own networks =>
      let paginated := Js.slice networks offset (offset + limit) in
      ret {| PaginatedPaymentNetworksResult.paymentNetworks := paginated;
             PaginatedPaymentNetworksResult.total := Z.of_nat (length networks) |}
  end.

Definition getAssetTransferNetworks (accountId : string) (offset limit : option Z)
    : M PaginatedAssetTransferNetworksResult.t :=
  let offset := default 0 offset in
  let limit := default 100 limit in
  Chaos.maybeCauseChaosAsync rt env "getAssetTransferNetworks" ;;;
  sleep 100 ;;;
  let networks := default (Js.Own []) (Js.get (accountPaymentNetworks ds) accountId) in
  match networks with
  | Js.Inherited _ => throw (TypeError "networks.slice is not a function")
  | Js.Own networks =>
      let paginated := Js.slice networks offset (offset + limit) in
      ret {| PaginatedAssetTransferNetworksResult.assetTransferNetworks := paginated;
             PaginatedAssetTransferNetworksResult.total := Z.of_nat (length networks) |}
  end.

End WithHost.

(** The names [activities.ts] exports, which the worker is created with. *)
Definition exported : list string :=
  [ "getCurrentCustomer"; "getCustomerById"; "getCustomers"; "getAccounts";
    "getAccountById"; "getAccountContactById"; "getAccountStatements";
    "getAccountStatementById"; "getAccountTransactions"; "getPaymentNetworks";
    "getAssetTransferNetworks" ].

End Activities.

(* ===================================================================== *)
(** ** The filtered collection, in the words of the claim on pagination *)
(* ===================================================================== *)

Module Claimed.

(** A bound of the date filter: the time value of the date that was given,
    or [fallback] when none was (omitted, or empty). *)
Definition bound (rt : Js.Runtime) (given : option string) (fallback : Z) : option Z :=
  match given with
  | None => Some fallback
  | Some EmptyString => Some fallback
  | Some s => Js.Date_parse rt s
  end.

(** An item is in the range when its date and the two bounds are valid
    dates and the date lies between the bounds, ends included. *)
Definition in_range (date lo hi : option Z) : Prop :=
  exists x a b, date = Some x /\ lo = Some a /\ hi = Some b /\ a <= x <= b.

(** [kept] is the collection [stored] after filtering: the items of
    [stored] that satisfy [keep], all of them, in the order of [stored]. *)
Inductive filtered {A : Type} (keep : A -> Prop) : list A -> list A -> Prop :=
| filtered_nil : filtered keep [] []
| filtered_keep (x : A) (stored kept : list A) :
    keep x -> filtered keep stored kept -> filtered keep (x :: stored) (x :: kept)
| filtered_drop (x : A) (stored kept : list A) :
    ~ keep x -> filtered keep stored kept -> filtered keep (x :: stored) kept.

(** The statements of an account dated from [startTime] to [endTime], where
    no [startTime] means the epoch and no [endTime] the largest date. *)
Definition statements (rt : Js.Runtime) (startTime endTime : option string)
    (stored kept : list Statement.t) : Prop :=
  filtered
    (fun s => in_range (Js.Date_parse rt (Statement.statementDate s))
                (bound rt startTime 0) (bound rt endTime 8640000000000000))
    stored kept.

(** The transactions of an account posted from [startTime] to [endTime]. *)
Definition transactions (rt : Js.Runtime) (startTime endTime : option string)
    (stored kept : list Transaction.t) : Prop :=
  filtered
    (fun t => in_range (Js.Date_parse rt (Transaction.postedTimestamp t))
                (bound rt startTime 0) (bound rt endTime 8640000000000000))
    stored kept.

End Claimed.

(* ===================================================================== *)
(** ** [apps/api/src/temporal/workflows.ts] *)
(* ===================================================================== *)

Module Workflows.

(** The [retry] options handed to [proxyActivities]; durations are in
    milliseconds. *)
Record RetryPolicy := {
  initialInterval : Q;
  backoffCoefficient : Q;
  maximumInterval : Q;
  maximumAttempts : nat;
  nonRetryableErrorTypes : list string
}.

(** The options of the untyped workflows. *)
Definition retry : RetryPolicy :=
  {| initialInterval := 500;
     backoffCoefficient := 2;
     maximumInterval := 5000;
     maximumAttempts := 10;
     nonRetryableErrorTypes := [ "NonRetryableError" ] |}.

(** The options of the typed workflows, which list no error type. *)
Definition retry_typed : RetryPolicy :=
  {| initialInterval := 500;
     backoffCoefficient := 2;
     maximumInterval := 5000;
     maximumAttempts := 10;
     nonRetryableErrorTypes := [] |}.

(** [startToCloseTimeout: "30s"], in milliseconds. *)
Definition startToCloseTimeout : Z := 30000.

End Workflows.

(* ===================================================================== *)
(** ** The retry engine and the worker's classifier *)
(* ===================================================================== *)

Module Engine.

Import Workflows.

(** Modelled from the spec: the worker's classifier (section 4.1), which
    is part of the workflow runtime and not of the sources.  Every raised
    failure maps to exactly one kind of the taxonomy; a failure whose type
    is not one of the nine kinds, and any other exception, is an
    [INTERNAL_SERVER_ERROR]. *)
Definition classify (e : Thrown) : Chaos.ChaosErrorType :=
  match e with
  | Failure f =>
      default Chaos.INTERNAL_SERVER_ERROR (Chaos.of_value (ApplicationFailure.type f))
  | TypeError _ => Chaos.INTERNAL_SERVER_ERROR
  end.

(** Modelled from the spec: a raised failure that is none of the nine
    kinds. *)
Definition unclassified (e : Thrown) : Prop :=
  match e with
  | Failure f => Chaos.of_value (ApplicationFailure.type f) = None
  | TypeError _ => True
  end.

(** Modelled from the spec: the message a terminal failure carries. *)
Definition message_of (e : Thrown) : string :=
  match e with
  | Failure f => ApplicationFailure.message f
  | TypeError msg => msg
  end.

(** Modelled from the spec: the terminal outcome of a task (section 3). *)
Inductive TaskResult (V : Type) :=
| Success (value : V)
| Failed (kind : Chaos.ChaosErrorType) (message : string) (attemptsMade : nat).
Arguments Success {V} value.
Arguments Failed {V} kind message attemptsMade.

(** Modelled from the spec: the decision of the retry policy engine
    (section 4.3), which is part of the workflow runtime.  A failed attempt
    is terminal when its kind is non-retryable in the taxonomy table, or
    listed in the policy, or when the attempt counter has reached the
    maximum. *)
Definition terminal (p : RetryPolicy) (attempt : nat) (kind : Chaos.ChaosErrorType) : bool :=
  negb (Chaos.retryable (Chaos.errorConfigs kind))
  || existsb (String.eqb (Chaos.value kind)) (nonRetryableErrorTypes p)
  || (maximumAttempts p <=? attempt)%nat.

(** Modelled from the spec: the delay scheduled after failed attempt
    [attempt], that is, before attempt [attempt + 1] (section 4.3). *)
Definition delay (p : RetryPolicy) (attempt : nat) : Q :=
  Qmin (initialInterval p * backoffCoefficient p ^ Z.of_nat (attempt - 1))
       (maximumInterval p).

(** Modelled from the spec: the worker's loop over the attempts of one task
    (section 4.4).  [act n] is the outcome of the [n]-th attempt; the result
    comes with the delays that were scheduled, in order. *)
Fixpoint attempts {V} (p : RetryPolicy) (act : nat -> Thrown + V)
    (attempt fuel : nat) : option (TaskResult V * list Q) :=
  match act attempt with
  | inr v => Some (Success v, [])
  | inl e =>
      let kind := classify e in
      if terminal p attempt kind
      then Some (Failed kind (message_of e) attempt, [])
      else
        match fuel with
        | O => None
        | S fuel' =>
            match attempts p act (S attempt) fuel' with
            | Some (r, ds) => Some (r, delay p attempt :: ds)
            | None => None
            end
        end
  end.

(** Modelled from the spec: a submitted task starts at attempt 1. *)
Definition execute {V} (p : RetryPolicy) (act : nat -> Thrown + V)
    : option (TaskResult V * list Q) :=
  attempts p act 1 (maximumAttempts p).

(** Modelled from the spec: the number of attempts a terminal failure
    reports. *)
Definition attemptsMade {V} (r : TaskResult V) : option nat :=
  match r with
  | Success _ => None
  | Failed _ _ n => Some n
  end.

(** Modelled from the spec: an activity that fails on every attempt with a
    failure the policy lets the engine retry. *)
Definition fails_retryably {V} (p : RetryPolicy) (act : nat -> Thrown + V) : Prop :=
  forall n : nat,
    exists e, act n = inl e
              /\ Chaos.retryable (Chaos.errorConfigs (classify e)) = true
              /\ existsb (String.eqb (Chaos.value (classify e)))
                         (nonRetryableErrorTypes p) = false.

(** Modelled from the spec: the delay before attempt [N], in the words of
    the testable property of section 8. *)
Definition delay_before (p : RetryPolicy) (N : nat) : Q :=
  Qmin (initialInterval p * backoffCoefficient p ^ (Z.of_nat N - 2))
       (maximumInterval p).

End Engine.

(* ===================================================================== *)
(** ** The activity registry *)
(* ===================================================================== *)

Module Registry.

Section WithImpl.
(** The type of activity implementations. *)
Variable F : Type.

(** Modelled from the spec: the activity registry (section 6), which is
    part of the workflow runtime: registering a name that is taken is
    rejected ([None]). *)
Definition register (name : string) (f : F) (reg : gmap string F)
    : option (gmap string F) :=
  match reg !! name with
  | Some _ => None
  | None => Some (<[name := f]> reg)
  end.

(** Modelled from the spec: invoking a name that is not registered is a
    [NON_RETRYABLE_ERROR] failure; no function is called. *)
Definition invoke (reg : gmap string F) (name : string) : Thrown + F :=
  match reg !! name with
  | Some f => inr f
  | None =>
      inl (Failure (ApplicationFailure.nonRetryable
                      ("Activity function " +:+ name +:+ " is not registered")
                      (Chaos.value Chaos.NON_RETRYABLE_ERROR)))
  end.

(** Modelled from the spec: [Worker.create( { activities } )] registers
    the implementations one by one. *)
Fixpoint create (impls : list (string * F)) (reg : gmap string F)
    : option (gmap string F) :=
  match impls with
  | [] => Some reg
  | (name, f) :: rest =>
      match register name f reg with
      | Some reg' => create rest reg'
      | None => None
      end
  end.

End WithImpl.

Arguments register {F} name f reg.
Arguments invoke {F} reg name.
Arguments create {F} impls reg.

End Registry.

(* ===================================================================== *)
(** ** Concrete hosts, environments and random sources *)
(* ===================================================================== *)

Module Examples.

(** A host whose [parseFloat] reads the three rates used below (["0.1"] is
    the double 3602879701896397 / 2^55) and whose dates are counted in
    days. *)
Definition host : Js.Runtime :=
  {| Js.parseFloat := fun s =>
       if String.eqb s "0" then Js.Finite 0
       else if String.eqb s "1" then Js.Finite 1
       else if String.eqb s "0.1" then Js.Finite (3602879701896397 # 36028797018963968)
       else Js.NaN;
     Js.Date_parse := fun s =>
       if String.eqb s "2024-01-01" then Some 19723
       else if String.eqb s "2024-02-01" then Some 19754
       else if String.eqb s "2024-03-01" then Some 19783
       else None |}.

(** Chaos enabled with the given error rate, every kind enabled. *)
Definition env_rate (rate : string) : gmap string string :=
  <["CHAOS_ENABLED" := "true"]> (<["CHAOS_ERROR_RATE" := rate]> ∅).

(** Chaos enabled, rate 1, latency on. *)
Definition env_latency : gmap string string :=
  <["CHAOS_ADD_LATENCY" := "true"]> (env_rate "1").

(** Chaos enabled, rate 1, and a list of kinds that names no kind. *)
Definition env_unknown_kinds : gmap string string :=
  <["CHAOS_ERROR_TYPES" := "timeout, deadlock"]> (env_rate "1").

(** A world at the start of a run, over the given random source. *)
Definition start (f : nat -> Q) : World :=
  {| rng := f; cursor := 0; trace := [] |}.

(** The constant sources. *)
Definition zeros : nat -> Q := fun _ => 0%Q.
Definition halves : nat -> Q := fun _ => (1 # 2)%Q.

(** A source under which latency is injected and the rate check then lets
    the failure through. *)
Definition delay_then_fail : nat -> Q :=
  fun n => match n with
           | O => (1 # 8)%Q
           | S O => (1 # 2)%Q
           | S (S O) => (1 # 4)%Q
           | _ => (3 # 4)%Q
           end.

Definition network (id : string) : PaymentNetwork.t :=
  {| PaymentNetwork.bankId := "125000024";
     PaymentNetwork.identifier := id;
     PaymentNetwork.type := "US_ACH";
     PaymentNetwork.transferIn := true;
     PaymentNetwork.transferOut := true |}.

Definition statement (id date : string) : Statement.t :=
  {| Statement.accountId := "acc-1";
     Statement.statementId := id;
     Statement.statementDate := date;
     Statement.description := "Monthly statement";
     Statement.links := [];
     Statement.status := "AVAILABLE" |}.

(** A small data set: no accounts, three statements and three networks
    for the account ["acc-1"]. *)
Definition store : Activities.DataStore :=
  {| Activities.accounts := [];
     Activities.accountStatements :=
       {[ "acc-1" := [ statement "s1" "2024-01-01"; statement "s2" "2024-02-01";
                       statement "s3" "2024-03-01" ] ]};
     Activities.accountTransactions := ∅;
     Activities.accountPaymentNetworks :=
       {[ "acc-1" := [ network "n1"; network "n2"; network "n3" ] ]} |}.

(** An activity that times out on every attempt. *)
Definition always_times_out : nat -> Thrown + unit :=
  fun _ => inl (Failure (Chaos.thrown Chaos.DATABASE_TIMEOUT)).

(** An activity that hits a defect of the injector on its first attempt. *)
Definition defect_first : nat -> Thrown + unit :=
  fun _ => inl (TypeError Chaos.undefined_message).

End Examples.

(* ===================================================================== *)
(** ** Further observations on traces *)
(* ===================================================================== *)

Module Trace.

(** The warnings of a trace: the records [maybeCauseChaos] logs when it
    fires. *)
Definition warnings (tr : list Event) : list Event :=
  List.filter (fun e => match e with LogWarn _ _ _ => true | _ => false end) tr.

(** Every character of the string passes the test. *)
Fixpoint all_chars (P : Ascii.ascii -> bool) (s : string) : bool :=
  match s with
  | EmptyString => true
  | String c s' => P c && all_chars P s'
  end.

(** A string of white space only. *)
Definition blank (s : string) : bool := all_chars Js.is_space s.

(** A string without a comma. *)
Definition comma_free (s : string) : bool :=
  all_chars (fun c => negb (Ascii.eqb c Js.comma)) s.

End Trace.

(* ===================================================================== *)
(** ** [apps/api/src/types/fdx.ts]: customers and contacts *)
(* ===================================================================== *)

Module CustomerPreferences.
Record t := { notifications : bool; twoFactorAuth : bool }.
End CustomerPreferences.

Module Customer.
Record t := {
  customerId : string;
  name : string;
  email : string;
  status : string;
  createdDate : string;
  preferences : CustomerPreferences.t
}.
End Customer.

Module CustomerFilters.
Record t := { status : option string }.
End CustomerFilters.

Module Name.
Record t := {
  first : string;
  middle : option string;
  last : string;
  suffix : option string
}.
End Name.

Module Holder.
Record t := { relationship : string; name : Name.t }.
End Holder.

Module Address.
Record t := {
  line1 : string;
  line2 : option string;
  city : string;
  region : string;
  postalCode : string;
  country : string
}.
End Address.

Module Telephone.
Record t := { type : string; country : string; number : string }.
End Telephone.

Module AccountContact.
Record t := {
  holders : list Holder.t;
  emails : list string;
  addresses : list Address.t;
  telephones : list Telephone.t
}.
End AccountContact.

(* ===================================================================== *)
(** ** [apps/api/src/temporal/activities.ts]: the lookups *)
(* ===================================================================== *)

Module Lookups.

(** The exports of [data/customers.js] and the contacts of
    [data/accounts.js]; their contents are a parameter: an array of customers
    and a plain object keyed by account id, given by its own properties. *)
Record Directory := {
  customers : list Customer.t;
  accountContacts : gmap string AccountContact.t
}.

Section WithHost.
Variables (rt : Js.Runtime) (env : gmap string string).
Variables (ds : Activities.DataStore) (dir : Directory).

Definition getCurrentCustomer : M (option Customer.t) :=
  Chaos.maybeCauseChaosAsync rt env "getCurrentCustomer" ;;;
  sleep 75 ;;;
  let currentCustomer :=
    List.find (fun c => String.eqb (Customer.customerId c) "customer-123") (customers dir) in
  ret currentCustomer.

Definition getCustomerById (customerId : string) : M (option Customer.t) :=
  Chaos.maybeCauseChaosAsync rt env "getCustomerById" ;;;
  sleep 50 ;;;
  let customer :=
    List.find (fun c => String.eqb (Customer.customerId c) customerId) (customers dir) in
  ret customer.

(** An omitted [filters] ([None]) is the empty object. *)
Definition getCustomers (filters : option CustomerFilters.t) : M (list Customer.t) :=
  let filters := default {| CustomerFilters.status := None |} filters in
  Chaos.maybeCauseChaosAsync rt env "getCustomers" ;;;
  sleep 100 ;;;
  let filteredCustomers := customers dir in
  let filteredCustomers :=
    if Js.falsy (CustomerFilters.status filters) then filteredCustomers
    else List.filter
           (fun c => String.eqb (Customer.status c)
                       (default EmptyString (CustomerFilters.status filters)))
           filteredCustomers in
  ret filteredCustomers.

Definition getAccountById (accountId : string) : M (option Account.t) :=
  Chaos.maybeCauseChaosAsync rt env "getAccountById" ;;;
  sleep 50 ;;;
  let account :=
    List.find (fun acc => String.eqb (Account.accountId acc) accountId)
              (Activities.accounts ds) in
  ret account.

(** [contactInfo || null]: what is resolved is the contact, the member of
    [Object.prototype] that [accountId] names, or [null] ([None]). *)
Definition getAccountContactById (accountId : string)
    : M (option (Js.Value AccountContact.t)) :=
  Chaos.maybeCauseChaosAsync rt env "getAccountContactById" ;;;
  sleep 50 ;;;
  let contactInfo := Js.get (accountContacts dir) accountId in
  ret contactInfo.

Definition getAccountStatementById (accountId statementId : string)
    : M (option Statement.t) :=
  Chaos.maybeCauseChaosAsync rt env "getAccountStatementById" ;;;
  sleep 50 ;;;
  let statementsForAccount :=
    default (Js.Own []) (Js.get (Activities.accountStatements ds) accountId) in
  match statementsForAccount with
  | Js.Inherited _ => throw (TypeError "statementsForAccount.find is not a function")
  | Js.Own statementsForAccount =>
      let statement :=
        List.find (fun s => String.eqb (Statement.statementId s) statementId)
                  statementsForAccount in
      ret statement
  end.

End WithHost.

End Lookups.

(* ===================================================================== *)
(** ** The routes: [routes/accounts.ts] and [routes/customers.ts] *)
(* ===================================================================== *)

Module Http.

(** The shapes of the bodies the routes send. *)
Inductive Body (A : Type) :=
| Json (payload : A)
| Page (nextOffset : option string) (items : A)
| Error (code : option Z) (error : string)
| CodeMessage (code : Z) (message : string)
| Buffer (content : string).
Arguments Json {A} payload.
Arguments Page {A} nextOffset items.
Arguments Error {A} code error.
Arguments CodeMessage {A} code message.
Arguments Buffer {A} content.

(** What a handler did: the response it sent and the errors it passed to
    [logger.error], each with the message logged beside it. *)
Record Reply (A : Type) := {
  status : Z;
  headers : list (string * string);
  body : Body A;
  logged : list (Thrown * string)
}.
Arguments status {A} r.
Arguments headers {A} r.
Arguments body {A} r.
Arguments logged {A} r.

(** [res.status( s ).json( b )]. *)
Definition send {A} (s : Z) (b : Body A) : Reply A :=
  {| status := s; headers := []; body := b; logged := [] |}.

(** The [catch] blocks of the routes: log, then answer 500. *)
Definition internal {A} (error : Thrown) (context : string) : Reply A :=
  {| status := 500; headers := []; body := Error None "Internal server error";
     logged := [(error, context)] |}.

(** The discipline of the routes: one of four statuses; a 500 is the fixed
    body and comes with exactly one logged error; nothing else logs. *)
Definition contained {A} (r : Reply A) : Prop :=
  (status r = 200 \/ status r = 400 \/ status r = 404 \/ status r = 500)
  /\ (status r = 500 -> body r = Error None "Internal server error"
                        /\ exists e context, logged r = [(e, context)])
  /\ (status r <> 500 -> logged r = []).

End Http.

(** [try { m } catch ( error ) { h error }]. *)
Definition catch {A} (m : M A) (h : Thrown -> M A) : M A :=
  fun w =>
    match m w with
    | (inl e, w') => h e w'
    | (inr a, w') => (inr a, w')
    end.

Module Routes.

Import Http.

(** What the routes take from outside the sources: the host's [parseInt]
    ([None] is [NaN]) and [isValidDate] of [utils/validation.js]. *)
Record Host := {
  parseInt : string -> option Z;
  isValidDate : string -> bool
}.

(** The functions the routes import from [temporal/client.ts]. *)
Record Client := {
  fetchCurrentCustomer : M (option Customer.t);
  fetchAccounts : Z -> Z -> M PaginatedAccountsResult.t;
  fetchAccountById : string -> M (option Account.t);
  fetchAccountContactById : string -> M (option AccountContact.t);
  fetchAccountStatements : string -> Z -> Z -> string -> string -> M PaginatedStatementsResult.t;
  fetchAccountStatementById : string -> string -> M (option Statement.t);
  fetchAccountTransactions :
    string -> Z -> Z -> string -> string -> M PaginatedTransactionsResult.t;
  fetchPaymentNetworks : string -> Z -> Z -> M PaginatedPaymentNetworksResult.t;
  fetchAssetTransferNetworks :
    string -> Z -> Z -> M PaginatedAssetTransferNetworksResult.t
}.

Record Request := {
  params : gmap string string;
  query : gmap string string
}.

(** [parseInt( v ) || fallback], where an absent [v] is converted to the
    string ["undefined"] before it is parsed, and [NaN] and 0 are falsy. *)
Definition int_or (h : Host) (v : option string) (fallback : Z) : Z :=
  match parseInt h (default "undefined"%string v) with
  | Some n => if n =? 0 then fallback else n
  | None => fallback
  end.

(** [new Date( a ) > new Date( b )]; an invalid date compares false. *)
Definition date_gt (rt : Js.Runtime) (a b : string) : bool :=
  match Js.Date_parse rt a, Js.Date_parse rt b with
  | Some x, Some y => y <? x
  | _, _ => false
  end.

(** [hasMore ? { nextOffset: String( offset + limit ) } : {}]. *)
Definition page_of (offset limit total : Z) : option string :=
  let hasMore := offset + limit <? total in
  if hasMore then Some (pretty (offset + limit)) else None.

Definition account_not_found : string :=
  "An account with the provided account ID could not be found".

Section WithClient.
Variables (rt : Js.Runtime) (h : Host) (c : Client).

(** [verifyAccount]: the account, or the reply already sent. *)
Definition verifyAccount {A} (accountId : string) (notFoundCode : Z)
    : M (Reply A + Account.t) :=
  catch
    (account <- fetchAccountById c accountId ;;
     match account with
     | None => ret (inl (send 404 (Error (Some notFoundCode) account_not_found)))
     | Some a => ret (inr a)
     end)
    (fun error => ret (inl (internal error "Error validating account"))).

(** [GET /accounts]. *)
Definition listAccounts (req : Request) : M (Reply (list Account.t)) :=
  let offset := int_or h (query req !! "offset") 0 in
  let limit := int_or h (query req !! "limit") 100 in
  catch
    (result <- fetchAccounts c offset limit ;;
     let page := page_of offset limit (PaginatedAccountsResult.total result) in
     ret (send 200 (Page page (PaginatedAccountsResult.accounts result))))
    (fun error => ret (internal error "Error retrieving accounts")).

(** [GET /accounts/:accountId]. *)
Definition showAccount (accountId : string) : M (Reply Account.t) :=
  catch
    (account <- fetchAccountById c accountId ;;
     match account with
     | None => ret (send 404 (Error (Some 701) account_not_found))
     | Some a => ret (send 200 (Json a))
     end)
    (fun error => ret (internal error "Error retrieving account")).

(** [GET /accounts/:accountId/contact]. *)
Definition showContact (accountId : string) : M (Reply AccountContact.t) :=
  account <- verifyAccount accountId 701 ;;
  match account with
  | inl sent => ret sent
  | inr _ =>
      catch
        (contact <- fetchAccountContactById c accountId ;;
         match contact with
         | None => ret (send 404 (Error (Some 601) account_not_found))
         | Some k => ret (send 200 (Json k))
         end)
        (fun error => ret (internal error "Error retrieving account contact"))
  end.

(** [GET /accounts/:accountId/statements]. *)
Definition listStatements (accountId : string) (req : Request)
    : M (Reply (list Statement.t)) :=
  let offset := int_or h (query req !! "offset") 0 in
  let limit := int_or h (query req !! "limit") 100 in
  let startTime := Js.or_default (query req !! "startTime") EmptyString in
  let endTime := Js.or_default (query req !! "endTime") EmptyString in
  account <- verifyAccount accountId 701 ;;
  match account with
  | inl sent => ret sent
  | inr _ =>
      if negb (isValidDate h startTime) || negb (isValidDate h endTime)
      then ret (send 400 (Error None "Invalid date format for startTime or endTime"))
      else if negb (String.eqb startTime EmptyString)
              && negb (String.eqb endTime EmptyString)
              && date_gt rt startTime endTime
      then ret (send 400 (Error None "startTime must be before or equal to endTime"))
      else
        catch
          (result <- fetchAccountStatements c accountId offset limit startTime endTime ;;
           let page := page_of offset limit (PaginatedStatementsResult.total result) in
           ret (send 200 (Page page (PaginatedStatementsResult.statements result))))
          (fun error => ret (internal error "Error retrieving accounts"))
  end.

(** The bytes of the placeholder statement. *)
Definition pdfContent : string :=
  let nl := String (Ascii.ascii_of_nat 10) EmptyString in
  "%PDF-1.4" +:+ nl +:+ "1 0 obj<<>>endobj" +:+ nl +:+ "trailer<<>>" +:+ nl
  +:+ "%%EOF" +:+ nl.

(** [GET /accounts/:accountId/statements/:statementId]. *)
Definition showStatement (accountId statementId : string) : M (Reply unit) :=
  catch
    (account <- verifyAccount accountId 701 ;;
     match account with
     | inl sent => ret sent
     | inr _ =>
         statement <- fetchAccountStatementById c accountId statementId ;;
         match statement with
         | None =>
             ret (send 404 (Error (Some 601)
                              "Statement not found for the provided accountId/statementId"))
         | Some _ =>
             ret {| status := 200;
                    headers :=
                      [ ("Content-Type"%string, "application/pdf"%string);
                        ("Content-Disposition"%string,
                         "inline; filename=statement-" +:+ statementId +:+ ".pdf");
                        ("Content-Length"%string,
                         pretty (Z.of_nat (String.length pdfContent))) ];
                    body := Buffer pdfContent;
                    logged := [] |}
         end
     end)
    (fun error => ret (internal error "Error retrieving statement PDF")).

(** [GET /accounts/:accountId/transactions]. *)
Definition listTransactions (accountId : string) (req : Request)
    : M (Reply (list Transaction.t)) :=
  let offset := int_or h (query req !! "offset") 0 in
  let limit := int_or h (query req !! "limit") 100 in
  let startTime := Js.or_default (query req !! "startTime") EmptyString in
  let endTime := Js.or_default (query req !! "endTime") EmptyString in
  account <- verifyAccount accountId 701 ;;
  match account with
  | inl sent => ret sent
  | inr _ =>
      if negb (isValidDate h startTime) || negb (isValidDate h endTime)
      then ret (send 400 (Error None "Invalid date format for startTime or endTime"))
      else if negb (String.eqb startTime EmptyString)
              && negb (String.eqb endTime EmptyString)
              && date_gt rt startTime endTime
      then ret (send 400 (Error None "startTime must be before or equal to endTime"))
      else
        catch
          (result <- fetchAccountTransactions c accountId offset limit startTime endTime ;;
           let page := page_of offset limit (PaginatedTransactionsResult.total result) in
           ret (send 200 (Page page (PaginatedTransactionsResult.transactions result))))
          (fun error => ret (internal error "Error retrieving transactions"))
  end.

(** [GET /accounts/:accountId/payment-networks]. *)
Definition listPaymentNetworks (accountId : string) (req : Request)
    : M (Reply (list PaymentNetwork.t)) :=
  let offset := int_or h (query req !! "offset") 0 in
  let limit := int_or h (query req !! "limit") 100 in
  account <- verifyAccount accountId 701 ;;
  match account with
  | inl sent => ret sent
  | inr _ =>
      catch
        (result <- fetchPaymentNetworks c accountId offset limit ;;
         let page := page_of offset limit (PaginatedPaymentNetworksResult.total result) in
         ret (send 200 (Page page (PaginatedPaymentNetworksResult.paymentNetworks result))))
        (fun error => ret (internal error "Error retrieving accounts"))
  end.

(** [GET /accounts/:accountId/asset-transfer-networks]. *)
Definition listAssetTransferNetworks (accountId : string) (req : Request)
    : M (Reply (list PaymentNetwork.t)) :=
  let offset := int_or h (query req !! "offset") 0 in
  let limit := int_or h (query req !! "limit") 100 in
  account <- verifyAccount accountId 701 ;;
  match account with
  | inl sent => ret sent
  | inr _ =>
      catch
        (result <- fetchAssetTransferNetworks c accountId offset limit ;;
         let page :=
           page_of offset limit (PaginatedAssetTransferNetworksResult.total result) in
         ret (send 200
                (Page page
                   (PaginatedAssetTransferNetworksResult.assetTransferNetworks result))))
        (fun error => ret (internal error "Error retrieving asset transfer networks"))
  end.

(** [GET /customers/current]. *)
Definition showCurrentCustomer : M (Reply Customer.t) :=
  catch
    (customer <- fetchCurrentCustomer c ;;
     match customer with
     | None =>
         ret (send 404
                (CodeMessage 601
                   "A customer with the provided customer ID could not be found"))
     | Some k => ret (send 200 (Json k))
     end)
    (fun error => ret (internal error "Error retrieving current customer")).

End WithClient.

End Routes.

(* ===================================================================== *)
(** ** The access-token middleware of [apps/api/src/index.ts] *)
(* ===================================================================== *)

Module Auth.

(** [req.headers[ "authorization" ]] when it is present: a string, or a
    list of strings. *)
Inductive HeaderValue :=
| One (s : string)
| Many (l : list string).

(** What the middleware decides: [next()], with [req.user] set when a token
    was verified, or a 401 whose body is
    [sanitizeError( new AuthenticationError( message ), fallback )]. *)
Inductive Decision (P : Type) :=
| Next (user : option P)
| Reject (message fallback : string).
Arguments Next {P} user.
Arguments Reject {P} message fallback.

Record Outcome (P : Type) := {
  decision : Decision P;
  logs : list string
}.
Arguments decision {P} o.
Arguments logs {P} o.

(** [s.startsWith( p )]. *)
Definition startsWith (s p : string) : bool := String.prefix p s.

(** [s.slice( n )] for [0 <= n]. *)
Definition slice_from (s : string) (n : nat) : string :=
  String.substring n (String.length s - n) s.

(** The separator of [split( "." )]. *)
Definition dot : Ascii.ascii := Ascii.ascii_of_nat 46.

(** [auth || ""], then the token: what follows ["Bearer "] in a string
    header, and the empty string otherwise. *)
Definition token_of (authorization : option HeaderValue) : string :=
  match authorization with
  | Some (One auth) => if startsWith auth "Bearer " then slice_from auth 7 else EmptyString
  | Some (Many _) => EmptyString
  | None => EmptyString
  end.

Section WithVerifier.
(** The claims of a verified token, and [jwtVerify] of the [jose] library
    with the key set, issuer and audience of the service. *)
Variable P : Type.
Variable jwtVerify : string -> Thrown + P.

Definition middleware (path : string) (authorization : option HeaderValue) : Outcome P :=
  if startsWith path "/public" then {| decision := Next None; logs := [] |}
  else
    let token := token_of authorization in
    match token with
    | EmptyString =>
        {| decision := Reject "Missing access token" "Authentication required";
           logs := [ "API request received"%string;
                     "Token validation failed - No bearer token"%string ] |}
    | _ =>
        let parts := Js.split dot token in
        let warned :=
          if (length parts =? 3)%nat then []
          else [ "Access token not a compact JWS"%string ] in
        match jwtVerify token with
        | inr payload =>
            {| decision := Next (Some payload);
               logs := [ "API request received"%string;
                         "Token received, attempting validation"%string ]
                       ++ warned ++ [ "Token validation successful"%string ] |}
        | inl _ =>
            {| decision := Reject "Invalid access token" "Authentication failed";
               logs := [ "API request received"%string;
                         "Token received, attempting validation"%string ]
                       ++ warned ++ [ "Token validation failed"%string;
                                      "JWT verification"%string ] |}
        end
    end.

End WithVerifier.

Arguments middleware {P} jwtVerify path authorization.

End Auth.

(* ===================================================================== *)
(** ** [apps/api/src/temporal/client.ts] and the workflows it starts *)
(* ===================================================================== *)

Module Dispatch.

(** The values that travel as workflow arguments. *)
Inductive Arg :=
| Str (s : string)
| Num (n : Z)
| Filters (f : CustomerFilters.t).

(** [TASK_QUEUE] of [worker.ts]. *)
Definition TASK_QUEUE : string := "api-tasks".

(** What [executeWorkflow] passes to [workflow.start]. *)
Record Start := {
  workflowName : string;
  taskQueue : string;
  workflowId : string;
  args : list Arg
}.

(** [executeWorkflow], up to the start of the workflow; [uuid] is the value
    of [uuidv4()]. *)
Definition executeWorkflow (uuid : string) (workflowName : string) (args : list Arg) : Start :=
  {| workflowName := workflowName;
     taskQueue := TASK_QUEUE;
     workflowId := workflowName +:+ "-" +:+ uuid;
     args := args |}.

Section Fetch.
Variable uuid : string.

Definition fetchCurrentCustomer : Start :=
  executeWorkflow uuid "getCurrentCustomerWorkflow" [].

Definition fetchCustomerById (customerId : string) : Start :=
  executeWorkflow uuid "getCustomerByIdWorkflow" [Str customerId].

Definition fetchCustomers (filters : CustomerFilters.t) : Start :=
  executeWorkflow uuid "getCustomersWorkflow" [Filters filters].

Definition fetchAccounts (offset limit : Z) : Start :=
  executeWorkflow uuid "getAccountsWorkflow" [Num offset; Num limit].

Definition fetchAccountById (accountId : string) : Start :=
  executeWorkflow uuid "getAccountByIdWorkflow" [Str accountId].

Definition fetchAccountContactById (accountId : string) : Start :=
  executeWorkflow uuid "getAccountContactByIdWorkflow" [Str accountId].

Definition fetchAccountStatements (accountId : string) (offset limit : Z)
    (startTime endTime : string) : Start :=
  executeWorkflow uuid "getAccountStatementsWorkflow"
    [Str accountId; Num offset; Num limit; Str startTime; Str endTime].

Definition fetchAccountStatementById (accountId statementId : string) : Start :=
  executeWorkflow uuid "getAccountStatementByIdWorkflow" [Str accountId; Str statementId].

Definition fetchAccountTransactions (accountId : string) (offset limit : Z)
    (startTime endTime : string) : Start :=
  executeWorkflow uuid "getAccountTransactionsWorkflow"
    [Str accountId; Num offset; Num limit; Str startTime; Str endTime].

Definition fetchPaymentNetworks (accountId : string) (offset limit : Z) : Start :=
  executeWorkflow uuid "getPaymentNetworksWorkflow" [Str accountId; Num offset; Num limit].

Definition fetchAssetTransferNetworks (accountId : string) (offset limit : Z) : Start :=
  executeWorkflow uuid "getAssetTransferNetworksWorkflow"
    [Str accountId; Num offset; Num limit].

End Fetch.

(** A call of a proxied activity: its name and the arguments it is given,
    where [None] is [undefined]. *)
Record ActivityCall := {
  activity : string;
  arguments : list (option Arg)
}.

(** The exports of [workflows.ts], by name: each workflow function applied
    to the argument list, a parameter beyond the list being [undefined].
    [getCustomersWorkflow] defaults its [filters] to the empty object. *)
Definition workflows (name : string) (args : list Arg) : option ActivityCall :=
  let call activity n :=
    Some {| activity := activity;
            arguments := List.map (fun i => args !! i) (seq 0 n) |} in
  if String.eqb name "getCurrentCustomerWorkflow" then call "getCurrentCustomer"%string 0%nat
  else if String.eqb name "getCustomerByIdWorkflow" then call "getCustomerById"%string 1%nat
  else if String.eqb name "getCustomersWorkflow" then
    Some {| activity := "getCustomers";
            arguments :=
              [ Some (default (Filters {| CustomerFilters.status := None |}) (args !! 0%nat)) ] |}
  else if String.eqb name "getAccountsWorkflow" then call "getAccounts"%string 2%nat
  else if String.eqb name "getAccountByIdWorkflow" then call "getAccountById"%string 1%nat
  else if String.eqb name "getAccountContactByIdWorkflow"
  then call "getAccountContactById"%string 1%nat
  else if String.eqb name "getAccountStatementsWorkflow"
  then call "getAccountStatements"%string 5%nat
  else if String.eqb name "getAccountStatementByIdWorkflow"
  then call "getAccountStatementById"%string 2%nat
  else if String.eqb name "getAccountTransactionsWorkflow"
  then call "getAccountTransactions"%string 5%nat
  else if String.eqb name "getPaymentNetworksWorkflow"
  then call "getPaymentNetworks"%string 3%nat
  else if String.eqb name "getAssetTransferNetworksWorkflow"
  then call "getAssetTransferNetworks"%string 3%nat
  else None.

End Dispatch.

(* ===================================================================== *)
(** ** Further environments *)
(* ===================================================================== *)

Module MoreExamples.

(** Everything switched on, but [CHAOS_ENABLED] spelled in capitals. *)
Definition env_capitals : gmap string string :=
  <["CHAOS_ENABLED" := "TRUE"]> Examples.env_latency.

(** Chaos enabled with a rate that does not parse. *)
Definition env_bad_rate : gmap string string := Examples.env_rate "often".

(** Chaos enabled at rate 0.1 with two kinds, written with blanks. *)
Definition env_two_kinds : gmap string string :=
  <["CHAOS_ERROR_TYPES" := "DATABASE_TIMEOUT, NETWORK_TIMEOUT"]> (Examples.env_rate "0.1").

Definition customer (id status : string) : Customer.t :=
  {| Customer.customerId := id;
     Customer.name := "Pat Doe";
     Customer.email := "pat@example.com";
     Customer.status := status;
     Customer.createdDate := "2024-01-01";
     Customer.preferences :=
       {| CustomerPreferences.notifications := true;
          CustomerPreferences.twoFactorAuth := false |} |}.

Definition account (id : string) : Account.t :=
  {| Account.accountCategory := "DEPOSIT_ACCOUNT";
     Account.accountId := id;
     Account.accountNumberDisplay := "5820";
     Account.productName := "Checking";
     Account.status := "OPEN";
     Account.currency := {| Currency.currencyCode := "USD" |};
     Account.accountType := "CHECKING";
     Account.currentBalance := 100;
     Account.availableBalance := None;
     Account.availableCredit := None;
     Account.creditLine := None;
     Account.accountNumber := None;
     Account.principalBalance := None;
     Account.originalPrincipal := None;
     Account.interestRate := None;
     Account.interestRateType := None;
     Account.loanTerm := None |}.

Definition contact : AccountContact.t :=
  {| AccountContact.holders := [];
     AccountContact.emails := ["pat@example.com"];
     AccountContact.addresses := [];
     AccountContact.telephones := [] |}.

(** Three customers, one of them the current one, and one contact. *)
Definition directory : Lookups.Directory :=
  {| Lookups.customers :=
       [ customer "customer-7" "active"; customer "customer-123" "inactive";
         customer "customer-9" "active" ];
     Lookups.accountContacts := {[ "acc-1" := contact ]} |}.

(** The data of [Examples.store] with three accounts. *)
Definition bank : Activities.DataStore :=
  {| Activities.accounts := [ account "acc-1"; account "acc-2"; account "acc-3" ];
     Activities.accountStatements := Activities.accountStatements Examples.store;
     Activities.accountTransactions := Activities.accountTransactions Examples.store;
     Activities.accountPaymentNetworks := Activities.accountPaymentNetworks Examples.store |}.

(** Chaos switched off. *)
Definition env_off : gmap string string := ∅.

(** A client that runs the activities in place, on the example data; of
    what the contact lookup resolves, only a contact is passed on. *)
Definition direct (env : gmap string string) : Routes.Client :=
  {| Routes.fetchCurrentCustomer := Lookups.getCurrentCustomer Examples.host env directory;
     Routes.fetchAccounts := fun offset limit =>
       Activities.getAccounts Examples.host env bank (Some offset) (Some limit);
     Routes.fetchAccountById := Lookups.getAccountById Examples.host env bank;
     Routes.fetchAccountContactById := fun accountId =>
       (found <- Lookups.getAccountContactById Examples.host env directory accountId ;;
        ret (match found with
             | Some (Js.Own contact) => Some contact
             | _ => None
             end));
     Routes.fetchAccountStatements := fun accountId offset limit startTime endTime =>
       Activities.getAccountStatements Examples.host env bank accountId (Some offset)
         (Some limit) (Some startTime) (Some endTime);
     Routes.fetchAccountStatementById := Lookups.getAccountStatementById Examples.host env bank;
     Routes.fetchAccountTransactions := fun accountId offset limit startTime endTime =>
       Activities.getAccountTransactions Examples.host env bank accountId (Some offset)
         (Some limit) (Some startTime) (Some endTime);
     Routes.fetchPaymentNetworks := fun accountId offset limit =>
       Activities.getPaymentNetworks Examples.host env bank accountId (Some offset) (Some limit);
     Routes.fetchAssetTransferNetworks := fun accountId offset limit =>
       Activities.getAssetTransferNetworks Examples.host env bank accountId (Some offset)
         (Some limit) |}.

(** A host that parses a few numerals and accepts the dates of
    [Examples.host] and the empty string. *)
Definition web : Routes.Host :=
  {| Routes.parseInt := fun s =>
       if String.eqb s "0" then Some 0
       else if String.eqb s "1" then Some 1
       else if String.eqb s "2" then Some 2
       else if String.eqb s "100" then Some 100
       else None;
     Routes.isValidDate := fun s =>
       match s with
       | EmptyString => true
       | _ => match Js.Date_parse Examples.host s with Some _ => true | None => false end
       end |}.

(** A request with the given query pairs. *)
Definition request (q : list (string * string)) : Routes.Request :=
  {| Routes.params := ∅; Routes.query := list_to_map q |}.

End MoreExamples.

(* ===================================================================== *)
(** * Properties *)
(* ===================================================================== *)

(** ** Arithmetic of draws *)

Lemma Qle_bool_false (a b : Q) : Qle_bool a b = false <-> (b < a)%Q.
Proof.
  split; intros H.
  - apply Qnot_le_lt. intros Hle. apply Qle_bool_iff in Hle. congruence.
  - destruct (Qle_bool a b) eqn:E; [|reflexivity].
    apply Qle_bool_iff in E. exfalso. exact (Qlt_not_le _ _ H E).
Qed.

Lemma Js_lt_true (a b : Q) : Js.lt a b = true <-> (a < b)%Q.
Proof.
  unfold Js.lt. rewrite negb_true_iff. apply Qle_bool_false.
Qed.

Lemma Js_gt_finite (r q : Q) : Js.gt r (Js.Finite q) = true <-> (q < r)%Q.
Proof.
  simpl. rewrite negb_true_iff. apply Qle_bool_false.
Qed.

Lemma inject_Z_pos (n : Z) : 0 < n -> (0 < inject_Z n)%Q.
Proof.
  intros Hn. change 0%Q with (inject_Z 0). rewrite <- Zlt_Qlt. exact Hn.
Qed.

(** [Math.floor( r * n )] for a draw [r] in [0, 1) is an index below [n]. *)
Lemma floor_draw_range (r : Q) (n : Z) :
  (0 <= r)%Q -> (r < 1)%Q -> 0 < n ->
  0 <= Qfloor (r * inject_Z n) < n.
Proof.
  intros H0 H1 Hn.
  pose proof (inject_Z_pos n Hn) as Hn'.
  split.
  - rewrite <- (Qfloor_Z 0). apply Qfloor_resp_le.
    apply Qmult_le_0_compat; [exact H0 | apply Qlt_le_weak; exact Hn'].
  - assert (Hlt : (r * inject_Z n < 1 * inject_Z n)%Q)
      by (apply Qmult_lt_compat_r; assumption).
    rewrite Qmult_1_l in Hlt.
    pose proof (Qfloor_le (r * inject_Z n)) as Hfl.
    rewrite Zlt_Qlt. eapply Qle_lt_trans; eassumption.
Qed.

(** ** The fault injector: runs, draws and traces *)

Section Injector.
Variables (rt : Js.Runtime) (env : gmap string string).

Import Observe.

Local Ltac run_step :=
  cbv beta iota zeta delta [bind random ret throw sleep emit fresh drawn];
  cbn [fst snd rng cursor trace negb].

Local Ltac split_run :=
  repeat (run_step;
          match goal with
          | |- context [if ?b then _ else _] => destruct b eqn:?
          | |- context [match ?o with Some _ => _ | None => _ end] => destruct o eqn:?
          end).

Local Ltac run_injector :=
  unfold Chaos.maybeCauseChaosAsync, Chaos.maybeCauseChaos; split_run; run_step.

Local Ltac trace_tail :=
  rewrite <- ?app_assoc; rewrite ?drop_app_length, ?drop_all, ?app_nil_r;
  rewrite ?Nat.sub_diag, ?Nat.sub_succ_l, ?Nat.sub_diag by lia.

Lemma same_draws_0 (w1 w2 : World) :
  same_draws w1 w2 -> rng w1 (cursor w1) = rng w2 (cursor w2).
Proof. intros H. specialize (H 0%nat). rewrite !Nat.add_0_r in H. exact H. Qed.

Lemma same_draws_step (w1 w2 : World) (t1 t2 : list Event) :
  same_draws w1 w2 ->
  same_draws {| rng := rng w1; cursor := S (cursor w1); trace := t1 |}
             {| rng := rng w2; cursor := S (cursor w2); trace := t2 |}.
Proof.
  intros H i. simpl. specialize (H (S i)).
  rewrite !Nat.add_succ_r in H. exact H.
Qed.

Lemma same_draws_step2 (w1 w2 : World) (t1 t2 : list Event) :
  same_draws w1 w2 ->
  same_draws {| rng := rng w1; cursor := S (S (cursor w1)); trace := t1 |}
             {| rng := rng w2; cursor := S (S (cursor w2)); trace := t2 |}.
Proof.
  intros H i. simpl. specialize (H (S (S i))).
  rewrite !Nat.add_succ_r in H. exact H.
Qed.

Lemma same_draws_trace (w1 w2 : World) (t1 t2 : list Event) :
  same_draws w1 w2 ->
  same_draws {| rng := rng w1; cursor := cursor w1; trace := t1 |}
             {| rng := rng w2; cursor := cursor w2; trace := t2 |}.
Proof. intros H i. simpl. apply H. Qed.

(** A run of [maybeCauseChaos] extends the trace and never moves the
    cursor back. *)
Lemma maybeCauseChaos_extends (op : string) (w : World) :
  let r := Chaos.maybeCauseChaos rt env op w in
  trace (snd r) = trace w ++ fresh w r /\ (cursor w <= cursor (snd r))%nat
  /\ rng (snd r) = rng w.
Proof.
  run_injector; trace_tail; repeat split; auto with lia.
Qed.

(** The operation name reaches nothing but the [operation] field of the log
    records: from worlds with the same upcoming draws, two runs of
    [maybeCauseChaos] agree on everything else. *)
Lemma maybeCauseChaos_operation (op1 op2 : string) (w1 w2 : World) :
  same_draws w1 w2 ->
  let r1 := Chaos.maybeCauseChaos rt env op1 w1 in
  let r2 := Chaos.maybeCauseChaos rt env op2 w2 in
  fst r1 = fst r2
  /\ drawn w1 r1 = drawn w2 r2
  /\ List.map erase_operation (fresh w1 r1) = List.map erase_operation (fresh w2 r2)
  /\ same_draws (snd r1) (snd r2).
Proof.
  intros H.
  pose proof (same_draws_0 _ _ H) as H0.
  pose proof (same_draws_0 _ _ (same_draws_step _ _ [] [] H)) as H1.
  simpl in H1.
  unfold Chaos.maybeCauseChaos. run_step.
  destruct (negb _) eqn:?; run_step; [trace_tail; auto|].
  rewrite <- H0.
  destruct (Js.gt _ _) eqn:?; run_step;
    [trace_tail; repeat split; auto using same_draws_step|].
  rewrite <- H1.
  destruct (Js.index _ _) eqn:?; run_step;
    [destruct (negb (Chaos.retryable _)) eqn:?; run_step|];
    trace_tail; repeat split;
    auto using same_draws_step, same_draws_step2, same_draws_trace.
Qed.

(** *** The latency phase of [maybeCauseChaosAsync] *)

Lemma async_disabled (op : string) (w : World) :
  Chaos.enabled (Chaos.getConfig rt env) = false ->
  Chaos.maybeCauseChaosAsync rt env op w = (inr tt, w).
Proof.
  intros He. unfold Chaos.maybeCauseChaosAsync. rewrite He. reflexivity.
Qed.

Lemma async_latency_off (op : string) (w : World) :
  Chaos.enabled (Chaos.getConfig rt env) = true ->
  Js.is_true (env !! "CHAOS_ADD_LATENCY") = false ->
  Chaos.maybeCauseChaosAsync rt env op w = Chaos.maybeCauseChaos rt env op w.
Proof.
  intros He Hl. unfold Chaos.maybeCauseChaosAsync. rewrite He, Hl. reflexivity.
Qed.

Lemma async_latency_miss (op : string) (w : World) :
  Chaos.enabled (Chaos.getConfig rt env) = true ->
  Js.is_true (env !! "CHAOS_ADD_LATENCY") = true ->
  Js.lt (rng w (cursor w)) Js.literal_0_3 = false ->
  Chaos.maybeCauseChaosAsync rt env op w =
  Chaos.maybeCauseChaos rt env op
    {| rng := rng w; cursor := S (cursor w);
       trace := trace w ++ [Random (rng w (cursor w))] |}.
Proof.
  intros He Hl Hg. unfold Chaos.maybeCauseChaosAsync. rewrite He, Hl.
  run_step. rewrite Hg. reflexivity.
Qed.

Lemma async_latency_hit (op : string) (w : World) :
  Chaos.enabled (Chaos.getConfig rt env) = true ->
  Js.is_true (env !! "CHAOS_ADD_LATENCY") = true ->
  Js.lt (rng w (cursor w)) Js.literal_0_3 = true ->
  Chaos.maybeCauseChaosAsync rt env op w =
  Chaos.maybeCauseChaos rt env op
    {| rng := rng w; cursor := S (S (cursor w));
       trace := trace w ++
                [ Random (rng w (cursor w));
                  Random (rng w (S (cursor w)));
                  LogDebug op (Qfloor (rng w (S (cursor w)) * 500));
                  Timer (Qfloor (rng w (S (cursor w)) * 500)) ] |}.
Proof.
  intros He Hl Hg. unfold Chaos.maybeCauseChaosAsync. rewrite He, Hl.
  run_step. rewrite Hg. run_step. rewrite <- !app_assoc. reflexivity.
Qed.

(** The fresh events of a run that starts after a prefix was appended. *)
Lemma fresh_after (op : string) (w : World) (c : nat) (pre : list Event) :
  let w' := {| rng := rng w; cursor := c; trace := trace w ++ pre |} in
  fresh w (Chaos.maybeCauseChaos rt env op w') =
  pre ++ fresh w' (Chaos.maybeCauseChaos rt env op w').
Proof.
  intros w'. destruct (maybeCauseChaos_extends op w') as (Ht & _ & _).
  unfold fresh at 1. rewrite Ht. unfold w' at 1. cbn [trace].
  rewrite <- app_assoc, drop_app_length. reflexivity.
Qed.

Lemma drawn_after (op : string) (w : World) (k : nat) (t : list Event) :
  let w' := {| rng := rng w; cursor := (k + cursor w)%nat; trace := t |} in
  drawn w (Chaos.maybeCauseChaos rt env op w') =
  (k + drawn w' (Chaos.maybeCauseChaos rt env op w'))%nat.
Proof.
  intros w'. destruct (maybeCauseChaos_extends op w') as (_ & Hc & _).
  unfold drawn. unfold w' in *. cbn [cursor] in *. lia.
Qed.

Lemma maybeCauseChaos_operation_after (op1 op2 : string) (w1 w2 : World)
    (k : nat) (pre1 pre2 : list Event) :
  same_draws w1 w2 ->
  List.map erase_operation pre1 = List.map erase_operation pre2 ->
  let w1' := {| rng := rng w1; cursor := (k + cursor w1)%nat; trace := trace w1 ++ pre1 |} in
  let w2' := {| rng := rng w2; cursor := (k + cursor w2)%nat; trace := trace w2 ++ pre2 |} in
  let r1 := Chaos.maybeCauseChaos rt env op1 w1' in
  let r2 := Chaos.maybeCauseChaos rt env op2 w2' in
  fst r1 = fst r2
  /\ drawn w1 r1 = drawn w2 r2
  /\ List.map erase_operation (fresh w1 r1) = List.map erase_operation (fresh w2 r2)
  /\ same_draws (snd r1) (snd r2).
Proof.
  intros H Hpre w1' w2' r1 r2.
  assert (H' : same_draws w1' w2').
  { intros i. unfold w1', w2'. cbn [rng cursor].
    replace (k + cursor w1 + i)%nat with (cursor w1 + (k + i))%nat by lia.
    replace (k + cursor w2 + i)%nat with (cursor w2 + (k + i))%nat by lia.
    apply H. }
  destruct (maybeCauseChaos_operation op1 op2 w1' w2' H') as (Ha & Hb & Hc & Hd).
  fold r1 r2 in Ha, Hb, Hc, Hd.
  repeat split; [exact Ha | | | exact Hd].
  - unfold r1, r2, w1', w2'. rewrite !drawn_after.
    fold w1' w2' r1 r2. rewrite Hb. reflexivity.
  - unfold r1, r2, w1', w2'. rewrite !fresh_after.
    fold w1' w2' r1 r2. rewrite !map_app, Hc, Hpre. reflexivity.
Qed.

(** The operation name reaches nothing but the [operation] field of the log
    records, for [maybeCauseChaosAsync] as well. *)
Lemma maybeCauseChaosAsync_operation (op1 op2 : string) (w1 w2 : World) :
  same_draws w1 w2 ->
  let r1 := Chaos.maybeCauseChaosAsync rt env op1 w1 in
  let r2 := Chaos.maybeCauseChaosAsync rt env op2 w2 in
  fst r1 = fst r2
  /\ drawn w1 r1 = drawn w2 r2
  /\ List.map erase_operation (fresh w1 r1) = List.map erase_operation (fresh w2 r2)
  /\ same_draws (snd r1) (snd r2).
Proof.
  intros H.
  pose proof (same_draws_0 _ _ H) as H0.
  pose proof (same_draws_0 _ _ (same_draws_step _ _ [] [] H)) as H1.
  cbn [rng cursor] in H1.
  destruct (Chaos.enabled (Chaos.getConfig rt env)) eqn:He.
  2:{ cbv zeta. rewrite !async_disabled by assumption.
      unfold fresh, drawn. cbn [fst snd].
      rewrite !drop_all, !Nat.sub_diag. auto. }
  destruct (Js.is_true (env !! "CHAOS_ADD_LATENCY")) eqn:Hl.
  2:{ cbv zeta. rewrite !async_latency_off by assumption.
      apply maybeCauseChaos_operation. exact H. }
  destruct (Js.lt (rng w1 (cursor w1)) Js.literal_0_3) eqn:Hg; cbv zeta.
  - rewrite (async_latency_hit op1 w1), (async_latency_hit op2 w2)
      by (rewrite <- ?H0; assumption).
    rewrite <- H0, <- H1.
    apply (maybeCauseChaos_operation_after op1 op2 w1 w2 2); [exact H | reflexivity].
  - rewrite (async_latency_miss op1 w1), (async_latency_miss op2 w2)
      by (rewrite <- ?H0; assumption).
    rewrite <- H0.
    apply (maybeCauseChaos_operation_after op1 op2 w1 w2 1); [exact H | reflexivity].
Qed.

End Injector.

(** ** The fault injector: what it decides *)

Section InjectorOutcome.
Variables (rt : Js.Runtime) (env : gmap string string).

Import Observe.

Local Ltac open_sync :=
  unfold Chaos.maybeCauseChaos;
  cbv beta iota zeta delta [bind random ret throw emit];
  cbn [fst snd rng cursor trace negb].

Lemma sync_disabled (op : string) (w : World) :
  Chaos.enabled (Chaos.getConfig rt env) = false ->
  Chaos.maybeCauseChaos rt env op w = (inr tt, w).
Proof.
  intros He. unfold Chaos.maybeCauseChaos.
  rewrite He. reflexivity.
Qed.

Lemma sync_pass (op : string) (w : World) :
  Chaos.enabled (Chaos.getConfig rt env) = true ->
  Js.gt (rng w (cursor w)) (Chaos.errorRate (Chaos.getConfig rt env)) = true ->
  fst (Chaos.maybeCauseChaos rt env op w) = inr tt.
Proof.
  intros He Hr. open_sync. rewrite He. open_sync.
  rewrite Hr. reflexivity.
Qed.

Lemma sync_select (op : string) (w : World) (k : Chaos.ChaosErrorType) :
  Chaos.enabled (Chaos.getConfig rt env) = true ->
  Js.gt (rng w (cursor w)) (Chaos.errorRate (Chaos.getConfig rt env)) = false ->
  Js.index (Chaos.enabledErrorTypes (Chaos.getConfig rt env)) (Chaos.selected rt env w) = Some k ->
  fst (Chaos.maybeCauseChaos rt env op w) = inl (Failure (Chaos.thrown k)).
Proof.
  intros He Hr Hk. unfold Chaos.selected in *. open_sync. rewrite He. open_sync.
  rewrite Hr. open_sync. rewrite Hk. open_sync.
  unfold Chaos.thrown. destruct (negb _); reflexivity.
Qed.

Lemma sync_escape (op : string) (w : World) :
  Chaos.enabled (Chaos.getConfig rt env) = true ->
  Js.gt (rng w (cursor w)) (Chaos.errorRate (Chaos.getConfig rt env)) = false ->
  Js.index (Chaos.enabledErrorTypes (Chaos.getConfig rt env)) (Chaos.selected rt env w) = None ->
  fst (Chaos.maybeCauseChaos rt env op w) = inl (TypeError Chaos.undefined_message).
Proof.
  intros He Hr Hk. unfold Chaos.selected in *. open_sync. rewrite He. open_sync.
  rewrite Hr. open_sync. rewrite Hk. reflexivity.
Qed.

(** With a non-empty list and a draw in [0, 1), the index is in range. *)
Lemma selected_in_range (w : World) :
  valid w -> Chaos.enabledErrorTypes (Chaos.getConfig rt env) <> [] ->
  exists k, Js.index (Chaos.enabledErrorTypes (Chaos.getConfig rt env)) (Chaos.selected rt env w) = Some k
            /\ k ∈ Chaos.enabledErrorTypes (Chaos.getConfig rt env).
Proof.
  intros Hv Hne. unfold Chaos.selected.
  set (l := Chaos.enabledErrorTypes (Chaos.getConfig rt env)) in *.
  destruct (Hv (S (cursor w))) as [H0 H1].
  assert (Hlen : 0 < Z.of_nat (length l)) by (destruct l; [congruence | simpl; lia]).
  pose proof (floor_draw_range _ _ H0 H1 Hlen) as [Hlo Hhi].
  unfold Js.index.
  destruct (Z.ltb_spec (Qfloor (rng w (S (cursor w)) * inject_Z (Z.of_nat (length l)))) 0);
    [lia|].
  destruct (lookup_lt_is_Some_2 l
              (Z.to_nat (Qfloor (rng w (S (cursor w)) * inject_Z (Z.of_nat (length l))))))
    as [k Hk]; [lia|].
  exists k. split; [exact Hk | eapply list_elem_of_lookup_2; exact Hk].
Qed.

(** With chaos enabled, [maybeCauseChaosAsync] is [maybeCauseChaos] run
    after the latency phase, on the same random source. *)
Lemma async_as_sync (op : string) (w : World) :
  Chaos.enabled (Chaos.getConfig rt env) = true ->
  exists w', Chaos.maybeCauseChaosAsync rt env op w = Chaos.maybeCauseChaos rt env op w'
             /\ rng w' = rng w.
Proof.
  intros He.
  destruct (Js.is_true (env !! "CHAOS_ADD_LATENCY")) eqn:Hl.
  - destruct (Js.lt (rng w (cursor w)) Js.literal_0_3) eqn:Hg.
    + eexists. split; [apply async_latency_hit; assumption | reflexivity].
    + eexists. split; [apply async_latency_miss; assumption | reflexivity].
  - exists w. split; [apply async_latency_off; assumption | reflexivity].
Qed.

End InjectorOutcome.

(** ** Claims about the fault injector *)

Lemma timers_erase (l : list Event) :
  Observe.timers (List.map Observe.erase_operation l) = Observe.timers l.
Proof.
  induction l as [|e l IH]; [reflexivity|].
  destruct e; simpl; rewrite ?IH; unfold Observe.timers in *; simpl; rewrite ?IH;
    reflexivity.
Qed.

(** When [CHAOS_ERROR_TYPES] is unset or empty, the injector works on the
    full taxonomy of nine kinds. *)
Lemma parseEnabledErrorTypes_fallback (env : gmap string string) :
  Js.falsy (env !! "CHAOS_ERROR_TYPES") = true ->
  Chaos.parseEnabledErrorTypes env = Chaos.values
  /\ length (Chaos.parseEnabledErrorTypes env) = 9%nat.
Proof.
  intros H. unfold Chaos.parseEnabledErrorTypes. rewrite H. split; reflexivity.
Qed.

(** Under that fallback, a run that passes the rate check raises a classified
    failure of one of the nine kinds, with the message configured for it, and
    the index it reads is inside the list. *)
Lemma fallback_raises_classified (rt : Js.Runtime) (env : gmap string string)
    (op : string) (w : World) :
  Chaos.enabled (Chaos.getConfig rt env) = true ->
  Js.falsy (env !! "CHAOS_ERROR_TYPES") = true ->
  Observe.valid w ->
  Js.gt (rng w (cursor w)) (Chaos.errorRate (Chaos.getConfig rt env)) = false ->
  exists k,
    Chaos.values !! Z.to_nat (Qfloor (rng w (S (cursor w)) * 9)) = Some k
    /\ 0 <= Qfloor (rng w (S (cursor w)) * 9) < 9
    /\ fst (Chaos.maybeCauseChaos rt env op w) = inl (Failure (Chaos.thrown k))
    /\ ApplicationFailure.message (Chaos.thrown k) = Chaos.message (Chaos.errorConfigs k)
    /\ ApplicationFailure.type (Chaos.thrown k) = Chaos.value k.
Proof.
  intros He Hf Hv Hr.
  destruct (parseEnabledErrorTypes_fallback env Hf) as [Hvals _].
  destruct (Hv (S (cursor w))) as [H0 H1].
  pose proof (floor_draw_range _ 9 H0 H1 eq_refl) as Hrange.
  change (inject_Z 9) with 9%Q in Hrange.
  destruct (lookup_lt_is_Some_2 Chaos.values (Z.to_nat (Qfloor (rng w (S (cursor w)) * 9))))
    as [k Hk]; [change (length Chaos.values) with 9%nat; lia|].
  exists k. split; [exact Hk|]. split; [exact Hrange|]. split.
  - apply sync_select; [exact He | exact Hr |].
    unfold Chaos.selected.
    cbn [Chaos.getConfig Chaos.enabledErrorTypes]. rewrite Hvals.
    change (inject_Z (Z.of_nat (length Chaos.values))) with 9%Q.
    unfold Js.index. destruct (Z.ltb_spec (Qfloor (rng w (S (cursor w)) * 9)) 0); [lia|].
    exact Hk.
  - unfold Chaos.thrown. destruct (negb _); split; reflexivity.
Qed.

(** C4 (defect of the code). A [CHAOS_ERROR_TYPES] that is set but names no
    kind leaves the list of enabled kinds empty instead of falling back to the
    full taxonomy: the selection then reads index 0 of an empty list, and
    the injector throws an unclassified [TypeError] whenever the rate check
    lets the run through. *)
Theorem C4_unknown_kinds_escape :
  Chaos.parseEnabledErrorTypes Examples.env_unknown_kinds = []
  /\ (forall i : Z, Js.index (Chaos.parseEnabledErrorTypes Examples.env_unknown_kinds) i = None)
  /\ (forall (rt : Js.Runtime) (op : string) (w : World),
        fst (Chaos.maybeCauseChaos rt Examples.env_unknown_kinds op w) =
        if Js.gt (rng w (cursor w))
                 (Chaos.errorRate (Chaos.getConfig rt Examples.env_unknown_kinds))
        then inr tt
        else inl (TypeError Chaos.undefined_message))
  /\ fst (Chaos.maybeCauseChaos Examples.host Examples.env_unknown_kinds "getAccounts"
            (Examples.start Examples.halves))
     = inl (TypeError Chaos.undefined_message).
Proof.
  assert (Hnil : Chaos.parseEnabledErrorTypes Examples.env_unknown_kinds = [])
    by (vm_compute; reflexivity).
  assert (Hen : forall rt, Chaos.enabled (Chaos.getConfig rt Examples.env_unknown_kinds) = true)
    by (intros rt; vm_compute; reflexivity).
  split; [exact Hnil|]. split; [|split].
  - intros i. rewrite Hnil. unfold Js.index. destruct (i <? 0); reflexivity.
  - intros rt op w.
    destruct (Js.gt _ _) eqn:Hr.
    + apply sync_pass; [apply Hen | exact Hr].
    + apply sync_escape; [apply Hen | exact Hr |].
      unfold Chaos.selected.
      cbn [Chaos.getConfig Chaos.enabledErrorTypes]. rewrite Hnil.
      unfold Js.index. destruct (_ <? 0); reflexivity.
  - vm_compute. reflexivity.
Qed.

Lemma gt_rate_zero (r : Q) (x : Js.number) :
  Js.equals x 0 -> (0 < r)%Q -> Js.gt r x = true.
Proof.
  destruct x as [q| | |]; simpl; try contradiction.
  intros Hq Hr. apply negb_true_iff, Qle_bool_false. rewrite Hq. exact Hr.
Qed.

Lemma gt_rate_one (r : Q) (x : Js.number) :
  Js.equals x 1 -> (r < 1)%Q -> Js.gt r x = false.
Proof.
  destruct x as [q| | |]; simpl; try contradiction.
  intros Hq Hr. apply negb_false_iff, Qle_bool_iff. rewrite Hq.
  apply Qlt_le_weak. exact Hr.
Qed.

(** C5 (as amended).  With chaos enabled: at error rate 0 the injector raises
    nothing on any run whose draws are all strictly positive; at error rate 1,
    with a non-empty list of enabled kinds and draws in [0, 1), every
    invocation raises a classified failure of an enabled kind.  Both hold for
    [maybeCauseChaos] and for [maybeCauseChaosAsync]. *)
Theorem C5_rate_boundaries (rt : Js.Runtime) (env : gmap string string)
    (op : string) (w : World) :
  Chaos.enabled (Chaos.getConfig rt env) = true ->
  (Js.equals (Chaos.errorRate (Chaos.getConfig rt env)) 0 ->
   (forall n : nat, (0 < rng w n)%Q) ->
   fst (Chaos.maybeCauseChaos rt env op w) = inr tt
   /\ fst (Chaos.maybeCauseChaosAsync rt env op w) = inr tt)
  /\ (Js.equals (Chaos.errorRate (Chaos.getConfig rt env)) 1 ->
      Observe.valid w ->
      Chaos.enabledErrorTypes (Chaos.getConfig rt env) <> [] ->
      (exists k, k ∈ Chaos.enabledErrorTypes (Chaos.getConfig rt env)
                 /\ fst (Chaos.maybeCauseChaos rt env op w) = inl (Failure (Chaos.thrown k)))
      /\ (exists k, k ∈ Chaos.enabledErrorTypes (Chaos.getConfig rt env)
                    /\ fst (Chaos.maybeCauseChaosAsync rt env op w)
                       = inl (Failure (Chaos.thrown k)))).
Proof.
  intros He. split.
  - intros Hrate Hpos. split.
    + apply sync_pass; [exact He | apply gt_rate_zero; [exact Hrate | apply Hpos]].
    + destruct (async_as_sync rt env op w He) as (w' & -> & Hrng).
      apply sync_pass; [exact He|].
      apply gt_rate_zero; [exact Hrate | rewrite Hrng; apply Hpos].
  - intros Hrate Hv Hne.
    assert (Hraise : forall w', rng w' = rng w ->
              exists k, k ∈ Chaos.enabledErrorTypes (Chaos.getConfig rt env)
                        /\ fst (Chaos.maybeCauseChaos rt env op w')
                           = inl (Failure (Chaos.thrown k))).
    { intros w' Hrng.
      assert (Hv' : Observe.valid w') by (intros n; rewrite Hrng; apply Hv).
      destruct (selected_in_range rt env w' Hv' Hne) as (k & Hk & Hin).
      exists k. split; [exact Hin|].
      apply sync_select; [exact He | | exact Hk].
      apply gt_rate_one; [exact Hrate | apply Hv']. }
    split; [apply Hraise; reflexivity|].
    destruct (async_as_sync rt env op w He) as (w' & -> & Hrng).
    apply Hraise. exact Hrng.
Qed.

Lemma C5_rate_boundaries_witness :
  (fst (Chaos.maybeCauseChaos Examples.host (Examples.env_rate "0") "getAccounts"
          (Examples.start Examples.halves)) = inr tt
   /\ fst (Chaos.maybeCauseChaosAsync Examples.host (Examples.env_rate "0") "getAccounts"
             (Examples.start Examples.halves)) = inr tt)
  /\ ((exists k, k ∈ Chaos.enabledErrorTypes (Chaos.getConfig Examples.host (Examples.env_rate "1"))
                 /\ fst (Chaos.maybeCauseChaos Examples.host (Examples.env_rate "1") "getAccounts"
                           (Examples.start Examples.halves)) = inl (Failure (Chaos.thrown k)))
      /\ (exists k, k ∈ Chaos.enabledErrorTypes (Chaos.getConfig Examples.host (Examples.env_rate "1"))
                    /\ fst (Chaos.maybeCauseChaosAsync Examples.host (Examples.env_rate "1")
                              "getAccounts" (Examples.start Examples.halves))
                       = inl (Failure (Chaos.thrown k)))).
Proof.
  split.
  - apply (C5_rate_boundaries Examples.host (Examples.env_rate "0") "getAccounts"
             (Examples.start Examples.halves)).
    + vm_compute. reflexivity.
    + vm_compute. reflexivity.
    + intros n. vm_compute. reflexivity.
  - apply (C5_rate_boundaries Examples.host (Examples.env_rate "1") "getAccounts"
             (Examples.start Examples.halves)).
    + vm_compute. reflexivity.
    + vm_compute. reflexivity.
    + intros n. split; vm_compute; [discriminate | reflexivity].
    + vm_compute. discriminate.
Defined.

(** C5, the claim as stated fails: at error rate 0 the draw 0 does not exceed
    the rate, so the injector raises. *)
Lemma C5_counterexample :
  ~ (forall (rt : Js.Runtime) (env : gmap string string) (op : string) (w : World),
       Chaos.enabled (Chaos.getConfig rt env) = true ->
       Js.equals (Chaos.errorRate (Chaos.getConfig rt env)) 0 ->
       Observe.valid w ->
       fst (Chaos.maybeCauseChaos rt env op w) = inr tt).
Proof.
  intros H.
  specialize (H Examples.host (Examples.env_rate "0") "getAccounts"
                (Examples.start Examples.zeros)).
  assert (Hr : fst (Chaos.maybeCauseChaos Examples.host (Examples.env_rate "0") "getAccounts"
                      (Examples.start Examples.zeros))
               = inl (Failure (Chaos.thrown Chaos.DATABASE_CONNECTION)))
    by (vm_compute; reflexivity).
  rewrite Hr in H. 
  assert (Habs : @inl Thrown unit (Failure (Chaos.thrown Chaos.DATABASE_CONNECTION)) = inr tt).
  { apply H.
    - vm_compute. reflexivity.
    - vm_compute. reflexivity.
    - intros n. split; vm_compute; [discriminate | reflexivity]. }
  discriminate Habs.
Qed.

(** C6.  Two invocations of the injector that differ only in the operation
    name, over random sources that deliver the same draws, have the same
    outcome (the same no-op or the same raised failure, kind and message
    included), inject the same latency, consume the same number of draws, and
    leave the same trace once the [operation] field of the log records is
    blanked.  The outcome is a function of the configuration and of the draws
    alone.  This holds for [maybeCauseChaos] and [maybeCauseChaosAsync]. *)
Theorem C6_operation_name_only_logged (rt : Js.Runtime) (env : gmap string string)
    (op1 op2 : string) (w1 w2 : World) :
  Observe.same_draws w1 w2 ->
  (let r1 := Chaos.maybeCauseChaos rt env op1 w1 in
   let r2 := Chaos.maybeCauseChaos rt env op2 w2 in
   fst r1 = fst r2
   /\ Observe.timers (Observe.fresh w1 r1) = Observe.timers (Observe.fresh w2 r2)
   /\ Observe.drawn w1 r1 = Observe.drawn w2 r2
   /\ List.map Observe.erase_operation (Observe.fresh w1 r1)
      = List.map Observe.erase_operation (Observe.fresh w2 r2))
  /\ (let r1 := Chaos.maybeCauseChaosAsync rt env op1 w1 in
      let r2 := Chaos.maybeCauseChaosAsync rt env op2 w2 in
      fst r1 = fst r2
      /\ Observe.timers (Observe.fresh w1 r1) = Observe.timers (Observe.fresh w2 r2)
      /\ Observe.drawn w1 r1 = Observe.drawn w2 r2
      /\ List.map Observe.erase_operation (Observe.fresh w1 r1)
         = List.map Observe.erase_operation (Observe.fresh w2 r2)).
Proof.
  intros H. split; cbv zeta.
  - destruct (maybeCauseChaos_operation rt env op1 op2 w1 w2 H) as (Ha & Hb & Hc & _).
    cbv zeta in Ha, Hb, Hc. repeat split; try assumption.
    rewrite <- (timers_erase (Observe.fresh w1 _)), Hc. apply timers_erase.
  - destruct (maybeCauseChaosAsync_operation rt env op1 op2 w1 w2 H) as (Ha & Hb & Hc & _).
    cbv zeta in Ha, Hb, Hc. repeat split; try assumption.
    rewrite <- (timers_erase (Observe.fresh w1 _)), Hc. apply timers_erase.
Qed.

Lemma C6_operation_name_only_logged_witness :
  fst (Chaos.maybeCauseChaosAsync Examples.host Examples.env_latency "getAccounts"
         (Examples.start Examples.delay_then_fail))
  = fst (Chaos.maybeCauseChaosAsync Examples.host Examples.env_latency "getCustomers"
           (Examples.start Examples.delay_then_fail)).
Proof.
  apply (C6_operation_name_only_logged Examples.host Examples.env_latency
           "getAccounts" "getCustomers"
           (Examples.start Examples.delay_then_fail)
           (Examples.start Examples.delay_then_fail)).
  intros i. reflexivity.
Defined.

(** ** Paginated activities *)

(** For a non-negative window, [slice( offset, offset + limit )] keeps
    [limit] items after skipping [offset]. *)
Lemma slice_window {A} (l : list A) (offset limit : Z) :
  0 <= offset -> 0 <= limit ->
  Js.slice l offset (offset + limit) = Observe.window l offset limit.
Proof.
  intros Ho Hl. unfold Js.slice, Observe.window.
  destruct (Z.ltb_spec offset 0); [lia|].
  destruct (Z.ltb_spec (offset + limit) 0); [lia|].
  destruct (Z.le_gt_cases offset (Z.of_nat (length l))) as [Hin|Hout].
  - rewrite (Z.min_l offset) by lia.
    destruct (Z.le_gt_cases (offset + limit) (Z.of_nat (length l))) as [Hfit|Hcut].
    + rewrite Z.min_l by lia. f_equal. lia.
    + rewrite Z.min_r by lia.
      rewrite !take_ge; [reflexivity | |]; rewrite length_drop; lia.
  - rewrite (Z.min_r offset) by lia. rewrite Z.min_r by lia.
    rewrite !drop_ge by lia. rewrite !take_nil. reflexivity.
Qed.

Lemma window_length {A} (l : list A) (offset limit : Z) :
  0 <= limit ->
  Z.of_nat (length (Observe.window l offset limit)) <= limit.
Proof.
  intros Hl. unfold Observe.window. rewrite length_take. lia.
Qed.

Lemma window_lookup {A} (l : list A) (offset limit : Z) (i : nat) :
  (i < Z.to_nat limit)%nat ->
  Observe.window l offset limit !! i = l !! (Z.to_nat offset + i)%nat.
Proof.
  intros Hi. unfold Observe.window. rewrite lookup_take_lt by exact Hi. apply lookup_drop.
Qed.

(** An activity is the injector, then the simulated query delay, then the
    result: it fails exactly when the injector raises. *)
Lemma activity_outcome {A} (rt : Js.Runtime) (env : gmap string string)
    (op : string) (ms : Z) (res : A) (w : World) :
  fst ((Chaos.maybeCauseChaosAsync rt env op ;;; sleep ms ;;; ret res) w)
  = sum_map id (fun _ => res) (fst (Chaos.maybeCauseChaosAsync rt env op w)).
Proof.
  unfold bind. destruct (Chaos.maybeCauseChaosAsync rt env op w) as [[e|[]] w']; reflexivity.
Qed.

(** An activity whose timer callback throws ends with what the injector
    raised, or else with what the callback threw. *)
Lemma activity_throws {A} (rt : Js.Runtime) (env : gmap string string)
    (op : string) (ms : Z) (e : Thrown) (w : World) :
  fst ((Chaos.maybeCauseChaosAsync rt env op ;;; sleep ms ;;; (@throw A e)) w)
  = match fst (Chaos.maybeCauseChaosAsync rt env op w) with
    | inl e' => inl e'
    | inr _ => inl e
    end.
Proof.
  unfold bind. destruct (Chaos.maybeCauseChaosAsync rt env op w) as [[e'|[]] w']; reflexivity.
Qed.

(** The three things a property read can find. *)
Lemma get_cases {V} (obj : gmap string V) (key : string) :
  (exists v, obj !! key = Some v /\ Js.get obj key = Some (Js.Own v))
  \/ (obj !! key = None /\ key ∈ Js.Object_prototype
      /\ Js.get obj key = Some (Js.Inherited key))
  \/ (obj !! key = None /\ (key ∉ Js.Object_prototype) /\ Js.get obj key = None).
Proof.
  unfold Js.get. destruct (obj !! key) as [v|]; [left; eauto|].
  right. destruct (bool_decide_reflect (key ∈ Js.Object_prototype)); [left | right]; auto.
Qed.

Lemma inherits_spec {V} (obj : gmap string V) (key : string) :
  Js.inherits obj key = true <-> obj !! key = None /\ key ∈ Js.Object_prototype.
Proof. unfold Js.inherits. apply bool_decide_eq_true. Qed.

(** A property read finds the inherited member exactly at such a key. *)
Lemma get_inherits {V} (obj : gmap string V) (key : string) :
  Js.get obj key
  = if Js.inherits obj key then Some (Js.Inherited key) else option_map Js.Own (obj !! key).
Proof.
  destruct (Js.inherits obj key) eqn:E.
  - apply inherits_spec in E as [Hn Hin]. unfold Js.get.
    rewrite Hn, bool_decide_eq_true_2 by exact Hin. reflexivity.
  - destruct (get_cases obj key) as [(v & Hv & ->)|[(Hn & Hin & _)|(Hn & Hout & ->)]].
    + rewrite Hv. reflexivity.
    + assert (Js.inherits obj key = true) by (apply inherits_spec; auto). congruence.
    + rewrite Hn. reflexivity.
Qed.

(** What [obj[key] || []] is, by whether the key names an inherited member. *)
Lemma get_or_empty {V} (obj : gmap string (list V)) (key : string) :
  default (Js.Own []) (Js.get obj key)
  = if Js.inherits obj key then Js.Inherited key else Js.Own (default [] (obj !! key)).
Proof.
  rewrite get_inherits. destruct (Js.inherits obj key); [reflexivity|].
  destruct (obj !! key); reflexivity.
Qed.

Ltac open_activity :=
  cbv zeta; rewrite ?get_or_empty;
  repeat match goal with
         | |- context [Js.inherits ?obj ?key] => destruct (Js.inherits obj key) eqn:?
         end;
  rewrite ?activity_outcome, ?activity_throws; unfold Observe.run_of;
  repeat match goal with
         | |- context [fst (Chaos.maybeCauseChaosAsync ?rt ?env ?op ?w)] =>
             destruct (fst (Chaos.maybeCauseChaosAsync rt env op w)) as [?|[]]
         end;
  cbn [sum_map id].

(** The outcome of each activity that reads an object by account id. *)
Section Outcomes.
Variables (rt : Js.Runtime) (env : gmap string string) (ds : Activities.DataStore).

Lemma statements_outcome (accountId : string) (offset limit : option Z)
    (startTime endTime : option string) (w : World) :
  fst (Activities.getAccountStatements rt env ds accountId offset limit startTime endTime w)
  = Observe.run_of (fst (Chaos.maybeCauseChaosAsync rt env "getAccountStatements" w))
      (if Js.inherits (Activities.accountStatements ds) accountId
       then inl (TypeError "statementsForAccount.filter is not a function")
       else
         let all := Activities.filterStatements rt (default EmptyString startTime)
                      (default EmptyString endTime)
                      (default [] (Activities.accountStatements ds !! accountId)) in
         inr {| PaginatedStatementsResult.statements :=
                  Js.slice all (default 0 offset) (default 0 offset + default 100 limit);
                PaginatedStatementsResult.total := Z.of_nat (length all) |}).
Proof.
  unfold Activities.getAccountStatements. open_activity; reflexivity.
Qed.

Lemma transactions_outcome (accountId : string) (offset limit : option Z)
    (startTime endTime : option string) (w : World) :
  fst (Activities.getAccountTransactions rt env ds accountId offset limit startTime endTime w)
  = Observe.run_of (fst (Chaos.maybeCauseChaosAsync rt env "getAccountTransactions" w))
      (if Js.inherits (Activities.accountTransactions ds) accountId
       then inl (TypeError "transactionsForAccount.filter is not a function")
       else
         let all := Activities.filterTransactions rt (default EmptyString startTime)
                      (default EmptyString endTime)
                      (default [] (Activities.accountTransactions ds !! accountId)) in
         inr {| PaginatedTransactionsResult.transactions :=
                  Js.slice all (default 0 offset) (default 0 offset + default 100 limit);
                PaginatedTransactionsResult.total := Z.of_nat (length all) |}).
Proof.
  unfold Activities.getAccountTransactions. open_activity; reflexivity.
Qed.

Lemma payment_outcome (accountId : string) (offset limit : option Z) (w : World) :
  fst (Activities.getPaymentNetworks rt env ds accountId offset limit w)
  = Observe.run_of (fst (Chaos.maybeCauseChaosAsync rt env "getPaymentNetworks" w))
      (if Js.inherits (Activities.accountPaymentNetworks ds) accountId
       then inl (TypeError "networks.slice is not a function")
       else
         let all := default [] (Activities.accountPaymentNetworks ds !! accountId) in
         inr {| PaginatedPaymentNetworksResult.paymentNetworks :=
                  Js.slice all (default 0 offset) (default 0 offset + default 100 limit);
                PaginatedPaymentNetworksResult.total := Z.of_nat (length all) |}).
Proof.
  unfold Activities.getPaymentNetworks. open_activity; reflexivity.
Qed.

Lemma asset_outcome (accountId : string) (offset limit : option Z) (w : World) :
  fst (Activities.getAssetTransferNetworks rt env ds accountId offset limit w)
  = Observe.run_of (fst (Chaos.maybeCauseChaosAsync rt env "getAssetTransferNetworks" w))
      (if Js.inherits (Activities.accountPaymentNetworks ds) accountId
       then inl (TypeError "networks.slice is not a function")
       else
         let all := default [] (Activities.accountPaymentNetworks ds !! accountId) in
         inr {| PaginatedAssetTransferNetworksResult.assetTransferNetworks :=
                  Js.slice all (default 0 offset) (default 0 offset + default 100 limit);
                PaginatedAssetTransferNetworksResult.total := Z.of_nat (length all) |}).
Proof.
  unfold Activities.getAssetTransferNetworks. open_activity; reflexivity.
Qed.

Lemma accounts_outcome (offset limit : option Z) (w : World) :
  fst (Activities.getAccounts rt env ds offset limit w)
  = Observe.run_of (fst (Chaos.maybeCauseChaosAsync rt env "getAccounts" w))
      (inr {| PaginatedAccountsResult.accounts :=
                Js.slice (Activities.accounts ds) (default 0 offset)
                  (default 0 offset + default 10 limit);
              PaginatedAccountsResult.total := Z.of_nat (length (Activities.accounts ds)) |}).
Proof.
  unfold Activities.getAccounts. open_activity; reflexivity.
Qed.

End Outcomes.

(** The outcome of a run that returned is that of its callback. *)
Lemma run_of_inr {R} (injected : Thrown + unit) (callback : Thrown + R) (r : R) :
  Observe.run_of injected callback = inr r -> callback = inr r.
Proof. destruct injected as [e|[]]; [discriminate | auto]. Qed.

(** What a listing returned, when it did. *)
Section Returned.
Variables (rt : Js.Runtime) (env : gmap string string) (ds : Activities.DataStore).

Local Ltac close_returned :=
  let H := fresh in
  intros H; apply run_of_inr in H;
  match type of H with
  | context [Js.inherits ?obj ?key] => destruct (Js.inherits obj key); [discriminate|]
  end;
  cbv zeta in H; injection H as <-; reflexivity.

Lemma statements_returned (accountId : string) (offset limit : option Z)
    (startTime endTime : option string) (w : World) (r : PaginatedStatementsResult.t) :
  fst (Activities.getAccountStatements rt env ds accountId offset limit startTime endTime w)
  = inr r ->
  let all := Activities.filterStatements rt (default EmptyString startTime)
               (default EmptyString endTime)
               (default [] (Activities.accountStatements ds !! accountId)) in
  r = {| PaginatedStatementsResult.statements :=
           Js.slice all (default 0 offset) (default 0 offset + default 100 limit);
         PaginatedStatementsResult.total := Z.of_nat (length all) |}.
Proof. rewrite statements_outcome. close_returned. Qed.

Lemma transactions_returned (accountId : string) (offset limit : option Z)
    (startTime endTime : option string) (w : World) (r : PaginatedTransactionsResult.t) :
  fst (Activities.getAccountTransactions rt env ds accountId offset limit startTime endTime w)
  = inr r ->
  let all := Activities.filterTransactions rt (default EmptyString startTime)
               (default EmptyString endTime)
               (default [] (Activities.accountTransactions ds !! accountId)) in
  r = {| PaginatedTransactionsResult.transactions :=
           Js.slice all (default 0 offset) (default 0 offset + default 100 limit);
         PaginatedTransactionsResult.total := Z.of_nat (length all) |}.
Proof. rewrite transactions_outcome. close_returned. Qed.

Lemma payment_returned (accountId : string) (offset limit : option Z) (w : World)
    (r : PaginatedPaymentNetworksResult.t) :
  fst (Activities.getPaymentNetworks rt env ds accountId offset limit w) = inr r ->
  let all := default [] (Activities.accountPaymentNetworks ds !! accountId) in
  r = {| PaginatedPaymentNetworksResult.paymentNetworks :=
           Js.slice all (default 0 offset) (default 0 offset + default 100 limit);
         PaginatedPaymentNetworksResult.total := Z.of_nat (length all) |}.
Proof. rewrite payment_outcome. close_returned. Qed.

Lemma asset_returned (accountId : string) (offset limit : option Z) (w : World)
    (r : PaginatedAssetTransferNetworksResult.t) :
  fst (Activities.getAssetTransferNetworks rt env ds accountId offset limit w) = inr r ->
  let all := default [] (Activities.accountPaymentNetworks ds !! accountId) in
  r = {| PaginatedAssetTransferNetworksResult.assetTransferNetworks :=
           Js.slice all (default 0 offset) (default 0 offset + default 100 limit);
         PaginatedAssetTransferNetworksResult.total := Z.of_nat (length all) |}.
Proof. rewrite asset_outcome. close_returned. Qed.

Lemma accounts_returned (offset limit : option Z) (w : World)
    (r : PaginatedAccountsResult.t) :
  fst (Activities.getAccounts rt env ds offset limit w) = inr r ->
  r = {| PaginatedAccountsResult.accounts :=
           Js.slice (Activities.accounts ds) (default 0 offset)
             (default 0 offset + default 10 limit);
         PaginatedAccountsResult.total := Z.of_nat (length (Activities.accounts ds)) |}.
Proof.
  rewrite accounts_outcome. intros H. apply run_of_inr in H. injection H as <-. reflexivity.
Qed.

End Returned.

Ltac returned H :=
  first [ apply statements_returned in H
        | apply transactions_returned in H
        | apply payment_returned in H
        | apply asset_returned in H
        | apply accounts_returned in H ];
  cbv zeta in H.

(** The injector decides alike under the two names of the networks. *)
Lemma injected_alike (rt : Js.Runtime) (env : gmap string string) (op1 op2 : string)
    (w : World) :
  fst (Chaos.maybeCauseChaosAsync rt env op1 w) = fst (Chaos.maybeCauseChaosAsync rt env op2 w).
Proof.
  destruct (maybeCauseChaosAsync_operation rt env op1 op2 w w (fun _ => eq_refl)) as (H & _).
  exact H.
Qed.

(** C9.  For every account id, offset and limit (given or defaulted),
    [getAssetTransferNetworks] and [getPaymentNetworks] have the same outcome
    up to the name of the list field: they fail with the same failure, or
    return the same items and the same total.  What
    [getAssetTransferNetworks] returns is the page of the list stored for the
    account in [accountPaymentNetworks] with the length of that list, and
    nothing else of the data has a part in it. *)
Theorem C9_asset_transfer_networks_copy (rt : Js.Runtime) (env : gmap string string)
    (ds : Activities.DataStore) (accountId : string) (offset limit : option Z)
    (w : World) :
  let payment := fst (Activities.getPaymentNetworks rt env ds accountId offset limit w) in
  let asset := fst (Activities.getAssetTransferNetworks rt env ds accountId offset limit w) in
  sum_map id (fun r => (PaginatedAssetTransferNetworksResult.assetTransferNetworks r,
                        PaginatedAssetTransferNetworksResult.total r)) asset
  = sum_map id (fun r => (PaginatedPaymentNetworksResult.paymentNetworks r,
                          PaginatedPaymentNetworksResult.total r)) payment
  /\ (forall r, asset = inr r ->
        let networks := default [] (Activities.accountPaymentNetworks ds !! accountId) in
        PaginatedAssetTransferNetworksResult.assetTransferNetworks r
        = Js.slice networks (default 0 offset) (default 0 offset + default 100 limit)
        /\ PaginatedAssetTransferNetworksResult.total r = Z.of_nat (length networks))
  /\ (forall ds' : Activities.DataStore,
        Activities.accountPaymentNetworks ds' = Activities.accountPaymentNetworks ds ->
        Activities.getAssetTransferNetworks rt env ds' accountId offset limit w
        = Activities.getAssetTransferNetworks rt env ds accountId offset limit w).
Proof.
  intros payment asset. subst payment asset.
  rewrite payment_outcome, asset_outcome.
  rewrite (injected_alike rt env "getPaymentNetworks" "getAssetTransferNetworks").
  split; [|split].
  - unfold Observe.run_of.
    destruct (fst (Chaos.maybeCauseChaosAsync rt env "getAssetTransferNetworks" w)) as [e|[]];
      [reflexivity|].
    destruct (Js.inherits (Activities.accountPaymentNetworks ds) accountId); reflexivity.
  - intros r. unfold Observe.run_of.
    destruct (fst (Chaos.maybeCauseChaosAsync rt env "getAssetTransferNetworks" w)) as [e|[]];
      [discriminate|].
    destruct (Js.inherits (Activities.accountPaymentNetworks ds) accountId); [discriminate|].
    cbv zeta. intros [= <-]. split; reflexivity.
  - intros ds' Hsame. unfold Activities.getAssetTransferNetworks. rewrite Hsame. reflexivity.
Qed.

Lemma C9_asset_transfer_networks_copy_witness :
  PaginatedAssetTransferNetworksResult.assetTransferNetworks
    {| PaginatedAssetTransferNetworksResult.assetTransferNetworks := [Examples.network "n2"];
       PaginatedAssetTransferNetworksResult.total := 3 |}
  = Js.slice (default [] (Activities.accountPaymentNetworks Examples.store !! "acc-1"))
      (default 0 (Some 1)) (default 0 (Some 1) + default 100 (Some 1))
  /\ PaginatedAssetTransferNetworksResult.total
       {| PaginatedAssetTransferNetworksResult.assetTransferNetworks := [Examples.network "n2"];
          PaginatedAssetTransferNetworksResult.total := 3 |}
     = Z.of_nat (length (default [] (Activities.accountPaymentNetworks Examples.store
                                       !! "acc-1"))).
Proof.
  apply (C9_asset_transfer_networks_copy Examples.host (Examples.env_rate "0") Examples.store
           "acc-1" (Some 1) (Some 1) (Examples.start Examples.halves)).
  vm_compute. reflexivity.
Defined.

(** The filter of the code keeps what the claim calls the filtered
    collection. *)
Lemma filter_filtered {A} (keep : A -> Prop) (f : A -> bool) (l : list A) :
  (forall x, f x = true <-> keep x) -> Claimed.filtered keep l (List.filter f l).
Proof.
  intros Hf. induction l as [|x l IH]; cbn [List.filter]; [constructor|].
  destruct (f x) eqn:Hx.
  - constructor; [apply Hf; exact Hx | exact IH].
  - constructor; [|exact IH]. intros Hk. apply Hf in Hk. congruence.
Qed.

(** The filtered collection is determined by the stored one. *)
Lemma filtered_unique {A} (keep : A -> Prop) (l k1 k2 : list A) :
  Claimed.filtered keep l k1 -> Claimed.filtered keep l k2 -> k1 = k2.
Proof.
  intros H1. revert k2. induction H1 as [|x l k1 Hx H1 IH|x l k1 Hx H1 IH]; intros k2 H2;
    inversion H2; subst; try contradiction; try reflexivity.
  - f_equal. apply IH. assumption.
  - apply IH. assumption.
Qed.

Lemma within_in_range (d lo hi : option Z) :
  Activities.within d lo hi = true <-> Claimed.in_range d lo hi.
Proof.
  unfold Activities.within, Claimed.in_range. split.
  - destruct d as [x|], lo as [a|], hi as [b|]; try discriminate.
    intros H. apply andb_true_iff in H. exists x, a, b. repeat split; lia.
  - intros (x & a & b & -> & -> & -> & H). apply andb_true_iff. lia.
Qed.

Lemma startDate_bound (rt : Js.Runtime) (startTime : option string) :
  Activities.startDate rt (default EmptyString startTime) = Claimed.bound rt startTime 0.
Proof. destruct startTime as [[|c s]|]; reflexivity. Qed.

Lemma endDate_bound (rt : Js.Runtime) (endTime : option string) :
  Activities.endDate rt (default EmptyString endTime)
  = Claimed.bound rt endTime 8640000000000000.
Proof. destruct endTime as [[|c s]|]; reflexivity. Qed.

Lemma filterStatements_claimed (rt : Js.Runtime) (startTime endTime : option string)
    (l : list Statement.t) :
  Claimed.statements rt startTime endTime l
    (Activities.filterStatements rt (default EmptyString startTime)
       (default EmptyString endTime) l).
Proof.
  unfold Claimed.statements, Activities.filterStatements.
  apply filter_filtered. intros s. rewrite startDate_bound, endDate_bound.
  apply within_in_range.
Qed.

Lemma filterTransactions_claimed (rt : Js.Runtime) (startTime endTime : option string)
    (l : list Transaction.t) :
  Claimed.transactions rt startTime endTime l
    (Activities.filterTransactions rt (default EmptyString startTime)
       (default EmptyString endTime) l).
Proof.
  unfold Claimed.transactions, Activities.filterTransactions.
  apply filter_filtered. intros t. rewrite startDate_bound, endDate_bound.
  apply within_in_range.
Qed.

(** C10.  For every non-negative offset and limit, each paginated activity
    returns, when the injector lets the call through, the contiguous slice
    [[offset, offset + limit)] of its backing collection together with the
    size of that whole collection as [total].  For the statements and the
    transactions the backing collection is the filtered one: the stored items
    of the account dated between the bounds, all of them and in stored order;
    it does not depend on the offset or the limit.  The slice has at most
    [limit] items, and its [i]-th item is item [offset + i] of the collection.
    The one exception is an account id that names a member of
    [Object.prototype] and is not stored: there the activity throws a
    [TypeError]. *)
Theorem C10_pagination_window (rt : Js.Runtime) (env : gmap string string)
    (ds : Activities.DataStore) (accountId : string)
    (startTime endTime : option string) :
  exists (statements : list Statement.t) (transactions : list Transaction.t),
    Claimed.statements rt startTime endTime
      (default [] (Activities.accountStatements ds !! accountId)) statements
    /\ Claimed.transactions rt startTime endTime
         (default [] (Activities.accountTransactions ds !! accountId)) transactions
    /\ forall (offset limit : Z) (w : World),
         0 <= offset -> 0 <= limit ->
         let networks := default [] (Activities.accountPaymentNetworks ds !! accountId) in
         let injected op := fst (Chaos.maybeCauseChaosAsync rt env op w) in
         fst (Activities.getAccounts rt env ds (Some offset) (Some limit) w)
         = Observe.run_of (injected "getAccounts"%string)
             (inr {| PaginatedAccountsResult.accounts :=
                       Observe.window (Activities.accounts ds) offset limit;
                     PaginatedAccountsResult.total :=
                       Z.of_nat (length (Activities.accounts ds)) |})
         /\ fst (Activities.getAccountStatements rt env ds accountId (Some offset) (Some limit)
                   startTime endTime w)
            = Observe.run_of (injected "getAccountStatements"%string)
                (if Js.inherits (Activities.accountStatements ds) accountId
                 then inl (TypeError "statementsForAccount.filter is not a function")
                 else inr {| PaginatedStatementsResult.statements :=
                               Observe.window statements offset limit;
                             PaginatedStatementsResult.total :=
                               Z.of_nat (length statements) |})
         /\ fst (Activities.getAccountTransactions rt env ds accountId (Some offset)
                   (Some limit) startTime endTime w)
            = Observe.run_of (injected "getAccountTransactions"%string)
                (if Js.inherits (Activities.accountTransactions ds) accountId
                 then inl (TypeError "transactionsForAccount.filter is not a function")
                 else inr {| PaginatedTransactionsResult.transactions :=
                               Observe.window transactions offset limit;
                             PaginatedTransactionsResult.total :=
                               Z.of_nat (length transactions) |})
         /\ fst (Activities.getPaymentNetworks rt env ds accountId (Some offset) (Some limit) w)
            = Observe.run_of (injected "getPaymentNetworks"%string)
                (if Js.inherits (Activities.accountPaymentNetworks ds) accountId
                 then inl (TypeError "networks.slice is not a function")
                 else inr {| PaginatedPaymentNetworksResult.paymentNetworks :=
                               Observe.window networks offset limit;
                             PaginatedPaymentNetworksResult.total :=
                               Z.of_nat (length networks) |})
         /\ fst (Activities.getAssetTransferNetworks rt env ds accountId (Some offset)
                   (Some limit) w)
            = Observe.run_of (injected "getAssetTransferNetworks"%string)
                (if Js.inherits (Activities.accountPaymentNetworks ds) accountId
                 then inl (TypeError "networks.slice is not a function")
                 else inr {| PaginatedAssetTransferNetworksResult.assetTransferNetworks :=
                               Observe.window networks offset limit;
                             PaginatedAssetTransferNetworksResult.total :=
                               Z.of_nat (length networks) |})
         /\ (forall (A : Type) (l : list A),
               Z.of_nat (length (Observe.window l offset limit)) <= limit
               /\ forall i : nat, (i < Z.to_nat limit)%nat ->
                    Observe.window l offset limit !! i = l !! (Z.to_nat offset + i)%nat).
Proof.
  eexists _, _. split; [apply filterStatements_claimed|].
  split; [apply filterTransactions_claimed|].
  intros offset limit w Ho Hl networks injected. subst networks injected. cbv beta.
  rewrite accounts_outcome, statements_outcome, transactions_outcome, payment_outcome,
    asset_outcome.
  cbv zeta. cbn [default from_option id]. rewrite !slice_window by assumption.
  repeat split; try reflexivity.
  - apply window_length. exact Hl.
  - intros i Hi. apply window_lookup. exact Hi.
Qed.

Lemma C10_pagination_window_witness :
  fst (Activities.getAccountStatements Examples.host (Examples.env_rate "0") Examples.store
         "acc-1" (Some 1) (Some 1) (Some "2024-02-01"%string) None
         (Examples.start Examples.halves))
  = inr {| PaginatedStatementsResult.statements := [Examples.statement "s3" "2024-03-01"];
           PaginatedStatementsResult.total := 2 |}.
Proof.
  destruct (C10_pagination_window Examples.host (Examples.env_rate "0") Examples.store
              "acc-1" (Some "2024-02-01"%string) None)
    as (statements & transactions & Hst & _ & H).
  destruct (H 1 1 (Examples.start Examples.halves)) as (_ & Hrun & _); [lia | lia |].
  rewrite Hrun.
  assert (Hkept : statements
                  = [Examples.statement "s2" "2024-02-01"; Examples.statement "s3" "2024-03-01"]).
  { eapply filtered_unique; [exact Hst|].
    exact (filterStatements_claimed Examples.host (Some "2024-02-01"%string) None
             (default [] (Activities.accountStatements Examples.store !! "acc-1"))). }
  rewrite Hkept. vm_compute. reflexivity.
Defined.

(** ** The retry engine *)

Section Retry.
Context {V : Type}.
Variable p : Workflows.RetryPolicy.

Import Workflows Engine.

Lemma delay_before_shift (N : nat) :
  (2 <= N)%nat -> delay p (N - 1) = delay_before p N.
Proof.
  intros HN. unfold delay, delay_before.
  replace (Z.of_nat (N - 1 - 1)) with (Z.of_nat N - 2) by lia. reflexivity.
Qed.

(** A failure that the table or the policy marks non-retryable is terminal at
    once, whatever the attempt and the fuel. *)
Lemma attempts_terminal (act : nat -> Thrown + V) (attempt fuel : nat) (e : Thrown) :
  act attempt = inl e ->
  terminal p attempt (classify e) = true ->
  attempts p act attempt fuel = Some (Failed (classify e) (message_of e) attempt, []).
Proof.
  intros Ha Ht. destruct fuel; simpl; rewrite Ha; cbv zeta; rewrite Ht; reflexivity.
Qed.

Lemma attempts_success (act : nat -> Thrown + V) (attempt fuel : nat) (v : V) :
  act attempt = inr v ->
  attempts p act attempt fuel = Some (Success v, []).
Proof.
  intros Ha. destruct fuel; simpl; rewrite Ha; reflexivity.
Qed.

Lemma attempts_retry (act : nat -> Thrown + V) (attempt fuel : nat) (e : Thrown) :
  act attempt = inl e ->
  terminal p attempt (classify e) = false ->
  attempts p act attempt (S fuel)
  = match attempts p act (S attempt) fuel with
    | Some (r, ds) => Some (r, delay p attempt :: ds)
    | None => None
    end.
Proof.
  intros Ha Ht. cbn [attempts]. rewrite Ha. cbv zeta. rewrite Ht. reflexivity.
Qed.

(** With an activity that always fails retryably, the loop runs up to the
    maximum attempt and schedules one delay after each attempt but the last. *)
Lemma attempts_exhaust (act : nat -> Thrown + V) :
  fails_retryably p act ->
  forall fuel attempt : nat,
    (1 <= fuel)%nat ->
    (attempt + fuel = S (maximumAttempts p))%nat ->
    exists e, act (maximumAttempts p) = inl e
              /\ attempts p act attempt fuel
                 = Some (Failed (classify e) (message_of e) (maximumAttempts p),
                         List.map (delay p) (seq attempt (fuel - 1))).
Proof.
  intros Hact. induction fuel as [|fuel IH]; intros attempt Hf Hsum; [lia|].
  destruct (Hact attempt) as (e & He & Hret & Hlist).
  destruct fuel as [|fuel'].
  - assert (attempt = maximumAttempts p) as -> by lia.
    exists e. split; [exact He|].
    apply attempts_terminal; [exact He|].
    unfold terminal. rewrite Hret, Hlist. simpl.
    apply Nat.leb_le. lia.
  - destruct (IH (S attempt)) as (e' & He' & Hrun); [lia | lia |].
    exists e'. split; [exact He'|].
    assert (Ht : terminal p attempt (classify e) = false).
    { unfold terminal. rewrite Hret, Hlist. simpl. apply Nat.leb_gt. lia. }
    rewrite (attempts_retry act attempt (S fuel') e He Ht), Hrun.
    replace (S (S fuel') - 1)%nat with (S (S fuel' - 1)) by lia.
    reflexivity.
Qed.

(** Whatever the activity does, the delays of a run are the backoff schedule
    from its first attempt on. *)
Lemma attempts_schedule (act : nat -> Thrown + V) :
  forall (fuel attempt : nat) (r : TaskResult V) (ds : list Q),
    attempts p act attempt fuel = Some (r, ds) ->
    ds = List.map (delay p) (seq attempt (length ds)).
Proof.
  induction fuel as [|fuel IH]; intros attempt r ds H; cbn [attempts] in H;
    destruct (act attempt) as [e|v]; cbv zeta in H;
    try (destruct (terminal p attempt (classify e)));
    try (injection H as <- <-; reflexivity); try discriminate.
  destruct (attempts p act (S attempt) fuel) as [[r' ds']|] eqn:Hrec; [|discriminate].
  injection H as <- <-. cbn [length seq List.map]. f_equal. eapply IH. exact Hrec.
Qed.

(** The engine always produces a terminal outcome. *)
Lemma execute_total (act : nat -> Thrown + V) :
  exists r, execute p act = Some r.
Proof.
  unfold execute.
  assert (H : forall fuel attempt,
             (maximumAttempts p <= attempt + fuel)%nat ->
             exists r, attempts p act attempt fuel = Some r).
  { induction fuel as [|fuel IH]; intros attempt Hle.
    - simpl. destruct (act attempt) as [e|v]; [|eauto]. cbv zeta.
      assert (Ht : terminal p attempt (classify e) = true).
      { unfold terminal. replace (maximumAttempts p <=? attempt)%nat with true
          by (symmetry; apply Nat.leb_le; lia).
        rewrite !orb_true_r. reflexivity. }
      rewrite Ht. eauto.
    - cbn [attempts]. destruct (act attempt) as [e|v]; [|eauto]. cbv zeta.
      destruct (terminal p attempt (classify e)); [eauto|].
      destruct (IH (S attempt)) as ([r ds] & Hr); [lia|].
      rewrite Hr. eauto. }
  apply H. lia.
Qed.

(** When every attempt from [attempt] up to [n] failed and was retried, the
    loop reaches attempt [n], having scheduled one delay after each of them. *)
Lemma attempts_reach (act : nat -> Thrown + V) (n : nat) :
  forall fuel attempt : nat,
    (attempt <= n)%nat ->
    (n - attempt <= fuel)%nat ->
    (forall k, (attempt <= k < n)%nat ->
       exists e, act k = inl e /\ terminal p k (classify e) = false) ->
    attempts p act attempt fuel
    = match attempts p act n (fuel - (n - attempt)) with
      | Some (r, ds) => Some (r, List.map (delay p) (seq attempt (n - attempt)) ++ ds)
      | None => None
      end.
Proof.
  induction fuel as [|fuel IH]; intros attempt Hle Hfuel Hprev.
  - assert (attempt = n) as -> by lia.
    rewrite Nat.sub_diag. cbn [seq List.map app Nat.sub].
    destruct (attempts p act n 0) as [[r ds]|]; reflexivity.
  - destruct (Nat.eq_dec attempt n) as [->|Hne].
    + rewrite Nat.sub_diag, Nat.sub_0_r. cbn [seq List.map app].
      destruct (attempts p act n (S fuel)) as [[r ds]|]; reflexivity.
    + destruct (Hprev attempt) as (e & He & Ht); [lia|].
      rewrite (attempts_retry act attempt fuel e He Ht).
      rewrite (IH (S attempt)); [| lia | lia | intros k Hk; apply Hprev; lia].
      assert (Hn : (n - attempt = S (n - S attempt))%nat) by lia.
      rewrite Hn. cbn [Nat.sub seq List.map app].
      destruct (attempts p act n (fuel - (n - S attempt))) as [[r ds]|]; reflexivity.
Qed.

End Retry.

(** The scenario of two timeouts followed by a success: the value is returned
    after the delays 500 and 1000. *)
Lemma succeeds_on_third_attempt :
  Engine.execute Workflows.retry
    (fun n => if (n <? 3)%nat
              then inl (Failure (Chaos.thrown Chaos.NETWORK_TIMEOUT))
              else inr n)
  = Some (Engine.Success 3%nat, [500; 1000]%Q).
Proof. reflexivity. Qed.

(** C1.  Whatever the activity does, the engine ends with a terminal outcome
    and the delay it scheduled before attempt [N], for every retry [N >= 2]
    it made, is
    [min (initialInterval * backoffCoefficient ^ (N - 2)) maximumInterval].
    For an activity that fails retryably on every attempt, under a policy
    with at least one attempt, it makes exactly [maximumAttempts] attempts.
    Under the options of [workflows.ts] (500 ms, coefficient 2, 5 s, 10
    attempts) the delays are then 500, 1000, 2000, 4000 and five times 5000
    milliseconds, for 10 attempts in total. *)
Theorem C1_backoff_schedule :
  (forall (V : Type) (p : Workflows.RetryPolicy) (act : nat -> Thrown + V),
     exists (r : Engine.TaskResult V) (ds : list Q),
       Engine.execute p act = Some (r, ds)
       /\ forall N : nat,
            (2 <= N < 2 + length ds)%nat ->
            ds !! (N - 2)%nat = Some (Engine.delay_before p N))
  /\ (forall (V : Type) (p : Workflows.RetryPolicy) (act : nat -> Thrown + V),
        (1 <= Workflows.maximumAttempts p)%nat ->
        Engine.fails_retryably p act ->
        exists (e : Thrown) (ds : list Q),
          act (Workflows.maximumAttempts p) = inl e
          /\ Engine.execute p act
             = Some (Engine.Failed (Engine.classify e) (Engine.message_of e)
                       (Workflows.maximumAttempts p), ds)
          /\ length ds = (Workflows.maximumAttempts p - 1)%nat)
  /\ (forall (V : Type) (act : nat -> Thrown + V),
        Engine.fails_retryably Workflows.retry act ->
        exists e : Thrown,
          act 10%nat = inl e
          /\ Engine.execute Workflows.retry act
             = Some (Engine.Failed (Engine.classify e) (Engine.message_of e) 10,
                     [500; 1000; 2000; 4000; 5000; 5000; 5000; 5000; 5000]%Q))
  /\ (forall (V : Type) (act : nat -> Thrown + V),
        Engine.fails_retryably Workflows.retry_typed act ->
        exists e : Thrown,
          act 10%nat = inl e
          /\ Engine.execute Workflows.retry_typed act
             = Some (Engine.Failed (Engine.classify e) (Engine.message_of e) 10,
                     [500; 1000; 2000; 4000; 5000; 5000; 5000; 5000; 5000]%Q)).
Proof.
  split; [|split; [|split]].
  - intros V p act. destruct (execute_total p act) as ([r ds] & Hrun).
    exists r, ds. split; [exact Hrun|].
    intros N HN. rewrite (attempts_schedule p act _ _ _ _ Hrun).
    rewrite list_lookup_fmap, lookup_seq_lt by lia.
    cbn [fmap option_fmap option_map]. f_equal.
    rewrite <- delay_before_shift by lia. f_equal. lia.
  - intros V p act Hmax Hact.
    destruct (attempts_exhaust p act Hact (Workflows.maximumAttempts p) 1)
      as (e & He & Hrun); [lia | lia |].
    exists e, (List.map (Engine.delay p) (seq 1 (Workflows.maximumAttempts p - 1))).
    split; [exact He|]. split; [exact Hrun|].
    rewrite length_map, length_seq. reflexivity.
  - intros V act Hact.
    destruct (attempts_exhaust Workflows.retry act Hact 10 1) as (e & He & Hrun);
      [simpl; lia | reflexivity |].
    exists e. split; [exact He | exact Hrun].
  - intros V act Hact.
    destruct (attempts_exhaust Workflows.retry_typed act Hact 10 1) as (e & He & Hrun);
      [simpl; lia | reflexivity |].
    exists e. split; [exact He | exact Hrun].
Qed.

Lemma C1_backoff_schedule_witness :
  Engine.execute Workflows.retry Examples.always_times_out
  = Some (Engine.Failed Chaos.DATABASE_TIMEOUT "Database query timed out after 30000ms" 10,
          [500; 1000; 2000; 4000; 5000; 5000; 5000; 5000; 5000]%Q).
Proof.
  destruct C1_backoff_schedule as (_ & _ & Href & _).
  destruct (Href unit Examples.always_times_out) as (e & He & Hrun).
  - intros n. exists (Failure (Chaos.thrown Chaos.DATABASE_TIMEOUT)).
    split; [reflexivity|]. split; vm_compute; reflexivity.
  - rewrite Hrun. injection He as <-. reflexivity.
Defined.

(** C2.  A first attempt that fails with a kind listed in the policy's
    non-retryable types, or with a kind the taxonomy table marks
    non-retryable (exactly [INTERNAL_SERVER_ERROR] and [NON_RETRYABLE_ERROR]),
    ends the task: one attempt, a terminal failure, no delay, whatever
    [maximumAttempts] is.  The failures the injector throws for those two
    kinds carry the non-retryable flag and classify back to their kind. *)
Theorem C2_non_retryable_is_terminal (V : Type) (p : Workflows.RetryPolicy)
    (act : nat -> Thrown + V) (e : Thrown) :
  act 1%nat = inl e ->
  existsb (String.eqb (Chaos.value (Engine.classify e)))
          (Workflows.nonRetryableErrorTypes p) = true
  \/ Chaos.retryable (Chaos.errorConfigs (Engine.classify e)) = false ->
  Engine.execute p act
  = Some (Engine.Failed (Engine.classify e) (Engine.message_of e) 1, [])
  /\ (forall k : Chaos.ChaosErrorType,
        Chaos.retryable (Chaos.errorConfigs k) = false
        <-> k = Chaos.INTERNAL_SERVER_ERROR \/ k = Chaos.NON_RETRYABLE_ERROR)
  /\ (forall k : Chaos.ChaosErrorType,
        Engine.classify (Failure (Chaos.thrown k)) = k
        /\ ApplicationFailure.isNonRetryable (Chaos.thrown k)
           = negb (Chaos.retryable (Chaos.errorConfigs k))).
Proof.
  intros Ha Hk. split; [|split].
  - apply attempts_terminal; [exact Ha|].
    unfold Engine.terminal. destruct Hk as [Hk|Hk]; rewrite Hk; simpl;
      rewrite ?orb_true_r; reflexivity.
  - intros k. split.
    + destruct k; simpl; intros H; try discriminate; auto.
    + intros [-> | ->]; reflexivity.
  - intros k. destruct k; split; reflexivity.
Qed.

Lemma C2_non_retryable_is_terminal_witness :
  Engine.execute Workflows.retry
    (fun _ : nat => @inl Thrown unit (Failure (Chaos.thrown Chaos.NON_RETRYABLE_ERROR)))
  = Some (Engine.Failed Chaos.NON_RETRYABLE_ERROR "A non-retryable error occurred" 1, []).
Proof.
  apply (C2_non_retryable_is_terminal unit Workflows.retry
           (fun _ => inl (Failure (Chaos.thrown Chaos.NON_RETRYABLE_ERROR)))
           (Failure (Chaos.thrown Chaos.NON_RETRYABLE_ERROR))).
  - reflexivity.
  - right. reflexivity.
Defined.

(** C3.  Wherever in a task a failure that is none of the nine kinds is
    raised (a host exception, or a failure whose type names no kind), on the
    first attempt or on a retry that the earlier, retried failures led to,
    the caller of the engine receives it as a terminal failure of kind
    [INTERNAL_SERVER_ERROR], a kind the table marks non-retryable, carrying
    the message of that failure and the number of that attempt: the attempt
    that raised it is the last one made, and the only delays scheduled are
    those before it. *)
Theorem C3_unclassified_is_internal_error (V : Type) (p : Workflows.RetryPolicy)
    (act : nat -> Thrown + V) (attempt : nat) (e : Thrown) :
  (1 <= attempt)%nat ->
  (forall k : nat, (1 <= k < attempt)%nat ->
     exists e', act k = inl e' /\ Engine.terminal p k (Engine.classify e') = false) ->
  act attempt = inl e ->
  Engine.unclassified e ->
  Engine.execute p act
  = Some (Engine.Failed Chaos.INTERNAL_SERVER_ERROR (Engine.message_of e) attempt,
          List.map (Engine.delay p) (seq 1 (attempt - 1)))
  /\ Chaos.retryable (Chaos.errorConfigs Chaos.INTERNAL_SERVER_ERROR) = false.
Proof.
  intros H1 Hprev Ha Hu. split; [|reflexivity].
  assert (Hc : Engine.classify e = Chaos.INTERNAL_SERVER_ERROR).
  { destruct e as [f|msg]; simpl in *; [rewrite Hu|]; reflexivity. }
  assert (Ht : Engine.terminal p attempt (Engine.classify e) = true).
  { unfold Engine.terminal. rewrite Hc. reflexivity. }
  assert (Hfuel : (attempt - 1 <= Workflows.maximumAttempts p)%nat).
  { destruct (Nat.eq_dec attempt 1%nat) as [->|Hne]; [simpl; lia|].
    destruct (Hprev (attempt - 1)%nat) as (e' & _ & Ht'); [lia|].
    unfold Engine.terminal in Ht'. apply orb_false_iff in Ht' as [_ Hmax].
    apply Nat.leb_gt in Hmax. lia. }
  unfold Engine.execute.
  rewrite (attempts_reach p act attempt (Workflows.maximumAttempts p) 1%nat H1 Hfuel Hprev).
  rewrite (attempts_terminal p act attempt _ e Ha Ht), Hc, app_nil_r. reflexivity.
Qed.

Lemma C3_unclassified_is_internal_error_witness :
  Engine.execute Workflows.retry
    (fun n => if (n <? 3)%nat
              then @inl Thrown unit (Failure (Chaos.thrown Chaos.NETWORK_TIMEOUT))
              else inl (TypeError Chaos.undefined_message))
  = Some (Engine.Failed Chaos.INTERNAL_SERVER_ERROR Chaos.undefined_message 3,
          List.map (Engine.delay Workflows.retry) (seq 1 (3 - 1))).
Proof.
  apply (C3_unclassified_is_internal_error unit Workflows.retry
           (fun n => if (n <? 3)%nat
                     then inl (Failure (Chaos.thrown Chaos.NETWORK_TIMEOUT))
                     else inl (TypeError Chaos.undefined_message))
           3%nat (TypeError Chaos.undefined_message)).
  - lia.
  - intros k Hk. exists (Failure (Chaos.thrown Chaos.NETWORK_TIMEOUT)).
    destruct k as [|[|[|k]]]; [lia | | | lia]; split; reflexivity.
  - reflexivity.
  - exact I.
Defined.

(** ** The activity registry *)

(** [create] succeeds exactly when the names are pairwise distinct and none
    of them is taken. *)
Lemma create_is_Some {F : Type} (impls : list (string * F)) (reg : gmap string F) :
  is_Some (Registry.create impls reg)
  <-> NoDup (impls.*1) /\ Forall (fun name => reg !! name = None) (impls.*1).
Proof.
  revert reg. induction impls as [|[name f] rest IH]; intros reg.
  - simpl. split; [intros _; split; constructor | intros _; eauto].
  - cbn [Registry.create fmap list_fmap fst]. unfold Registry.register.
    destruct (reg !! name) eqn:Hreg.
    + split.
      * intros [x Hx]. discriminate.
      * intros [_ Hall]. apply Forall_cons in Hall as [Hnone _]. congruence.
    + rewrite IH. rewrite NoDup_cons, Forall_cons, !Forall_forall. split.
      * intros [Hnd Hall]. split; [split; [|exact Hnd]|split; [exact Hreg|]].
        -- intros Hin. specialize (Hall _ Hin). rewrite lookup_insert_eq in Hall.
           discriminate.
        -- intros n Hn. specialize (Hall _ Hn).
           destruct (decide (name = n)) as [->|Hne];
             [rewrite lookup_insert_eq in Hall; discriminate|].
           rewrite lookup_insert_ne in Hall by exact Hne. exact Hall.
      * intros [[Hnin Hnd] [_ Hall]]. split; [exact Hnd|].
        intros n Hn. rewrite lookup_insert_ne; [apply Hall; exact Hn|].
        intros ->. contradiction.
Qed.

(** C8.  Invoking a name that has no registered implementation yields a
    [NON_RETRYABLE_ERROR] failure and no function, and a task whose first
    attempt ends that way fails after that one attempt; registering a name
    that is already taken is rejected, in particular registering the same
    name twice; the worker can be created from the exports of
    [activities.ts], whose names are pairwise distinct. *)
Theorem C8_registry_contract (F : Type) (reg : gmap string F) (name : string) :
  (reg !! name = None ->
   exists f : ApplicationFailure.t,
     Registry.invoke reg name = inl (Failure f)
     /\ Engine.classify (Failure f) = Chaos.NON_RETRYABLE_ERROR
     /\ ApplicationFailure.isNonRetryable f = true
     /\ forall (V : Type) (p : Workflows.RetryPolicy) (act : nat -> Thrown + V),
          act 1%nat = inl (Failure f) ->
          Engine.execute p act
          = Some (Engine.Failed Chaos.NON_RETRYABLE_ERROR (ApplicationFailure.message f) 1, []))
  /\ (forall (f : F), is_Some (reg !! name) -> Registry.register name f reg = None)
  /\ (forall (f g : F) (reg' : gmap string F),
        Registry.register name f reg = Some reg' -> Registry.register name g reg' = None)
  /\ (forall (f g : F) (rest : list (string * F)),
        Registry.create ((name, f) :: rest ++ [(name, g)]) reg = None)
  /\ is_Some (Registry.create (List.map (fun n => (n, n)) Activities.exported) ∅).
Proof.
  split; [|split; [|split; [|split]]].
  - intros Hnone. unfold Registry.invoke. rewrite Hnone.
    eexists. split; [reflexivity|]. split; [reflexivity|]. split; [reflexivity|].
    intros V p act Ha.
    apply (attempts_terminal p act 1 (Workflows.maximumAttempts p) _ Ha).
    reflexivity.
  - intros f [x Hx]. unfold Registry.register. rewrite Hx. reflexivity.
  - intros f g reg' Hreg. unfold Registry.register in *.
    destruct (reg !! name); [discriminate|]. injection Hreg as <-.
    rewrite lookup_insert_eq. reflexivity.
  - intros f g rest.
    destruct (Registry.create ((name, f) :: rest ++ [(name, g)]) reg) eqn:Hc; [|reflexivity].
    exfalso.
    assert (Hs : is_Some (Registry.create ((name, f) :: rest ++ [(name, g)]) reg))
      by (rewrite Hc; eauto).
    apply create_is_Some in Hs as [Hnd _].
    cbn [fmap list_fmap fst] in Hnd. apply NoDup_cons in Hnd as [Hnin _].
    apply Hnin. rewrite fmap_app. apply elem_of_app. right. simpl. left.
  - apply create_is_Some. split.
    + apply (bool_decide_unpack _). vm_compute. reflexivity.
    + apply Forall_forall. intros n _. apply lookup_empty.
Qed.

Lemma C8_registry_contract_witness :
  (exists f : ApplicationFailure.t,
     Registry.invoke (<["getAccounts" := "getAccounts"]> (∅ : gmap string string)) "getBalance"
     = inl (Failure f)
     /\ Engine.classify (Failure f) = Chaos.NON_RETRYABLE_ERROR
     /\ ApplicationFailure.isNonRetryable f = true
     /\ forall (V : Type) (p : Workflows.RetryPolicy) (act : nat -> Thrown + V),
          act 1%nat = inl (Failure f) ->
          Engine.execute p act
          = Some (Engine.Failed Chaos.NON_RETRYABLE_ERROR (ApplicationFailure.message f) 1, []))
  /\ Registry.register "getAccounts" "again"
       (<["getAccounts" := "getAccounts"]> (∅ : gmap string string)) = None.
Proof.
  split.
  - apply (C8_registry_contract string
             (<["getAccounts" := "getAccounts"]> (∅ : gmap string string)) "getBalance").
    vm_compute. reflexivity.
  - apply (C8_registry_contract string
             (<["getAccounts" := "getAccounts"]> (∅ : gmap string string)) "getAccounts").
    vm_compute. eauto.
Defined.

(* ===================================================================== *)
(** * Further properties of the sources *)
(* ===================================================================== *)

(** ** The fault injector *)

Lemma is_true_other (v : option string) : v <> Some "true"%string -> Js.is_true v = false.
Proof.
  intros H. destruct v as [s|]; [|reflexivity]. simpl.
  apply String.eqb_neq. intros ->. apply H. reflexivity.
Qed.

(** X1.  Chaos is switched on by the exact value ["true"] only: for any other
    value of [CHAOS_ENABLED] (or none), both entry points return normally
    and leave the world as it was: no draw, no log record, no timer,
    whatever the other variables say. *)
Theorem X1_chaos_off_is_noop (rt : Js.Runtime) (env : gmap string string)
    (op : string) (w : World) :
  env !! "CHAOS_ENABLED" <> Some "true"%string ->
  Chaos.maybeCauseChaos rt env op w = (inr tt, w)
  /\ Chaos.maybeCauseChaosAsync rt env op w = (inr tt, w).
Proof.
  intros H. apply is_true_other in H. split.
  - apply sync_disabled. exact H.
  - apply async_disabled. exact H.
Qed.

Lemma X1_chaos_off_is_noop_witness :
  Chaos.maybeCauseChaosAsync Examples.host MoreExamples.env_capitals "getAccounts"
    (Examples.start Examples.zeros)
  = (inr tt, Examples.start Examples.zeros).
Proof.
  apply (X1_chaos_off_is_noop Examples.host MoreExamples.env_capitals "getAccounts"
           (Examples.start Examples.zeros)).
  vm_compute. discriminate.
Defined.

Lemma index_elem_of {A} (l : list A) (i : Z) (x : A) : Js.index l i = Some x -> x ∈ l.
Proof.
  unfold Js.index. destruct (i <? 0); [discriminate|].
  intros H. eapply list_elem_of_lookup_2. exact H.
Qed.

(** The three ways a run of [maybeCauseChaos] can end. *)
Lemma sync_outcomes (rt : Js.Runtime) (env : gmap string string) (op : string) (w : World) :
  fst (Chaos.maybeCauseChaos rt env op w) = inr tt
  \/ (exists k, k ∈ Chaos.enabledErrorTypes (Chaos.getConfig rt env)
                /\ fst (Chaos.maybeCauseChaos rt env op w) = inl (Failure (Chaos.thrown k)))
  \/ (fst (Chaos.maybeCauseChaos rt env op w) = inl (TypeError Chaos.undefined_message)
      /\ Js.index (Chaos.enabledErrorTypes (Chaos.getConfig rt env)) (Chaos.selected rt env w)
         = None).
Proof.
  destruct (Chaos.enabled (Chaos.getConfig rt env)) eqn:He.
  2:{ left. rewrite sync_disabled by exact He. reflexivity. }
  destruct (Js.gt (rng w (cursor w)) (Chaos.errorRate (Chaos.getConfig rt env))) eqn:Hr.
  { left. apply sync_pass; assumption. }
  destruct (Js.index (Chaos.enabledErrorTypes (Chaos.getConfig rt env))
              (Chaos.selected rt env w)) as [k|] eqn:Hk.
  - right. left. exists k. split; [eapply index_elem_of; exact Hk|].
    apply sync_select; assumption.
  - right. right. split; [apply sync_escape; assumption | reflexivity].
Qed.

(** With chaos enabled, [maybeCauseChaosAsync] is [maybeCauseChaos] run
    after the latency phase, which takes at most two draws. *)
Lemma async_as_sync_within (rt : Js.Runtime) (env : gmap string string) (op : string)
    (w : World) :
  Chaos.enabled (Chaos.getConfig rt env) = true ->
  exists w', Chaos.maybeCauseChaosAsync rt env op w = Chaos.maybeCauseChaos rt env op w'
             /\ rng w' = rng w
             /\ (cursor w <= cursor w' <= cursor w + 2)%nat.
Proof.
  intros He.
  destruct (Js.is_true (env !! "CHAOS_ADD_LATENCY")) eqn:Hl.
  - destruct (Js.lt (rng w (cursor w)) Js.literal_0_3) eqn:Hg.
    + eexists. split; [apply async_latency_hit; assumption|].
      cbn [rng cursor]. split; [reflexivity | lia].
    + eexists. split; [apply async_latency_miss; assumption|].
      cbn [rng cursor]. split; [reflexivity | lia].
  - exists w. split; [apply async_latency_off; assumption|]. split; [reflexivity | lia].
Qed.

(** An index read from a draw in [0, 1) misses the list only when the list
    is empty. *)
Lemma index_none_cause {A} (l : list A) (r : Q) :
  Js.index l (Qfloor (r * inject_Z (Z.of_nat (length l)))) = None ->
  l = [] \/ ~ ((0 <= r)%Q /\ (r < 1)%Q).
Proof.
  intros Hi. destruct l as [|a l]; [left; reflexivity|]. right. intros [H0 H1].
  assert (Hlen : 0 < Z.of_nat (length (a :: l))) by (simpl; lia).
  pose proof (floor_draw_range _ _ H0 H1 Hlen) as [Hlo Hhi].
  unfold Js.index in Hi.
  destruct (Z.ltb_spec (Qfloor (r * inject_Z (Z.of_nat (length (a :: l))))) 0); [lia|].
  apply lookup_ge_None in Hi. lia.
Qed.

(** The three ways a run of [maybeCauseChaos] can end, with the index it
    read. *)
Lemma sync_outcomes_index (rt : Js.Runtime) (env : gmap string string) (op : string)
    (w : World) :
  let kinds := Chaos.enabledErrorTypes (Chaos.getConfig rt env) in
  fst (Chaos.maybeCauseChaos rt env op w) = inr tt
  \/ (exists k, Js.index kinds (Chaos.selected rt env w) = Some k
                /\ fst (Chaos.maybeCauseChaos rt env op w) = inl (Failure (Chaos.thrown k)))
  \/ (Js.index kinds (Chaos.selected rt env w) = None
      /\ fst (Chaos.maybeCauseChaos rt env op w) = inl (TypeError Chaos.undefined_message)).
Proof.
  intros kinds. subst kinds.
  destruct (Chaos.enabled (Chaos.getConfig rt env)) eqn:He.
  2:{ left. rewrite sync_disabled by exact He. reflexivity. }
  destruct (Js.gt (rng w (cursor w)) (Chaos.errorRate (Chaos.getConfig rt env))) eqn:Hr.
  { left. apply sync_pass; assumption. }
  destruct (Js.index (Chaos.enabledErrorTypes (Chaos.getConfig rt env))
              (Chaos.selected rt env w)) as [k|] eqn:Hk.
  - right. left. exists k. split; [reflexivity|]. apply sync_select; assumption.
  - right. right. split; [reflexivity|]. apply sync_escape; assumption.
Qed.

(** X2.  The injector never raises a kind that is not enabled.  A run of
    either entry point returns normally, or throws the failure of a kind of
    the configured list, or throws the host's [TypeError]; the latter only
    when the list holds nothing at the index the run read from its draw,
    which for a draw in [0, 1) means that the list is empty.  For
    [maybeCauseChaosAsync] the index is read after the latency phase, which
    takes at most two draws. *)
Theorem X2_only_enabled_kinds (rt : Js.Runtime) (env : gmap string string)
    (op : string) (w : World) :
  let kinds := Chaos.enabledErrorTypes (Chaos.getConfig rt env) in
  let ends (outcome : Thrown + unit) (w' : World) :=
    let draw := rng w' (S (cursor w')) in
    outcome = inr tt
    \/ (exists k, k ∈ kinds /\ outcome = inl (Failure (Chaos.thrown k)))
    \/ (outcome = inl (TypeError Chaos.undefined_message)
        /\ Js.index kinds (Chaos.selected rt env w') = None
        /\ (kinds = [] \/ ~ ((0 <= draw)%Q /\ (draw < 1)%Q))) in
  ends (fst (Chaos.maybeCauseChaos rt env op w)) w
  /\ exists w', rng w' = rng w
                /\ (cursor w <= cursor w' <= cursor w + 2)%nat
                /\ ends (fst (Chaos.maybeCauseChaosAsync rt env op w)) w'.
Proof.
  intros kinds ends.
  assert (Hsync : forall w', ends (fst (Chaos.maybeCauseChaos rt env op w')) w').
  { intros w'. unfold ends, kinds. cbv zeta.
    destruct (sync_outcomes_index rt env op w') as [H|[(k & Hk & H)|[Hk H]]].
    - left. exact H.
    - right. left. exists k. split; [|exact H]. eapply index_elem_of. exact Hk.
    - right. right. split; [exact H|]. split; [exact Hk|].
      apply index_none_cause. exact Hk. }
  split; [apply Hsync|].
  destruct (Chaos.enabled (Chaos.getConfig rt env)) eqn:He.
  - destruct (async_as_sync_within rt env op w He) as (w' & Hrun & Hrng & Hc).
    exists w'. split; [exact Hrng|]. split; [exact Hc|]. rewrite Hrun. apply Hsync.
  - exists w. split; [reflexivity|]. split; [lia|].
    left. rewrite async_disabled by exact He. reflexivity.
Qed.

(** X3.  With a non-empty list of enabled kinds and draws in [0, 1), no
    unclassified error leaves the injector: a run returns normally or throws
    the failure of an enabled kind. *)
Theorem X3_no_escape_when_kinds_enabled (rt : Js.Runtime) (env : gmap string string)
    (op : string) (w : World) :
  Chaos.enabledErrorTypes (Chaos.getConfig rt env) <> [] ->
  Observe.valid w ->
  (fst (Chaos.maybeCauseChaos rt env op w) = inr tt
   \/ exists k, k ∈ Chaos.enabledErrorTypes (Chaos.getConfig rt env)
                /\ fst (Chaos.maybeCauseChaos rt env op w) = inl (Failure (Chaos.thrown k)))
  /\ (fst (Chaos.maybeCauseChaosAsync rt env op w) = inr tt
      \/ exists k, k ∈ Chaos.enabledErrorTypes (Chaos.getConfig rt env)
                   /\ fst (Chaos.maybeCauseChaosAsync rt env op w)
                      = inl (Failure (Chaos.thrown k))).
Proof.
  intros Hne Hv.
  assert (Hsync : forall w', rng w' = rng w ->
            fst (Chaos.maybeCauseChaos rt env op w') = inr tt
            \/ exists k, k ∈ Chaos.enabledErrorTypes (Chaos.getConfig rt env)
                         /\ fst (Chaos.maybeCauseChaos rt env op w')
                            = inl (Failure (Chaos.thrown k))).
  { intros w' Hrng.
    assert (Hv' : Observe.valid w') by (intros n; rewrite Hrng; apply Hv).
    destruct (sync_outcomes rt env op w') as [H|[H|[_ Hi]]]; [auto | auto |].
    destruct (selected_in_range rt env w' Hv' Hne) as (k & Hk & _). congruence. }
  split; [apply Hsync; reflexivity|].
  destruct (Chaos.enabled (Chaos.getConfig rt env)) eqn:He.
  - destruct (async_as_sync rt env op w He) as (w' & -> & Hrng). apply Hsync. exact Hrng.
  - left. rewrite async_disabled by exact He. reflexivity.
Qed.

Lemma X3_no_escape_when_kinds_enabled_witness :
  fst (Chaos.maybeCauseChaosAsync Examples.host MoreExamples.env_two_kinds "getAccounts"
         (Examples.start Examples.delay_then_fail)) = inr tt
  \/ exists k, k ∈ Chaos.enabledErrorTypes (Chaos.getConfig Examples.host MoreExamples.env_two_kinds)
               /\ fst (Chaos.maybeCauseChaosAsync Examples.host MoreExamples.env_two_kinds
                         "getAccounts" (Examples.start Examples.delay_then_fail))
                  = inl (Failure (Chaos.thrown k)).
Proof.
  apply (X3_no_escape_when_kinds_enabled Examples.host MoreExamples.env_two_kinds
           "getAccounts" (Examples.start Examples.delay_then_fail)).
  - vm_compute. discriminate.
  - intros n. unfold Examples.start, Examples.delay_then_fail. cbn [rng].
    destruct n as [|[|[|n]]]; split; vm_compute; try discriminate; reflexivity.
Defined.

Ltac run_m :=
  cbv beta iota zeta delta [bind random ret throw sleep emit];
  cbn [fst snd rng cursor trace negb].

(** The whole of a run of [maybeCauseChaos]: outcome, cursor and trace. *)
Lemma sync_run (rt : Js.Runtime) (env : gmap string string) (op : string) (w : World) :
  let r := rng w (cursor w) in
  let r' := rng w (S (cursor w)) in
  (Chaos.enabled (Chaos.getConfig rt env) = false
   /\ Chaos.maybeCauseChaos rt env op w = (inr tt, w))
  \/ (Chaos.enabled (Chaos.getConfig rt env) = true
      /\ Js.gt r (Chaos.errorRate (Chaos.getConfig rt env)) = true
      /\ Chaos.maybeCauseChaos rt env op w
         = (inr tt, {| rng := rng w; cursor := S (cursor w);
                       trace := trace w ++ [Random r] |}))
  \/ (Chaos.enabled (Chaos.getConfig rt env) = true
      /\ Js.gt r (Chaos.errorRate (Chaos.getConfig rt env)) = false
      /\ Js.index (Chaos.enabledErrorTypes (Chaos.getConfig rt env)) (Chaos.selected rt env w)
         = None
      /\ Chaos.maybeCauseChaos rt env op w
         = (inl (TypeError Chaos.undefined_message),
            {| rng := rng w; cursor := S (S (cursor w));
               trace := trace w ++ [Random r; Random r'] |}))
  \/ (exists k,
        Chaos.enabled (Chaos.getConfig rt env) = true
        /\ Js.gt r (Chaos.errorRate (Chaos.getConfig rt env)) = false
        /\ Js.index (Chaos.enabledErrorTypes (Chaos.getConfig rt env))
             (Chaos.selected rt env w) = Some k
        /\ Chaos.maybeCauseChaos rt env op w
           = (inl (Failure (Chaos.thrown k)),
              {| rng := rng w; cursor := S (S (cursor w));
                 trace := trace w ++ [Random r; Random r';
                                      LogWarn op (Chaos.value k)
                                        (Chaos.message (Chaos.errorConfigs k))] |})).
Proof.
  intros r r'. subst r r'. unfold Chaos.selected.
  destruct (Chaos.enabled (Chaos.getConfig rt env)) eqn:He.
  2:{ left. split; [reflexivity|]. apply sync_disabled. exact He. }
  right.
  unfold Chaos.maybeCauseChaos. rewrite He. run_m.
  destruct (Js.gt (rng w (cursor w)) (Chaos.errorRate (Chaos.getConfig rt env))) eqn:Hr;
    run_m.
  { left. auto. }
  right.
  destruct (Js.index (Chaos.enabledErrorTypes (Chaos.getConfig rt env)) _) as [k|] eqn:Hk;
    run_m.
  - right. exists k. repeat split; try reflexivity.
    unfold Chaos.thrown.
    destruct (Chaos.retryable (Chaos.errorConfigs k)); run_m;
      rewrite <- ?app_assoc; reflexivity.
  - left. repeat split; try reflexivity. rewrite <- ?app_assoc. reflexivity.
Qed.

Lemma thrown_fields (k : Chaos.ChaosErrorType) :
  ApplicationFailure.type (Chaos.thrown k) = Chaos.value k
  /\ ApplicationFailure.message (Chaos.thrown k) = Chaos.message (Chaos.errorConfigs k)
  /\ ApplicationFailure.isNonRetryable (Chaos.thrown k)
     = negb (Chaos.retryable (Chaos.errorConfigs k)).
Proof. destruct k; repeat split; reflexivity. Qed.

Lemma warnings_app (l1 l2 : list Event) :
  Trace.warnings (l1 ++ l2) = Trace.warnings l1 ++ Trace.warnings l2.
Proof. unfold Trace.warnings. apply List.filter_app. Qed.

(** The events of a run of [maybeCauseChaos]: one warning when it throws a
    classified failure, carrying the operation, the type and the message of
    that failure, and none otherwise. *)
Lemma sync_warnings (rt : Js.Runtime) (env : gmap string string) (op : string) (w : World) :
  let r := Chaos.maybeCauseChaos rt env op w in
  Trace.warnings (Observe.fresh w r)
  = match fst r with
    | inl (Failure f) =>
        [LogWarn op (ApplicationFailure.type f) (ApplicationFailure.message f)]
    | _ => []
    end
  /\ match fst r with
     | inl (Failure f) =>
         last (Observe.fresh w r)
         = Some (LogWarn op (ApplicationFailure.type f) (ApplicationFailure.message f))
     | _ => True
     end.
Proof.
  cbv zeta.
  destruct (sync_run rt env op w) as [(_ & ->)|[(_ & _ & ->)|[(_ & _ & _ & ->)|(k & _ & _ & _ & ->)]]];
    unfold Observe.fresh; cbn [fst snd trace];
    rewrite ?drop_all, ?drop_app_length; try (split; [reflexivity | exact I]).
  destruct (thrown_fields k) as (-> & -> & _). split; reflexivity.
Qed.

(** X4.  No failure is injected without being logged: when either entry
    point throws a classified failure, the run has logged exactly one warning,
    it is the last event of the run, and it carries the operation name and the
    type and message of the failure thrown; a run that returns normally, or
    escapes with a [TypeError], logs no warning. *)
Theorem X4_injected_failures_are_logged (rt : Js.Runtime) (env : gmap string string)
    (op : string) (w : World) :
  (let r := Chaos.maybeCauseChaos rt env op w in
   Trace.warnings (Observe.fresh w r)
   = match fst r with
     | inl (Failure f) =>
         [LogWarn op (ApplicationFailure.type f) (ApplicationFailure.message f)]
     | _ => []
     end
   /\ match fst r with
      | inl (Failure f) =>
          last (Observe.fresh w r)
          = Some (LogWarn op (ApplicationFailure.type f) (ApplicationFailure.message f))
      | _ => True
      end)
  /\ (let r := Chaos.maybeCauseChaosAsync rt env op w in
      Trace.warnings (Observe.fresh w r)
      = match fst r with
        | inl (Failure f) =>
            [LogWarn op (ApplicationFailure.type f) (ApplicationFailure.message f)]
        | _ => []
        end
      /\ match fst r with
         | inl (Failure f) =>
             last (Observe.fresh w r)
             = Some (LogWarn op (ApplicationFailure.type f) (ApplicationFailure.message f))
         | _ => True
         end).
Proof.
  split; [apply sync_warnings|]. cbv zeta.
  destruct (Chaos.enabled (Chaos.getConfig rt env)) eqn:He.
  2:{ rewrite async_disabled by exact He. unfold Observe.fresh. cbn [fst snd].
      rewrite drop_all. split; [reflexivity | exact I]. }
  assert (Hafter : forall c pre,
            Trace.warnings pre = [] ->
            let w' := {| rng := rng w; cursor := c; trace := trace w ++ pre |} in
            let r := Chaos.maybeCauseChaos rt env op w' in
            Trace.warnings (Observe.fresh w r)
            = match fst r with
              | inl (Failure f) =>
                  [LogWarn op (ApplicationFailure.type f) (ApplicationFailure.message f)]
              | _ => []
              end
            /\ match fst r with
               | inl (Failure f) =>
                   last (Observe.fresh w r)
                   = Some (LogWarn op (ApplicationFailure.type f)
                             (ApplicationFailure.message f))
               | _ => True
               end).
  { intros c pre Hpre. cbv zeta.
    rewrite (fresh_after rt env op w c pre).
    set (w' := {| rng := rng w; cursor := c; trace := trace w ++ pre |}).
    destruct (sync_warnings rt env op w') as [Hw Hl]. cbv zeta in Hw, Hl.
    rewrite warnings_app, Hpre, Hw. split; [reflexivity|].
    destruct (fst (Chaos.maybeCauseChaos rt env op w')) as [[f|msg]|[]]; try exact I.
    rewrite last_app, Hl. reflexivity. }
  destruct (Js.is_true (env !! "CHAOS_ADD_LATENCY")) eqn:Hl.
  - destruct (Js.lt (rng w (cursor w)) Js.literal_0_3) eqn:Hg.
    + rewrite async_latency_hit by assumption. apply (Hafter (S (S (cursor w)))). reflexivity.
    + rewrite async_latency_miss by assumption. apply (Hafter (S (cursor w))). reflexivity.
  - rewrite async_latency_off by assumption. apply sync_warnings.
Qed.

(** X5.  Latency is injected under the exact flag only: unless
    [CHAOS_ADD_LATENCY] is ["true"], [maybeCauseChaosAsync] is
    [maybeCauseChaos]: same outcome, same draws, same trace, and no timer. *)
Theorem X5_latency_needs_the_flag (rt : Js.Runtime) (env : gmap string string)
    (op : string) (w : World) :
  env !! "CHAOS_ADD_LATENCY" <> Some "true"%string ->
  Chaos.maybeCauseChaosAsync rt env op w = Chaos.maybeCauseChaos rt env op w
  /\ Observe.timers (Observe.fresh w (Chaos.maybeCauseChaosAsync rt env op w)) = [].
Proof.
  intros H. apply is_true_other in H.
  assert (Heq : Chaos.maybeCauseChaosAsync rt env op w = Chaos.maybeCauseChaos rt env op w).
  { destruct (Chaos.enabled (Chaos.getConfig rt env)) eqn:He.
    - apply async_latency_off; assumption.
    - rewrite async_disabled, sync_disabled by exact He. reflexivity. }
  split; [exact Heq|]. rewrite Heq.
  destruct (sync_run rt env op w) as [(_ & ->)|[(_ & _ & ->)|[(_ & _ & _ & ->)|(k & _ & _ & _ & ->)]]];
    unfold Observe.fresh; cbn [fst snd trace];
    rewrite ?drop_all, ?drop_app_length; reflexivity.
Qed.

Lemma X5_latency_needs_the_flag_witness :
  Chaos.maybeCauseChaosAsync Examples.host (Examples.env_rate "1") "getAccounts"
    (Examples.start Examples.delay_then_fail)
  = Chaos.maybeCauseChaos Examples.host (Examples.env_rate "1") "getAccounts"
      (Examples.start Examples.delay_then_fail).
Proof.
  apply (X5_latency_needs_the_flag Examples.host (Examples.env_rate "1") "getAccounts"
           (Examples.start Examples.delay_then_fail)).
  vm_compute. discriminate.
Defined.

(** X6.  A rate that is not a finite number never exceeds a draw from below:
    when [CHAOS_ERROR_RATE] parses to [NaN] (or to [Infinity]) the comparison
    [Math.random() > errorRate] is false, so with chaos enabled, a non-empty
    list of kinds and draws in [0, 1), every invocation throws a classified
    failure of an enabled kind. *)
Theorem X6_unparsable_rate_always_fires (rt : Js.Runtime) (env : gmap string string)
    (op : string) (w : World) :
  Chaos.enabled (Chaos.getConfig rt env) = true ->
  Chaos.errorRate (Chaos.getConfig rt env) = Js.NaN
  \/ Chaos.errorRate (Chaos.getConfig rt env) = Js.Infinity ->
  Chaos.enabledErrorTypes (Chaos.getConfig rt env) <> [] ->
  Observe.valid w ->
  (exists k, k ∈ Chaos.enabledErrorTypes (Chaos.getConfig rt env)
             /\ fst (Chaos.maybeCauseChaos rt env op w) = inl (Failure (Chaos.thrown k)))
  /\ (exists k, k ∈ Chaos.enabledErrorTypes (Chaos.getConfig rt env)
                /\ fst (Chaos.maybeCauseChaosAsync rt env op w)
                   = inl (Failure (Chaos.thrown k))).
Proof.
  intros He Hrate Hne Hv.
  assert (Hgt : forall r, Js.gt r (Chaos.errorRate (Chaos.getConfig rt env)) = false)
    by (intros r; destruct Hrate as [-> | ->]; reflexivity).
  assert (Hsync : forall w', rng w' = rng w ->
            exists k, k ∈ Chaos.enabledErrorTypes (Chaos.getConfig rt env)
                      /\ fst (Chaos.maybeCauseChaos rt env op w')
                         = inl (Failure (Chaos.thrown k))).
  { intros w' Hrng.
    assert (Hv' : Observe.valid w') by (intros n; rewrite Hrng; apply Hv).
    destruct (selected_in_range rt env w' Hv' Hne) as (k & Hk & Hin).
    exists k. split; [exact Hin|]. apply sync_select; [exact He | apply Hgt | exact Hk]. }
  split; [apply Hsync; reflexivity|].
  destruct (async_as_sync rt env op w He) as (w' & -> & Hrng). apply Hsync. exact Hrng.
Qed.

Lemma X6_unparsable_rate_always_fires_witness :
  exists k, k ∈ Chaos.enabledErrorTypes (Chaos.getConfig Examples.host MoreExamples.env_bad_rate)
            /\ fst (Chaos.maybeCauseChaos Examples.host MoreExamples.env_bad_rate "getAccounts"
                      (Examples.start Examples.halves))
               = inl (Failure (Chaos.thrown k)).
Proof.
  apply (X6_unparsable_rate_always_fires Examples.host MoreExamples.env_bad_rate
           "getAccounts" (Examples.start Examples.halves)).
  - vm_compute. reflexivity.
  - left. vm_compute. reflexivity.
  - vm_compute. discriminate.
  - intros n. split; vm_compute; [discriminate | reflexivity].
Defined.

(** Changing [CHAOS_ERROR_RATE] changes nothing of the configuration but the
    rate. *)
Lemma getConfig_rate_update (rt : Js.Runtime) (env : gmap string string) (rate' : string) :
  Chaos.enabled (Chaos.getConfig rt (<["CHAOS_ERROR_RATE" := rate']> env))
  = Chaos.enabled (Chaos.getConfig rt env)
  /\ Chaos.enabledErrorTypes (Chaos.getConfig rt (<["CHAOS_ERROR_RATE" := rate']> env))
     = Chaos.enabledErrorTypes (Chaos.getConfig rt env)
  /\ Chaos.errorRate (Chaos.getConfig rt (<["CHAOS_ERROR_RATE" := rate']> env))
     = Js.parseFloat rt (Js.or_default (Some rate') "0.1")
  /\ Js.is_true (<["CHAOS_ERROR_RATE" := rate']> env !! "CHAOS_ADD_LATENCY")
     = Js.is_true (env !! "CHAOS_ADD_LATENCY").
Proof.
  unfold Chaos.getConfig, Chaos.parseEnabledErrorTypes.
  cbn [Chaos.enabled Chaos.enabledErrorTypes Chaos.errorRate].
  rewrite lookup_insert_eq.
  rewrite !lookup_insert_ne by discriminate. repeat split; reflexivity.
Qed.

(** X7.  Raising the rate never cancels an injected failure: if a run throws
    at the finite rate [q], the run over the same draws with
    [CHAOS_ERROR_RATE] changed to a finite rate [q' >= q] throws the same
    thing, for both entry points. *)
Theorem X7_rate_is_monotone (rt : Js.Runtime) (env : gmap string string)
    (rate' op : string) (w : World) (q q' : Q) :
  Chaos.errorRate (Chaos.getConfig rt env) = Js.Finite q ->
  Js.parseFloat rt (Js.or_default (Some rate') "0.1") = Js.Finite q' ->
  (q <= q')%Q ->
  (forall e, fst (Chaos.maybeCauseChaos rt env op w) = inl e ->
             fst (Chaos.maybeCauseChaos rt (<["CHAOS_ERROR_RATE" := rate']> env) op w) = inl e)
  /\ (forall e, fst (Chaos.maybeCauseChaosAsync rt env op w) = inl e ->
                fst (Chaos.maybeCauseChaosAsync rt (<["CHAOS_ERROR_RATE" := rate']> env) op w)
                = inl e).
Proof.
  intros Hq Hq' Hle.
  destruct (getConfig_rate_update rt env rate') as (Hen & Hty & Hra & Hla).
  rewrite Hq' in Hra.
  assert (Hsel : forall w', Chaos.selected rt (<["CHAOS_ERROR_RATE" := rate']> env) w'
                            = Chaos.selected rt env w')
    by (intros w'; unfold Chaos.selected; rewrite Hty; reflexivity).
  assert (Hsync : forall w' e,
            fst (Chaos.maybeCauseChaos rt env op w') = inl e ->
            fst (Chaos.maybeCauseChaos rt (<["CHAOS_ERROR_RATE" := rate']> env) op w') = inl e).
  { intros w' e He.
    assert (Hgt : Js.gt (rng w' (cursor w')) (Js.Finite q) = false ->
                  Js.gt (rng w' (cursor w')) (Js.Finite q') = false).
    { simpl. rewrite !negb_false_iff, !Qle_bool_iff. intros H.
      eapply Qle_trans; eassumption. }
    destruct (sync_run rt env op w')
      as [(_ & Hr)|[(_ & _ & Hr)|[(E & G & I & Hr)|(k & E & G & I & Hr)]]];
      rewrite Hr in He; cbn [fst] in He; try discriminate; injection He as <-.
    - apply sync_escape; rewrite ?Hen, ?Hra, ?Hty, ?Hsel; auto.
      apply Hgt. rewrite <- Hq. exact G.
    - apply sync_select; rewrite ?Hen, ?Hra, ?Hty, ?Hsel; auto.
      apply Hgt. rewrite <- Hq. exact G. }
  split; [apply Hsync|].
  intros e.
  destruct (Chaos.enabled (Chaos.getConfig rt env)) eqn:He.
  2:{ rewrite async_disabled by exact He. discriminate. }
  pose proof Hen as He'.
  destruct (Js.is_true (env !! "CHAOS_ADD_LATENCY")) eqn:Hl.
  - destruct (Js.lt (rng w (cursor w)) Js.literal_0_3) eqn:Hg.
    + rewrite (async_latency_hit rt env) by assumption.
      rewrite (async_latency_hit rt (<["CHAOS_ERROR_RATE" := rate']> env)) by assumption.
      apply Hsync.
    + rewrite (async_latency_miss rt env) by assumption.
      rewrite (async_latency_miss rt (<["CHAOS_ERROR_RATE" := rate']> env)) by assumption.
      apply Hsync.
  - rewrite (async_latency_off rt env) by assumption.
    rewrite (async_latency_off rt (<["CHAOS_ERROR_RATE" := rate']> env)) by assumption.
    apply Hsync.
Qed.

Lemma X7_rate_is_monotone_witness :
  fst (Chaos.maybeCauseChaos Examples.host
         (<["CHAOS_ERROR_RATE" := "1"]> (Examples.env_rate "0.1")) "getAccounts"
         (Examples.start Examples.zeros))
  = inl (Failure (Chaos.thrown Chaos.DATABASE_CONNECTION)).
Proof.
  apply (X7_rate_is_monotone Examples.host (Examples.env_rate "0.1") "1" "getAccounts"
           (Examples.start Examples.zeros) (3602879701896397 # 36028797018963968) 1).
  - vm_compute. reflexivity.
  - vm_compute. reflexivity.
  - vm_compute. discriminate.
  - vm_compute. reflexivity.
Defined.

(** [maybeCauseChaos] sets no timer. *)
Lemma sync_timers (rt : Js.Runtime) (env : gmap string string) (op : string) (w : World) :
  Observe.timers (Observe.fresh w (Chaos.maybeCauseChaos rt env op w)) = [].
Proof.
  destruct (sync_run rt env op w)
    as [(_ & ->)|[(_ & _ & ->)|[(_ & _ & _ & ->)|(k & _ & _ & _ & ->)]]];
    unfold Observe.fresh; cbn [fst snd trace];
    rewrite ?drop_all, ?drop_app_length; reflexivity.
Qed.

(** The literal [0.3] is the multiple of 2^-54 nearest to 3/10. *)
Lemma literal_0_3_nearest :
  (Js.literal_0_3 == inject_Z 5404319552844595 / inject_Z (2 ^ 54))%Q
  /\ (Js.literal_0_3 < 3 # 10)%Q
  /\ ((3 # 10) - Js.literal_0_3 < 1 / inject_Z (2 ^ 55))%Q.
Proof. split; [|split]; vm_compute; reflexivity. Qed.

(** X26.  With chaos enabled and [CHAOS_ADD_LATENCY] set, over draws in
    [0, 1): the first draw alone decides on the latency, which is injected
    exactly when that draw is below the literal [0.3].  The delay is then a
    whole number of milliseconds from 0 to 499; it is logged and slept before
    [maybeCauseChaos] runs, and [maybeCauseChaos] draws afresh for its rate
    check, so the failure is decided by later draws than the latency.  Both
    can occur in one invocation: when the first draw is below [0.3], the draw
    of the rate check does not exceed the rate and a kind is enabled, the run
    sets its timer and then throws the failure of an enabled kind. *)
Theorem X26_latency_comes_first (rt : Js.Runtime) (env : gmap string string)
    (op : string) (w : World) :
  Chaos.enabled (Chaos.getConfig rt env) = true ->
  Js.is_true (env !! "CHAOS_ADD_LATENCY") = true ->
  Observe.valid w ->
  let r1 := rng w (cursor w) in
  let r2 := rng w (S (cursor w)) in
  let r3 := rng w (S (S (cursor w))) in
  let run := Chaos.maybeCauseChaosAsync rt env op w in
  exists d : Z,
    0 <= d < 500
    /\ ((r1 < Js.literal_0_3)%Q ->
        run = Chaos.maybeCauseChaos rt env op
                {| rng := rng w; cursor := S (S (cursor w));
                   trace := trace w ++ [Random r1; Random r2; LogDebug op d; Timer d] |}
        /\ Observe.timers (Observe.fresh w run) = [d]
        /\ (Chaos.enabledErrorTypes (Chaos.getConfig rt env) <> [] ->
            Js.gt r3 (Chaos.errorRate (Chaos.getConfig rt env)) = false ->
            exists k, k ∈ Chaos.enabledErrorTypes (Chaos.getConfig rt env)
                      /\ fst run = inl (Failure (Chaos.thrown k))))
    /\ (~ (r1 < Js.literal_0_3)%Q ->
        run = Chaos.maybeCauseChaos rt env op
                {| rng := rng w; cursor := S (cursor w); trace := trace w ++ [Random r1] |}
        /\ Observe.timers (Observe.fresh w run) = []).
Proof.
  intros He Hl Hv r1 r2 r3 run. subst run.
  exists (Qfloor (r2 * 500)). split; [|split].
  - destruct (Hv (S (cursor w))) as [H0 H1].
    exact (floor_draw_range r2 500 H0 H1 eq_refl).
  - intros Hg. apply Js_lt_true in Hg.
    rewrite (async_latency_hit rt env op w He Hl Hg). fold r1 r2.
    split; [reflexivity|]. split.
    + rewrite (fresh_after rt env op w (S (S (cursor w)))
                 [Random r1; Random r2; LogDebug op (Qfloor (r2 * 500));
                  Timer (Qfloor (r2 * 500))]).
      cbv zeta. unfold Observe.timers at 1. rewrite omap_app.
      fold (Observe.timers
              (Observe.fresh
                 {| rng := rng w; cursor := S (S (cursor w));
                    trace := trace w ++ [Random r1; Random r2;
                                         LogDebug op (Qfloor (r2 * 500));
                                         Timer (Qfloor (r2 * 500))] |}
                 (Chaos.maybeCauseChaos rt env op
                    {| rng := rng w; cursor := S (S (cursor w));
                       trace := trace w ++ [Random r1; Random r2;
                                            LogDebug op (Qfloor (r2 * 500));
                                            Timer (Qfloor (r2 * 500))] |}))).
      rewrite sync_timers. reflexivity.
    + intros Hne Hr.
      set (w' := {| rng := rng w; cursor := S (S (cursor w));
                    trace := trace w ++ [Random r1; Random r2;
                                         LogDebug op (Qfloor (r2 * 500));
                                         Timer (Qfloor (r2 * 500))] |}).
      assert (Hv' : Observe.valid w') by (intros n; apply Hv).
      destruct (selected_in_range rt env w' Hv' Hne) as (k & Hk & Hin).
      exists k. split; [exact Hin|].
      apply sync_select; [exact He | exact Hr | exact Hk].
  - intros Hg.
    assert (Hm : Js.lt r1 Js.literal_0_3 = false).
    { destruct (Js.lt r1 Js.literal_0_3) eqn:E; [|reflexivity].
      apply Js_lt_true in E. contradiction. }
    rewrite (async_latency_miss rt env op w He Hl Hm). fold r1.
    split; [reflexivity|].
    rewrite (fresh_after rt env op w (S (cursor w)) [Random r1]).
    cbv zeta. unfold Observe.timers at 1. rewrite omap_app.
    fold (Observe.timers
            (Observe.fresh
               {| rng := rng w; cursor := S (cursor w); trace := trace w ++ [Random r1] |}
               (Chaos.maybeCauseChaos rt env op
                  {| rng := rng w; cursor := S (cursor w);
                     trace := trace w ++ [Random r1] |}))).
    rewrite sync_timers. reflexivity.
Qed.

Lemma X26_latency_comes_first_witness :
  exists d : Z,
    0 <= d < 500
    /\ Observe.timers
         (Observe.fresh (Examples.start Examples.delay_then_fail)
            (Chaos.maybeCauseChaosAsync Examples.host Examples.env_latency "getAccounts"
               (Examples.start Examples.delay_then_fail)))
       = [d]
    /\ exists k, k ∈ Chaos.enabledErrorTypes (Chaos.getConfig Examples.host Examples.env_latency)
                 /\ fst (Chaos.maybeCauseChaosAsync Examples.host Examples.env_latency
                           "getAccounts" (Examples.start Examples.delay_then_fail))
                    = inl (Failure (Chaos.thrown k)).
Proof.
  destruct (X26_latency_comes_first Examples.host Examples.env_latency "getAccounts"
              (Examples.start Examples.delay_then_fail))
    as (d & Hd & Hhit & _).
  - vm_compute. reflexivity.
  - vm_compute. reflexivity.
  - intros n. unfold Examples.start, Examples.delay_then_fail. cbn [rng].
    destruct n as [|[|[|n]]]; split; vm_compute; try discriminate; reflexivity.
  - exists d. split; [exact Hd|].
    destruct Hhit as (_ & Ht & Hboth); [vm_compute; reflexivity|].
    split; [exact Ht|]. apply Hboth; [vm_compute; discriminate | vm_compute; reflexivity].
Defined.

(** ** Reading [CHAOS_ERROR_TYPES] *)

Lemma all_chars_app (P : Ascii.ascii -> bool) (s t : string) :
  Trace.all_chars P (s ++ t) = Trace.all_chars P s && Trace.all_chars P t.
Proof.
  induction s as [|c s IH]; [reflexivity|]. simpl. rewrite IH, andb_assoc. reflexivity.
Qed.

Lemma all_chars_impl (P Q : Ascii.ascii -> bool) (s : string) :
  (forall c, P c = true -> Q c = true) ->
  Trace.all_chars P s = true -> Trace.all_chars Q s = true.
Proof.
  intros HPQ. induction s as [|c s IH]; [reflexivity|]. simpl.
  rewrite !andb_true_iff. intros [Hc Hs]. auto.
Qed.

Lemma blank_comma_free (s : string) : Trace.blank s = true -> Trace.comma_free s = true.
Proof.
  apply all_chars_impl. intros c Hc.
  destruct (Ascii.eqb c Js.comma) eqn:E; [|reflexivity].
  apply Ascii.eqb_eq in E. subst c. discriminate Hc.
Qed.

Lemma split_comma_free (s : string) :
  Trace.comma_free s = true -> Js.split Js.comma s = [s].
Proof.
  induction s as [|c s IH]; [reflexivity|]. unfold Trace.comma_free in *. simpl.
  rewrite andb_true_iff, negb_true_iff. intros [Hc Hs].
  rewrite Hc, (IH Hs). reflexivity.
Qed.

Lemma split_app_comma (s rest : string) :
  Trace.comma_free s = true ->
  Js.split Js.comma (s ++ String Js.comma rest) = s :: Js.split Js.comma rest.
Proof.
  induction s as [|c s IH]; unfold Trace.comma_free in *; simpl.
  - intros _. reflexivity.
  - rewrite andb_true_iff, negb_true_iff. intros [Hc Hs].
    rewrite Hc. unfold Js.comma in *. rewrite (IH Hs). reflexivity.
Qed.

(** Splitting at commas undoes joining with commas, for pieces that hold no
    comma. *)
Lemma split_concat (l : list string) :
  l <> [] ->
  forallb Trace.comma_free l = true ->
  Js.split Js.comma (String.concat "," l) = l.
Proof.
  induction l as [|s l IH]; [congruence|]. intros _. simpl forallb.
  rewrite andb_true_iff. intros [Hs Hl].
  destruct l as [|s' l'].
  - simpl. apply split_comma_free. exact Hs.
  - change (String.concat "," (s :: s' :: l'))
      with (String.append s (String Js.comma (String.concat "," (s' :: l')))).
    rewrite split_app_comma by exact Hs. f_equal. apply IH; [discriminate | exact Hl].
Qed.

Lemma trimStart_blank (a t : string) :
  Trace.blank a = true -> Js.trimStart (a ++ t) = Js.trimStart t.
Proof.
  induction a as [|c a IH]; [reflexivity|]. unfold Trace.blank in *. simpl.
  rewrite andb_true_iff. intros [Hc Ha]. rewrite Hc. apply IH. exact Ha.
Qed.

Lemma trimEnd_blank (b : string) : Trace.blank b = true -> Js.trimEnd b = EmptyString.
Proof.
  induction b as [|c b IH]; [reflexivity|]. unfold Trace.blank in *. simpl.
  rewrite andb_true_iff. intros [Hc Hb]. rewrite (IH Hb), Hc. reflexivity.
Qed.

Lemma trimEnd_solid (s b : string) :
  Trace.all_chars (fun c => negb (Js.is_space c)) s = true ->
  Trace.blank b = true ->
  Js.trimEnd (s ++ b) = s.
Proof.
  intros Hs Hb. induction s as [|c s IH]; [apply trimEnd_blank; exact Hb|].
  simpl in Hs. apply andb_true_iff in Hs as [Hc Hs]. apply negb_true_iff in Hc.
  simpl. rewrite (IH Hs). destruct s; [rewrite Hc|]; reflexivity.
Qed.

Lemma value_solid (k : Chaos.ChaosErrorType) :
  Trace.all_chars (fun c => negb (Js.is_space c)) (Chaos.value k) = true
  /\ Trace.comma_free (Chaos.value k) = true
  /\ Js.toUpperCase (Chaos.value k) = Chaos.value k
  /\ Chaos.of_value (Chaos.value k) = Some k
  /\ exists c t, Chaos.value k = String c t /\ Js.is_space c = false.
Proof.
  destruct k; (split; [reflexivity|]; split; [reflexivity|]; split; [reflexivity|];
               split; [reflexivity|]; eexists _, _; split; reflexivity).
Qed.

(** A kind written in capitals between blanks is read back as that kind. *)
Lemma normalise_entry (a b : string) (k : Chaos.ChaosErrorType) :
  Trace.blank a = true -> Trace.blank b = true ->
  Js.toUpperCase (Js.trim (a ++ Chaos.value k ++ b)) = Chaos.value k.
Proof.
  intros Ha Hb. destruct (value_solid k) as (Hs & _ & Hu & _ & c & t & Hv & Hc).
  unfold Js.trim. rewrite trimStart_blank by exact Ha.
  assert (Hstart : Js.trimStart (Chaos.value k +:+ b) = Chaos.value k +:+ b).
  { rewrite Hv. simpl. rewrite Hc. reflexivity. }
  rewrite Hstart, trimEnd_solid by assumption. exact Hu.
Qed.

Lemma keep_known_cons (s : string) (l : list string) :
  Chaos.keep_known (s :: l)
  = match Chaos.of_value s with
    | Some k => k :: Chaos.keep_known l
    | None => Chaos.keep_known l
    end.
Proof.
  unfold Chaos.keep_known. cbn [List.filter].
  assert (H : existsb (String.eqb s) (List.map Chaos.value Chaos.values)
              = match Chaos.of_value s with Some _ => true | None => false end).
  { unfold Chaos.of_value. induction Chaos.values as [|t ts IH]; [reflexivity|].
    cbn [List.map existsb List.find]. rewrite (String.eqb_sym s).
    destruct (String.eqb (Chaos.value t) s); [reflexivity | exact IH]. }
  rewrite H. destruct (Chaos.of_value s) eqn:E; [|reflexivity].
  cbn [omap list_omap]. rewrite E. reflexivity.
Qed.

Lemma string_length_append (s t : string) :
  String.length (s +:+ t) = (String.length s + String.length t)%nat.
Proof. induction s as [|c s IH]; [reflexivity|]. simpl. rewrite IH. reflexivity. Qed.

(** X8.  [CHAOS_ERROR_TYPES] reads back what was written: a comma-separated
    list of kind names, each possibly surrounded by blanks, configures exactly
    those kinds, in the order written and with repetitions kept. *)
Theorem X8_error_types_round_trip (env : gmap string string)
    (entries : list (string * Chaos.ChaosErrorType * string)) :
  entries <> [] ->
  forallb (fun e => Trace.blank e.1.1 && Trace.blank e.2) entries = true ->
  env !! "CHAOS_ERROR_TYPES"
  = Some (String.concat "," (List.map (fun e => e.1.1 +:+ Chaos.value e.1.2 +:+ e.2) entries)) ->
  Chaos.parseEnabledErrorTypes env = List.map (fun e => e.1.2) entries.
Proof.
  intros Hne Hblank Henv.
  set (pieces := List.map (fun e => e.1.1 +:+ Chaos.value e.1.2 +:+ e.2) entries) in *.
  assert (Hfree : forallb Trace.comma_free pieces = true).
  { unfold pieces. clear -Hblank. induction entries as [|[[a k] b] l IH]; [reflexivity|].
    cbn [forallb List.map fst snd] in *.
    apply andb_true_iff in Hblank as [Hab Hl]. apply andb_true_iff in Hab as [Ha Hb].
    rewrite (IH Hl), andb_true_r. unfold Trace.comma_free.
    rewrite !all_chars_app, !andb_true_iff. repeat split.
    - apply blank_comma_free. exact Ha.
    - apply (value_solid k).
    - apply blank_comma_free. exact Hb. }
  assert (Hnonempty : String.concat "," pieces <> EmptyString).
  { unfold pieces. destruct entries as [|[[a k] b] l]; [congruence|].
    cbn [List.map fst snd]. destruct (value_solid k) as (_ & _ & _ & _ & c & t & Hv & _).
    intros Hnil.
    assert (Hlen : String.length (String.concat ","
                     ((a +:+ Chaos.value k +:+ b)
                      :: List.map (fun e => e.1.1 +:+ Chaos.value e.1.2 +:+ e.2) l)) = 0%nat)
      by (rewrite Hnil; reflexivity).
    destruct (List.map (fun e => e.1.1 +:+ Chaos.value e.1.2 +:+ e.2) l);
      cbn [String.concat] in Hlen; rewrite ?string_length_append, Hv in Hlen;
      simpl in Hlen; lia. }
  unfold Chaos.parseEnabledErrorTypes. rewrite Henv.
  assert (Hfalsy : Js.falsy (Some (String.concat "," pieces)) = false)
    by (simpl; destruct (String.concat "," pieces); [congruence | reflexivity]).
  rewrite Hfalsy.
  change (default EmptyString (Some (String.concat "," pieces)))
    with (String.concat "," pieces).
  rewrite split_concat; [|unfold pieces; destruct entries; [congruence | discriminate] | exact Hfree].
  unfold pieces. clear -Hblank.
  induction entries as [|[[a k] b] l IH]; [reflexivity|].
  cbn [forallb List.map fst snd] in *.
  apply andb_true_iff in Hblank as [Hab Hl]. apply andb_true_iff in Hab as [Ha Hb].
  rewrite keep_known_cons, normalise_entry by assumption.
  destruct (value_solid k) as (_ & _ & _ & -> & _). f_equal. apply IH. exact Hl.
Qed.

Lemma X8_error_types_round_trip_witness :
  Chaos.parseEnabledErrorTypes MoreExamples.env_two_kinds
  = [Chaos.DATABASE_TIMEOUT; Chaos.NETWORK_TIMEOUT].
Proof.
  apply (X8_error_types_round_trip MoreExamples.env_two_kinds
           [ (EmptyString, Chaos.DATABASE_TIMEOUT, EmptyString);
             (" "%string, Chaos.NETWORK_TIMEOUT, EmptyString) ]).
  - discriminate.
  - vm_compute. reflexivity.
  - vm_compute. reflexivity.
Defined.

(** ** The activities *)

(** With chaos off an activity is its simulated delay and its result. *)
Lemma activity_without_chaos {A} (rt : Js.Runtime) (env : gmap string string)
    (op : string) (ms : Z) (res : A) (w : World) :
  env !! "CHAOS_ENABLED" <> Some "true"%string ->
  (Chaos.maybeCauseChaosAsync rt env op ;;; sleep ms ;;; ret res) w
  = (inr res, {| rng := rng w; cursor := cursor w; trace := trace w ++ [Timer ms] |}).
Proof.
  intros H. apply is_true_other in H. unfold bind at 1.
  rewrite (async_disabled rt env op w H). reflexivity.
Qed.

(** The world after a timer of [ms] milliseconds and nothing else. *)
Lemma after_timer_fresh {A} (w : World) (ms : Z) (res : A) :
  Observe.fresh w (inr res : Thrown + A,
                   {| rng := rng w; cursor := cursor w; trace := trace w ++ [Timer ms] |})
  = [Timer ms].
Proof. unfold Observe.fresh. cbn [snd trace]. apply drop_app_length. Qed.

(** With chaos off an activity is its timer and then the callback of the
    timer. *)
Lemma callback_without_chaos {A} (rt : Js.Runtime) (env : gmap string string)
    (op : string) (ms : Z) (callback : M A) (w : World) :
  env !! "CHAOS_ENABLED" <> Some "true"%string ->
  (Chaos.maybeCauseChaosAsync rt env op ;;; sleep ms ;;; callback) w
  = callback {| rng := rng w; cursor := cursor w; trace := trace w ++ [Timer ms] |}.
Proof.
  intros H. apply is_true_other in H. unfold bind at 1.
  rewrite (async_disabled rt env op w H). reflexivity.
Qed.

(** X9.  With chaos off (any [CHAOS_ENABLED] other than ["true"]) an activity
    draws nothing from the random source, logs nothing, and its only effect is
    its simulated query delay (75 ms for the current customer, 50 ms for the
    lookups by id, 100 ms for the listings).  The five activities that read no
    object by account id always return.  The six that do return unless the id
    is the name of a member of [Object.prototype] that the object does not
    store: there the contact lookup resolves that member, and the four
    listings and the statement lookup throw a [TypeError] after their
    timer. *)
Theorem X9_activities_without_chaos (rt : Js.Runtime) (env : gmap string string)
    (ds : Activities.DataStore) (dir : Lookups.Directory)
    (id id2 : string) (filters : option CustomerFilters.t) (offset limit : option Z)
    (startTime endTime : option string) (w : World) :
  env !! "CHAOS_ENABLED" <> Some "true"%string ->
  let after ms := {| rng := rng w; cursor := cursor w; trace := trace w ++ [Timer ms] |} in
  let ends {R} (inherited : bool) (run : (Thrown + R) * World) (ms : Z) (callee : string) :=
    if inherited
    then run = (inl (TypeError (callee +:+ " is not a function")), after ms)
    else exists r, run = (inr r, after ms) in
  (exists r, Lookups.getCurrentCustomer rt env dir w = (inr r, after 75))
  /\ (exists r, Lookups.getCustomerById rt env dir id w = (inr r, after 50))
  /\ (exists r, Lookups.getCustomers rt env dir filters w = (inr r, after 100))
  /\ (exists r, Lookups.getAccountById rt env ds id w = (inr r, after 50))
  /\ (exists r, Activities.getAccounts rt env ds offset limit w = (inr r, after 100))
  /\ Lookups.getAccountContactById rt env dir id w
     = (inr (if Js.inherits (Lookups.accountContacts dir) id
             then Some (Js.Inherited id)
             else option_map Js.Own (Lookups.accountContacts dir !! id)), after 50)
  /\ ends (Js.inherits (Activities.accountStatements ds) id)
       (Lookups.getAccountStatementById rt env ds id id2 w) 50 "statementsForAccount.find"
  /\ ends (Js.inherits (Activities.accountStatements ds) id)
       (Activities.getAccountStatements rt env ds id offset limit startTime endTime w)
       100 "statementsForAccount.filter"
  /\ ends (Js.inherits (Activities.accountTransactions ds) id)
       (Activities.getAccountTransactions rt env ds id offset limit startTime endTime w)
       100 "transactionsForAccount.filter"
  /\ ends (Js.inherits (Activities.accountPaymentNetworks ds) id)
       (Activities.getPaymentNetworks rt env ds id offset limit w) 100 "networks.slice"
  /\ ends (Js.inherits (Activities.accountPaymentNetworks ds) id)
       (Activities.getAssetTransferNetworks rt env ds id offset limit w) 100 "networks.slice".
Proof.
  intros H after ends. subst ends. cbv beta.
  unfold Lookups.getCurrentCustomer, Lookups.getCustomerById, Lookups.getCustomers,
    Lookups.getAccountById, Lookups.getAccountContactById, Lookups.getAccountStatementById,
    Activities.getAccounts, Activities.getAccountStatements,
    Activities.getAccountTransactions, Activities.getPaymentNetworks,
    Activities.getAssetTransferNetworks.
  cbv zeta. rewrite !callback_without_chaos by exact H. rewrite !get_or_empty.
  repeat apply conj; try (eexists; reflexivity).
  - rewrite get_inherits. reflexivity.
  - destruct (Js.inherits (Activities.accountStatements ds) id);
      [reflexivity | eexists; reflexivity].
  - destruct (Js.inherits (Activities.accountStatements ds) id);
      [reflexivity | eexists; reflexivity].
  - destruct (Js.inherits (Activities.accountTransactions ds) id);
      [reflexivity | eexists; reflexivity].
  - destruct (Js.inherits (Activities.accountPaymentNetworks ds) id);
      [reflexivity | eexists; reflexivity].
  - destruct (Js.inherits (Activities.accountPaymentNetworks ds) id);
      [reflexivity | eexists; reflexivity].
Qed.

Lemma X9_activities_without_chaos_witness :
  Activities.getPaymentNetworks Examples.host MoreExamples.env_capitals MoreExamples.bank
    "constructor" None None (Examples.start Examples.zeros)
  = (inl (TypeError "networks.slice is not a function"),
     {| rng := Examples.zeros; cursor := 0; trace := [Timer 100] |}).
Proof.
  destruct (X9_activities_without_chaos Examples.host MoreExamples.env_capitals
              MoreExamples.bank MoreExamples.directory "constructor" "s1" None None None
              None None (Examples.start Examples.zeros))
    as (_ & _ & _ & _ & _ & _ & _ & _ & _ & H & _).
  - vm_compute. discriminate.
  - exact H.
Defined.

(** What [find] returns: the first element that passes the test, or nothing
    when none does. *)
Lemma find_first {A} (f : A -> bool) (l : list A) :
  match List.find f l with
  | Some x => exists pre post, l = pre ++ x :: post /\ f x = true
                               /\ forall y, y ∈ pre -> f y = false
  | None => forall y, y ∈ l -> f y = false
  end.
Proof.
  induction l as [|a l IH]; simpl.
  - intros y Hy. inversion Hy.
  - destruct (f a) eqn:Ha.
    + exists [], l. repeat split; [exact Ha|]. intros y Hy. inversion Hy.
    + destruct (List.find f l) as [x|].
      * destruct IH as (pre & post & -> & Hx & Hpre).
        exists (a :: pre), post. repeat split; [exact Hx|].
        intros y Hy. apply elem_of_cons in Hy as [->|Hy]; auto.
      * intros y Hy. apply elem_of_cons in Hy as [->|Hy]; auto.
Qed.

(** Lookups fail exactly when the injector raises. *)
Lemma lookup_outcome {A} (rt : Js.Runtime) (env : gmap string string)
    (op : string) (ms : Z) (res : A) (w : World) (r : A) :
  fst ((Chaos.maybeCauseChaosAsync rt env op ;;; sleep ms ;;; ret res) w) = inr r ->
  r = res.
Proof.
  rewrite activity_outcome.
  destruct (fst (Chaos.maybeCauseChaosAsync rt env op w)) as [e|[]]; cbn [sum_map];
    [discriminate | intros [= <-]; reflexivity].
Qed.

Lemma statement_by_id_outcome (rt : Js.Runtime) (env : gmap string string)
    (ds : Activities.DataStore) (accountId statementId : string) (w : World) :
  fst (Lookups.getAccountStatementById rt env ds accountId statementId w)
  = Observe.run_of (fst (Chaos.maybeCauseChaosAsync rt env "getAccountStatementById" w))
      (if Js.inherits (Activities.accountStatements ds) accountId
       then inl (TypeError "statementsForAccount.find is not a function")
       else inr (List.find (fun s => String.eqb (Statement.statementId s) statementId)
                   (default [] (Activities.accountStatements ds !! accountId)))).
Proof.
  unfold Lookups.getAccountStatementById. open_activity; reflexivity.
Qed.

Lemma contact_by_id_outcome (rt : Js.Runtime) (env : gmap string string)
    (dir : Lookups.Directory) (accountId : string) (w : World) :
  fst (Lookups.getAccountContactById rt env dir accountId w)
  = sum_map id (fun _ => Js.get (Lookups.accountContacts dir) accountId)
      (fst (Chaos.maybeCauseChaosAsync rt env "getAccountContactById" w)).
Proof.
  unfold Lookups.getAccountContactById. cbv zeta. apply activity_outcome.
Qed.

(** X10.  The lookups by id return the first stored item with the requested
    id, and [null] exactly when no stored item has it: [getAccountById] over
    the accounts, [getCustomerById] over the customers, and
    [getAccountStatementById] over the statements of the account, where an
    unknown account has no statements. *)
Theorem X10_lookup_by_id (rt : Js.Runtime) (env : gmap string string)
    (ds : Activities.DataStore) (dir : Lookups.Directory)
    (accountId customerId statementId : string) (w : World) :
  (forall r, fst (Lookups.getAccountById rt env ds accountId w) = inr r ->
     match r with
     | Some a =>
         Account.accountId a = accountId
         /\ exists pre post, Activities.accounts ds = pre ++ a :: post
                             /\ forall b, b ∈ pre -> Account.accountId b <> accountId
     | None => forall b, b ∈ Activities.accounts ds -> Account.accountId b <> accountId
     end)
  /\ (forall r, fst (Lookups.getCustomerById rt env dir customerId w) = inr r ->
        match r with
        | Some c =>
            Customer.customerId c = customerId
            /\ exists pre post, Lookups.customers dir = pre ++ c :: post
                                /\ forall b, b ∈ pre -> Customer.customerId b <> customerId
        | None => forall b, b ∈ Lookups.customers dir -> Customer.customerId b <> customerId
        end)
  /\ (forall r, fst (Lookups.getAccountStatementById rt env ds accountId statementId w) = inr r ->
        match r with
        | Some s =>
            Statement.statementId s = statementId
            /\ exists stored pre post,
                 Activities.accountStatements ds !! accountId = Some stored
                 /\ stored = pre ++ s :: post
                 /\ forall b, b ∈ pre -> Statement.statementId b <> statementId
        | None =>
            forall stored b,
              Activities.accountStatements ds !! accountId = Some stored ->
              b ∈ stored -> Statement.statementId b <> statementId
        end).
Proof.
  split; [|split].
  - intros r Hr. apply lookup_outcome in Hr. subst r.
    pose proof (find_first (fun acc => String.eqb (Account.accountId acc) accountId)
                  (Activities.accounts ds)) as H.
    destruct (List.find _ _) as [a|].
    + destruct H as (pre & post & Hl & Ha & Hpre). apply String.eqb_eq in Ha.
      split; [exact Ha|]. exists pre, post. split; [exact Hl|].
      intros b Hb. apply String.eqb_neq. auto.
    + intros b Hb. apply String.eqb_neq. auto.
  - intros r Hr. apply lookup_outcome in Hr. subst r.
    pose proof (find_first (fun c => String.eqb (Customer.customerId c) customerId)
                  (Lookups.customers dir)) as H.
    destruct (List.find _ _) as [a|].
    + destruct H as (pre & post & Hl & Ha & Hpre). apply String.eqb_eq in Ha.
      split; [exact Ha|]. exists pre, post. split; [exact Hl|].
      intros b Hb. apply String.eqb_neq. auto.
    + intros b Hb. apply String.eqb_neq. auto.
  - intros r Hr. rewrite statement_by_id_outcome in Hr. apply run_of_inr in Hr.
    destruct (Js.inherits (Activities.accountStatements ds) accountId); [discriminate|].
    injection Hr as <-.
    pose proof (find_first (fun s => String.eqb (Statement.statementId s) statementId)
                  (default [] (Activities.accountStatements ds !! accountId))) as H.
    destruct (List.find _ _) as [a|].
    + destruct H as (pre & post & Hl & Ha & Hpre). apply String.eqb_eq in Ha.
      split; [exact Ha|].
      destruct (Activities.accountStatements ds !! accountId) as [stored|];
        [|destruct pre; discriminate Hl].
      exists stored, pre, post. split; [reflexivity|]. split; [exact Hl|].
      intros b Hb. apply String.eqb_neq. auto.
    + intros stored b Hs Hb. rewrite Hs in H. apply String.eqb_neq. auto.
Qed.

Lemma X10_lookup_by_id_witness :
  Account.accountId (MoreExamples.account "acc-2") = "acc-2"%string
  /\ exists pre post,
       Activities.accounts MoreExamples.bank = pre ++ MoreExamples.account "acc-2" :: post
       /\ forall b, b ∈ pre -> Account.accountId b <> "acc-2"%string.
Proof.
  apply (proj1 (X10_lookup_by_id Examples.host MoreExamples.env_off MoreExamples.bank
                  MoreExamples.directory "acc-2" "customer-123" "s1"
                  (Examples.start Examples.zeros)) (Some (MoreExamples.account "acc-2"))).
  vm_compute. reflexivity.
Defined.

(** X11.  [getCustomers] with a non-empty [status] filter returns exactly the
    stored customers of that status, in stored order; with no filter, or an
    empty one, it returns every stored customer. *)
Theorem X11_customers_by_status (rt : Js.Runtime) (env : gmap string string)
    (dir : Lookups.Directory) (filters : option CustomerFilters.t) (w : World)
    (r : list Customer.t) :
  fst (Lookups.getCustomers rt env dir filters w) = inr r ->
  match filters ≫= CustomerFilters.status with
  | None | Some EmptyString => r = Lookups.customers dir
  | Some status =>
      (forall c, c ∈ r <-> c ∈ Lookups.customers dir /\ Customer.status c = status)
      /\ sublist r (Lookups.customers dir)
  end.
Proof.
  intros Hr. unfold Lookups.getCustomers in Hr. cbv zeta in Hr.
  apply lookup_outcome in Hr. subst r.
  destruct filters as [[status]|]; [|reflexivity].
  destruct status as [s|]; [|reflexivity].
  destruct s as [|c s]; [reflexivity|]. simpl. split.
  - intros x. rewrite !list_elem_of_In, List.filter_In, String.eqb_eq. reflexivity.
  - induction (Lookups.customers dir) as [|x l IH]; [constructor|].
    cbn [List.filter]. destruct (String.eqb _ _); constructor; exact IH.
Qed.

Lemma X11_customers_by_status_witness :
  sublist [MoreExamples.customer "customer-7" "active";
           MoreExamples.customer "customer-9" "active"]
    (Lookups.customers MoreExamples.directory).
Proof.
  apply (X11_customers_by_status Examples.host MoreExamples.env_off MoreExamples.directory
           (Some {| CustomerFilters.status := Some "active"%string |})
           (Examples.start Examples.zeros)).
  vm_compute. reflexivity.
Defined.

(** X12.  [getCurrentCustomer] is [getCustomerById] at the fixed id
    ["customer-123"]: over the same draws the two have the same outcome (the
    same customer, [null], or the same injected failure); they differ in the
    operation name they log and in the simulated delay (75 ms against 50). *)
Theorem X12_current_customer_is_by_id (rt : Js.Runtime) (env : gmap string string)
    (dir : Lookups.Directory) (w : World) :
  fst (Lookups.getCurrentCustomer rt env dir w)
  = fst (Lookups.getCustomerById rt env dir "customer-123" w)
  /\ List.map Observe.erase_operation
       (Observe.fresh w (Chaos.maybeCauseChaosAsync rt env "getCurrentCustomer" w))
     = List.map Observe.erase_operation
         (Observe.fresh w (Chaos.maybeCauseChaosAsync rt env "getCustomerById" w)).
Proof.
  unfold Lookups.getCurrentCustomer, Lookups.getCustomerById. cbv zeta.
  rewrite !activity_outcome.
  destruct (maybeCauseChaosAsync_operation rt env "getCurrentCustomer" "getCustomerById"
              w w (fun _ => eq_refl)) as (Hout & _ & Htr & _).
  cbv zeta in Hout, Htr. rewrite Hout. split; [reflexivity | exact Htr].
Qed.

Lemma slice_nil {A} (s e : Z) : Js.slice (@nil A) s e = [].
Proof. unfold Js.slice. rewrite drop_nil, take_nil. reflexivity. Qed.

(** X13.  An account id that none of the stored objects has as a key.  When
    it is not the name of a member of [Object.prototype] it is not an error:
    its statements, transactions and networks are the empty page with total 0,
    whatever the window and the dates, and its contact and any statement of
    it are [null]; the only failures are the injected ones.  When it is such
    a name (["constructor"], ["toString"], ...), the read finds the inherited
    member instead: the four listings and the statement lookup throw a
    [TypeError], and the contact lookup resolves that member. *)
Theorem X13_unknown_account_is_empty (rt : Js.Runtime) (env : gmap string string)
    (ds : Activities.DataStore) (dir : Lookups.Directory)
    (accountId statementId : string) (offset limit : option Z)
    (startTime endTime : option string) (w : World) :
  Activities.accountStatements ds !! accountId = None ->
  Activities.accountTransactions ds !! accountId = None ->
  Activities.accountPaymentNetworks ds !! accountId = None ->
  Lookups.accountContacts dir !! accountId = None ->
  let injected op := fst (Chaos.maybeCauseChaosAsync rt env op w) in
  let statements :=
    fst (Activities.getAccountStatements rt env ds accountId offset limit startTime endTime w) in
  let transactions :=
    fst (Activities.getAccountTransactions rt env ds accountId offset limit
           startTime endTime w) in
  let payment := fst (Activities.getPaymentNetworks rt env ds accountId offset limit w) in
  let asset := fst (Activities.getAssetTransferNetworks rt env ds accountId offset limit w) in
  let contact := fst (Lookups.getAccountContactById rt env dir accountId w) in
  let statement := fst (Lookups.getAccountStatementById rt env ds accountId statementId w) in
  (accountId ∉ Js.Object_prototype ->
   statements
   = Observe.run_of (injected "getAccountStatements"%string)
       (inr {| PaginatedStatementsResult.statements := [];
               PaginatedStatementsResult.total := 0 |})
   /\ transactions
      = Observe.run_of (injected "getAccountTransactions"%string)
          (inr {| PaginatedTransactionsResult.transactions := [];
                  PaginatedTransactionsResult.total := 0 |})
   /\ payment
      = Observe.run_of (injected "getPaymentNetworks"%string)
          (inr {| PaginatedPaymentNetworksResult.paymentNetworks := [];
                  PaginatedPaymentNetworksResult.total := 0 |})
   /\ asset
      = Observe.run_of (injected "getAssetTransferNetworks"%string)
          (inr {| PaginatedAssetTransferNetworksResult.assetTransferNetworks := [];
                  PaginatedAssetTransferNetworksResult.total := 0 |})
   /\ contact = Observe.run_of (injected "getAccountContactById"%string) (inr None)
   /\ statement = Observe.run_of (injected "getAccountStatementById"%string) (inr None))
  /\ (accountId ∈ Js.Object_prototype ->
      statements
      = Observe.run_of (injected "getAccountStatements"%string)
          (inl (TypeError "statementsForAccount.filter is not a function"))
      /\ transactions
         = Observe.run_of (injected "getAccountTransactions"%string)
             (inl (TypeError "transactionsForAccount.filter is not a function"))
      /\ payment
         = Observe.run_of (injected "getPaymentNetworks"%string)
             (inl (TypeError "networks.slice is not a function"))
      /\ asset
         = Observe.run_of (injected "getAssetTransferNetworks"%string)
             (inl (TypeError "networks.slice is not a function"))
      /\ contact
         = Observe.run_of (injected "getAccountContactById"%string)
             (inr (Some (Js.Inherited accountId)))
      /\ statement
         = Observe.run_of (injected "getAccountStatementById"%string)
             (inl (TypeError "statementsForAccount.find is not a function"))).
Proof.
  intros Hs Ht Hn Hc injected statements transactions payment asset contact statement.
  subst injected statements transactions payment asset contact statement. cbv beta.
  rewrite statements_outcome, transactions_outcome, payment_outcome, asset_outcome,
    statement_by_id_outcome, contact_by_id_outcome.
  unfold Js.get. rewrite Hs, Ht, Hn, Hc.
  unfold Activities.filterStatements, Activities.filterTransactions.
  cbv zeta. cbn [default from_option id List.filter List.find length Z.of_nat].
  rewrite !slice_nil.
  split; intros Hin.
  - assert (Hi : forall V (obj : gmap string V),
               obj !! accountId = None -> Js.inherits obj accountId = false).
    { intros V obj Hobj. destruct (Js.inherits obj accountId) eqn:E; [|reflexivity].
      apply inherits_spec in E as [_ E]. contradiction. }
    rewrite !Hi by assumption. rewrite bool_decide_eq_false_2 by exact Hin.
    unfold Observe.run_of.
    repeat split;
      match goal with
      | |- context [fst (Chaos.maybeCauseChaosAsync ?rt ?env ?op ?w)] =>
          destruct (fst (Chaos.maybeCauseChaosAsync rt env op w)) as [?|[]]; reflexivity
      end.
  - assert (Hi : forall V (obj : gmap string V),
               obj !! accountId = None -> Js.inherits obj accountId = true).
    { intros V obj Hobj. apply inherits_spec. auto. }
    rewrite !Hi by assumption. rewrite bool_decide_eq_true_2 by exact Hin.
    unfold Observe.run_of.
    repeat split;
      match goal with
      | |- context [fst (Chaos.maybeCauseChaosAsync ?rt ?env ?op ?w)] =>
          destruct (fst (Chaos.maybeCauseChaosAsync rt env op w)) as [?|[]]; reflexivity
      end.
Qed.

Lemma X13_unknown_account_is_empty_witness :
  fst (Activities.getAccountStatements Examples.host MoreExamples.env_off MoreExamples.bank
         "acc-404" (Some 0) (Some 10) None None (Examples.start Examples.zeros))
  = inr {| PaginatedStatementsResult.statements := [];
           PaginatedStatementsResult.total := 0 |}
  /\ fst (Lookups.getAccountContactById Examples.host MoreExamples.env_off
            MoreExamples.directory "toString" (Examples.start Examples.zeros))
     = inr (Some (Js.Inherited "toString")).
Proof.
  split.
  - pose proof (X13_unknown_account_is_empty Examples.host MoreExamples.env_off
                  MoreExamples.bank MoreExamples.directory "acc-404" "s1" (Some 0) (Some 10)
                  None None (Examples.start Examples.zeros)) as H.
    destruct H as [H _]; [vm_compute; reflexivity ..|].
    destruct H as (H & _).
    + apply (bool_decide_unpack _). vm_compute. reflexivity.
    + rewrite H. vm_compute. reflexivity.
  - pose proof (X13_unknown_account_is_empty Examples.host MoreExamples.env_off
                  MoreExamples.bank MoreExamples.directory "toString" "s1" (Some 0) (Some 10)
                  None None (Examples.start Examples.zeros)) as H.
    destruct H as [_ H]; [vm_compute; reflexivity ..|].
    destruct H as (_ & _ & _ & _ & H & _).
    + apply (bool_decide_unpack _). vm_compute. reflexivity.
    + rewrite H. vm_compute. reflexivity.
Defined.

(** Whatever the integers, [slice] returns a contiguous run of the list. *)
Lemma slice_segment {A} (l : list A) (s e : Z) :
  exists pre post, l = pre ++ Js.slice l s e ++ post.
Proof.
  unfold Js.slice.
  set (k := Z.to_nat _). set (n := Z.to_nat _).
  exists (take n l), (drop k (drop n l)).
  rewrite (take_drop k (drop n l)), take_drop. reflexivity.
Qed.

(** X14.  For all integer offsets and limits, negative ones included, and
    omitted ones, a listing never invents or reorders anything: the page it
    returns is a contiguous run of the stored (and, where applicable,
    date-filtered) collection, and [total] is the size of that whole
    collection. *)
Theorem X14_pages_are_segments (rt : Js.Runtime) (env : gmap string string)
    (ds : Activities.DataStore) (accountId : string) (offset limit : option Z)
    (startTime endTime : option string) (w : World) :
  (forall r, fst (Activities.getAccounts rt env ds offset limit w) = inr r ->
     (exists pre post,
        Activities.accounts ds = pre ++ PaginatedAccountsResult.accounts r ++ post)
     /\ PaginatedAccountsResult.total r = Z.of_nat (length (Activities.accounts ds)))
  /\ (forall r,
        fst (Activities.getAccountStatements rt env ds accountId offset limit
               startTime endTime w) = inr r ->
        let all := Activities.filterStatements rt (default EmptyString startTime)
                     (default EmptyString endTime)
                     (default [] (Activities.accountStatements ds !! accountId)) in
        (exists pre post, all = pre ++ PaginatedStatementsResult.statements r ++ post)
        /\ PaginatedStatementsResult.total r = Z.of_nat (length all))
  /\ (forall r,
        fst (Activities.getAccountTransactions rt env ds accountId offset limit
               startTime endTime w) = inr r ->
        let all := Activities.filterTransactions rt (default EmptyString startTime)
                     (default EmptyString endTime)
                     (default [] (Activities.accountTransactions ds !! accountId)) in
        (exists pre post, all = pre ++ PaginatedTransactionsResult.transactions r ++ post)
        /\ PaginatedTransactionsResult.total r = Z.of_nat (length all))
  /\ (forall r, fst (Activities.getPaymentNetworks rt env ds accountId offset limit w) = inr r ->
        let all := default [] (Activities.accountPaymentNetworks ds !! accountId) in
        (exists pre post, all = pre ++ PaginatedPaymentNetworksResult.paymentNetworks r ++ post)
        /\ PaginatedPaymentNetworksResult.total r = Z.of_nat (length all))
  /\ (forall r,
        fst (Activities.getAssetTransferNetworks rt env ds accountId offset limit w) = inr r ->
        let all := default [] (Activities.accountPaymentNetworks ds !! accountId) in
        (exists pre post,
           all = pre ++ PaginatedAssetTransferNetworksResult.assetTransferNetworks r ++ post)
        /\ PaginatedAssetTransferNetworksResult.total r = Z.of_nat (length all)).
Proof.
  split; [|split; [|split; [|split]]];
    intros r Hr; returned Hr; subst r; cbv zeta;
    (split; [apply slice_segment | reflexivity]).
Qed.

Lemma X14_pages_are_segments_witness :
  exists pre post,
    Activities.accounts MoreExamples.bank
    = pre ++ [MoreExamples.account "acc-2"; MoreExamples.account "acc-3"] ++ post.
Proof.
  apply (proj1 (X14_pages_are_segments Examples.host MoreExamples.env_off MoreExamples.bank
                  "acc-1" (Some (-2)) (Some 10) None None (Examples.start Examples.zeros))
           {| PaginatedAccountsResult.accounts :=
                [MoreExamples.account "acc-2"; MoreExamples.account "acc-3"];
              PaginatedAccountsResult.total := 3 |}).
  vm_compute. reflexivity.
Defined.

(** Consecutive windows of [slice] join into one window. *)
Lemma slice_pages {A} (l : list A) (a n m : Z) :
  0 <= a -> 0 <= n -> 0 <= m ->
  Js.slice l a (a + n) ++ Js.slice l (a + n) (a + n + m) = Js.slice l a (a + (n + m)).
Proof.
  intros Ha Hn Hm. rewrite !slice_window by lia. unfold Observe.window.
  replace (Z.to_nat (a + n)) with (Z.to_nat a + Z.to_nat n)%nat by lia.
  rewrite <- drop_drop, take_take_drop. f_equal. lia.
Qed.

(** X15.  Pages compose: for non-negative [offset], [limit] and [limit'], the
    page at [offset] of size [limit] followed by the page at [offset + limit]
    of size [limit'] is the page at [offset] of size [limit + limit'], for the
    accounts and, under the same dates, for the statements and the
    transactions of an account.  Walking a listing page by page therefore
    yields every item once, in stored order. *)
Theorem X15_consecutive_pages_join (rt : Js.Runtime) (env : gmap string string)
    (ds : Activities.DataStore) (accountId : string) (offset limit limit' : Z)
    (startTime endTime : option string) (w1 w2 w3 : World) :
  0 <= offset -> 0 <= limit -> 0 <= limit' ->
  (forall r1 r2 r3,
     fst (Activities.getAccounts rt env ds (Some offset) (Some limit) w1) = inr r1 ->
     fst (Activities.getAccounts rt env ds (Some (offset + limit)) (Some limit') w2) = inr r2 ->
     fst (Activities.getAccounts rt env ds (Some offset) (Some (limit + limit')) w3) = inr r3 ->
     PaginatedAccountsResult.accounts r1 ++ PaginatedAccountsResult.accounts r2
     = PaginatedAccountsResult.accounts r3)
  /\ (forall r1 r2 r3,
        fst (Activities.getAccountStatements rt env ds accountId (Some offset) (Some limit)
               startTime endTime w1) = inr r1 ->
        fst (Activities.getAccountStatements rt env ds accountId (Some (offset + limit))
               (Some limit') startTime endTime w2) = inr r2 ->
        fst (Activities.getAccountStatements rt env ds accountId (Some offset)
               (Some (limit + limit')) startTime endTime w3) = inr r3 ->
        PaginatedStatementsResult.statements r1 ++ PaginatedStatementsResult.statements r2
        = PaginatedStatementsResult.statements r3)
  /\ (forall r1 r2 r3,
        fst (Activities.getAccountTransactions rt env ds accountId (Some offset) (Some limit)
               startTime endTime w1) = inr r1 ->
        fst (Activities.getAccountTransactions rt env ds accountId (Some (offset + limit))
               (Some limit') startTime endTime w2) = inr r2 ->
        fst (Activities.getAccountTransactions rt env ds accountId (Some offset)
               (Some (limit + limit')) startTime endTime w3) = inr r3 ->
        PaginatedTransactionsResult.transactions r1 ++ PaginatedTransactionsResult.transactions r2
        = PaginatedTransactionsResult.transactions r3).
Proof.
  intros Ho Hl Hl'.
  split; [|split]; intros r1 r2 r3 H1 H2 H3;
    returned H1; returned H2; returned H3;
    subst r1 r2 r3; cbn [default from_option id PaginatedAccountsResult.accounts
                           PaginatedStatementsResult.statements
                           PaginatedTransactionsResult.transactions];
    apply slice_pages; assumption.
Qed.

Lemma X15_consecutive_pages_join_witness :
  [MoreExamples.account "acc-1"] ++ [MoreExamples.account "acc-2"; MoreExamples.account "acc-3"]
  = [MoreExamples.account "acc-1"; MoreExamples.account "acc-2"; MoreExamples.account "acc-3"].
Proof.
  apply (proj1 (X15_consecutive_pages_join Examples.host MoreExamples.env_off MoreExamples.bank
                  "acc-1" 0 1 5 None None (Examples.start Examples.zeros)
                  (Examples.start Examples.zeros) (Examples.start Examples.zeros)
                  ltac:(lia) ltac:(lia) ltac:(lia))
           {| PaginatedAccountsResult.accounts := [MoreExamples.account "acc-1"];
              PaginatedAccountsResult.total := 3 |}
           {| PaginatedAccountsResult.accounts :=
                [MoreExamples.account "acc-2"; MoreExamples.account "acc-3"];
              PaginatedAccountsResult.total := 3 |}
           {| PaginatedAccountsResult.accounts :=
                [MoreExamples.account "acc-1"; MoreExamples.account "acc-2";
                 MoreExamples.account "acc-3"];
              PaginatedAccountsResult.total := 3 |});
    vm_compute; reflexivity.
Defined.

(** The date test of the filters, spelled out. *)
Lemma within_true (d lo hi : option Z) :
  Activities.within d lo hi = true
  <-> exists x a b, d = Some x /\ lo = Some a /\ hi = Some b /\ a <= x <= b.
Proof.
  unfold Activities.within. split.
  - destruct d as [x|], lo as [a|], hi as [b|]; try discriminate.
    rewrite andb_true_iff, !Z.leb_le. intros [? ?]. exists x, a, b. auto.
  - intros (x & a & b & -> & -> & -> & ? & ?).
    rewrite andb_true_iff, !Z.leb_le. auto.
Qed.

(** X16.  The date filter of the statements and of the transactions: every
    item returned is stored under the account and has a valid date between
    the bounds, where an omitted or empty [startTime] stands for the epoch
    (so an item dated before 1970 is left out) and an omitted or empty
    [endTime] for the largest date; a [startTime] or [endTime] that is given
    but is not a valid date empties the listing, total included. *)
Theorem X16_date_filter (rt : Js.Runtime) (env : gmap string string)
    (ds : Activities.DataStore) (accountId : string) (offset limit : option Z)
    (startTime endTime : option string) (w : World) :
  let lo := Activities.startDate rt (default EmptyString startTime) in
  let hi := Activities.endDate rt (default EmptyString endTime) in
  (Js.falsy startTime = true -> lo = Some 0)
  /\ (Js.falsy endTime = true -> hi = Some 8640000000000000)
  /\ (forall r,
        fst (Activities.getAccountStatements rt env ds accountId offset limit
               startTime endTime w) = inr r ->
        (forall s, s ∈ PaginatedStatementsResult.statements r ->
           s ∈ default [] (Activities.accountStatements ds !! accountId)
           /\ exists x a b, Js.Date_parse rt (Statement.statementDate s) = Some x
                            /\ lo = Some a /\ hi = Some b /\ a <= x <= b)
        /\ (lo = None \/ hi = None ->
            PaginatedStatementsResult.statements r = []
            /\ PaginatedStatementsResult.total r = 0))
  /\ (forall r,
        fst (Activities.getAccountTransactions rt env ds accountId offset limit
               startTime endTime w) = inr r ->
        (forall t, t ∈ PaginatedTransactionsResult.transactions r ->
           t ∈ default [] (Activities.accountTransactions ds !! accountId)
           /\ exists x a b, Js.Date_parse rt (Transaction.postedTimestamp t) = Some x
                            /\ lo = Some a /\ hi = Some b /\ a <= x <= b)
        /\ (lo = None \/ hi = None ->
            PaginatedTransactionsResult.transactions r = []
            /\ PaginatedTransactionsResult.total r = 0)).
Proof.
  intros lo hi.
  assert (Hempty : forall {A} (f : A -> option Z) (l : list A),
            lo = None \/ hi = None ->
            List.filter (fun x => Activities.within (f x) lo hi) l = []).
  { intros A f l Hb. induction l as [|x l IH]; [reflexivity|]. cbn [List.filter].
    replace (Activities.within (f x) lo hi) with false; [exact IH|].
    unfold Activities.within. destruct Hb as [-> | ->], (f x); try reflexivity.
    destruct lo; reflexivity. }
  split; [|split; [|split]].
  - unfold lo. destruct startTime as [[|c s]|]; try discriminate; reflexivity.
  - unfold hi. destruct endTime as [[|c s]|]; try discriminate; reflexivity.
  - intros r Hr. returned Hr. subst r.
    cbn [PaginatedStatementsResult.statements PaginatedStatementsResult.total]. split.
    + intros s Hs.
      destruct (slice_segment
                  (Activities.filterStatements rt (default EmptyString startTime)
                     (default EmptyString endTime)
                     (default [] (Activities.accountStatements ds !! accountId)))
                  (default 0 offset) (default 0 offset + default 100 limit))
        as (pre & post & Hseg).
      assert (Hin : s ∈ Activities.filterStatements rt (default EmptyString startTime)
                          (default EmptyString endTime)
                          (default [] (Activities.accountStatements ds !! accountId)))
        by (rewrite Hseg; set_solver).
      unfold Activities.filterStatements in Hin.
      rewrite list_elem_of_In in Hin. apply List.filter_In in Hin as [Hin Hw].
      rewrite <- list_elem_of_In in Hin. split; [exact Hin|].
      apply within_true in Hw. exact Hw.
    + intros Hb. unfold Activities.filterStatements. fold lo hi.
      rewrite (Hempty _ (fun s => Js.Date_parse rt (Statement.statementDate s))) by exact Hb.
      rewrite slice_nil. split; reflexivity.
  - intros r Hr. returned Hr. subst r.
    cbn [PaginatedTransactionsResult.transactions PaginatedTransactionsResult.total]. split.
    + intros s Hs.
      destruct (slice_segment
                  (Activities.filterTransactions rt (default EmptyString startTime)
                     (default EmptyString endTime)
                     (default [] (Activities.accountTransactions ds !! accountId)))
                  (default 0 offset) (default 0 offset + default 100 limit))
        as (pre & post & Hseg).
      assert (Hin : s ∈ Activities.filterTransactions rt (default EmptyString startTime)
                          (default EmptyString endTime)
                          (default [] (Activities.accountTransactions ds !! accountId)))
        by (rewrite Hseg; set_solver).
      unfold Activities.filterTransactions in Hin.
      rewrite list_elem_of_In in Hin. apply List.filter_In in Hin as [Hin Hw].
      rewrite <- list_elem_of_In in Hin. split; [exact Hin|].
      apply within_true in Hw. exact Hw.
    + intros Hb. unfold Activities.filterTransactions. fold lo hi.
      rewrite (Hempty _ (fun s => Js.Date_parse rt (Transaction.postedTimestamp s))) by exact Hb.
      rewrite slice_nil. split; reflexivity.
Qed.

Lemma X16_date_filter_witness :
  Examples.statement "s3" "2024-03-01"
    ∈ default [] (Activities.accountStatements Examples.store !! "acc-1")
  /\ exists x a b,
       Js.Date_parse Examples.host
         (Statement.statementDate (Examples.statement "s3" "2024-03-01")) = Some x
       /\ Activities.startDate Examples.host "2024-02-01" = Some a
       /\ Activities.endDate Examples.host EmptyString = Some b
       /\ a <= x <= b.
Proof.
  destruct (X16_date_filter Examples.host MoreExamples.env_off Examples.store "acc-1"
              None None (Some "2024-02-01"%string) None (Examples.start Examples.zeros))
    as (_ & _ & H & _).
  apply (H {| PaginatedStatementsResult.statements :=
                [Examples.statement "s2" "2024-02-01"; Examples.statement "s3" "2024-03-01"];
              PaginatedStatementsResult.total := 2 |}).
  - vm_compute. reflexivity.
  - cbn [PaginatedStatementsResult.statements]. apply list_elem_of_further, list_elem_of_here.
Defined.

(** ** The routes *)

Ltac run_route :=
  cbv beta iota zeta delta [catch bind ret]; cbn [fst snd].

Lemma contained_send {A} (s : Z) (b : Http.Body A) :
  s = 200 \/ s = 400 \/ s = 404 -> Http.contained (Http.send s b).
Proof.
  intros Hs. unfold Http.contained, Http.send. cbn. split; [tauto|]. split.
  - intros ->. destruct Hs as [H|[H|H]]; discriminate H.
  - reflexivity.
Qed.

Lemma contained_internal {A} (e : Thrown) (context : string) :
  Http.contained (@Http.internal A e context).
Proof.
  unfold Http.contained, Http.internal. cbn. split; [tauto|]. split.
  - intros _. split; [reflexivity | eauto].
  - congruence.
Qed.

Create HintDb routes.
#[local] Hint Resolve contained_internal : routes.
#[local] Hint Extern 1 (Http.contained (Http.send _ _)) =>
  apply contained_send; tauto : routes.

(** [verifyAccount] never throws, and what it sends is contained. *)
Lemma verifyAccount_cases {A} (c : Routes.Client) (accountId : string) (code : Z) (w : World) :
  (exists e w', Routes.fetchAccountById c accountId w = (inl e, w')
                /\ @Routes.verifyAccount c A accountId code w
                   = (inr (inl (Http.internal e "Error validating account")), w'))
  \/ (exists w', Routes.fetchAccountById c accountId w = (inr None, w')
                 /\ @Routes.verifyAccount c A accountId code w
                    = (inr (inl (Http.send 404
                                   (Http.Error (Some code) Routes.account_not_found))), w'))
  \/ (exists a w', Routes.fetchAccountById c accountId w = (inr (Some a), w')
                   /\ @Routes.verifyAccount c A accountId code w = (inr (inr a), w')).
Proof.
  unfold Routes.verifyAccount. run_route.
  destruct (Routes.fetchAccountById c accountId w) as [[e|[a|]] w']; eauto 6.
Qed.

Ltac after_verify c accountId w :=
  let e := fresh "e" in
  let a := fresh "a" in
  let w' := fresh "w'" in
  let Hf := fresh "Hfetch" in
  let Hv := fresh "Hverify" in
  run_route;
  match goal with
  | |- context [@Routes.verifyAccount _ ?A _ _ _] =>
      destruct (@verifyAccount_cases A c accountId 701 w)
        as [(e & w' & Hf & Hv)|[(w' & Hf & Hv)|(a & w' & Hf & Hv)]]
  end;
  rewrite Hv; run_route.

Ltac close_route :=
  eapply ex_intro; eapply ex_intro; split; [reflexivity | solve [auto with routes]].

(** X17.  Failures stay behind the routes: every handler always answers and
    never throws, whatever its client calls do; it answers with status 200,
    400, 404 or 500; a 500 always has the fixed body
    [{ error: "Internal server error" }], so neither the type nor the message
    of the failure reaches the caller, and the failure is logged exactly
    once; no other answer logs an error. *)
Theorem X17_routes_contain_failures (rt : Js.Runtime) (h : Routes.Host) (c : Routes.Client)
    (accountId statementId : string) (req : Routes.Request) (w : World) :
  (exists r w', Routes.listAccounts h c req w = (inr r, w') /\ Http.contained r)
  /\ (exists r w', Routes.showAccount c accountId w = (inr r, w') /\ Http.contained r)
  /\ (exists r w', Routes.showContact c accountId w = (inr r, w') /\ Http.contained r)
  /\ (exists r w', Routes.listStatements rt h c accountId req w = (inr r, w')
                   /\ Http.contained r)
  /\ (exists r w', Routes.showStatement c accountId statementId w = (inr r, w')
                   /\ Http.contained r)
  /\ (exists r w', Routes.listTransactions rt h c accountId req w = (inr r, w')
                   /\ Http.contained r)
  /\ (exists r w', Routes.listPaymentNetworks h c accountId req w = (inr r, w')
                   /\ Http.contained r)
  /\ (exists r w', Routes.listAssetTransferNetworks h c accountId req w = (inr r, w')
                   /\ Http.contained r)
  /\ (exists r w', Routes.showCurrentCustomer c w = (inr r, w') /\ Http.contained r).
Proof.
  repeat apply conj.
  - unfold Routes.listAccounts. run_route.
    destruct (Routes.fetchAccounts c _ _ w) as [[e|r] w']; close_route.
  - unfold Routes.showAccount. run_route.
    destruct (Routes.fetchAccountById c accountId w) as [[e|[a|]] w']; close_route.
  - unfold Routes.showContact. after_verify c accountId w; try close_route.
    destruct (Routes.fetchAccountContactById c accountId w') as [[e'|[k|]] w'']; close_route.
  - unfold Routes.listStatements. after_verify c accountId w; try close_route.
    destruct (_ || _); [close_route|]. destruct (_ && _); [close_route|]. run_route.
    destruct (Routes.fetchAccountStatements c _ _ _ _ _ w') as [[e'|r] w'']; close_route.
  - unfold Routes.showStatement. after_verify c accountId w; try close_route.
    destruct (Routes.fetchAccountStatementById c _ _ w') as [[e'|[s|]] w'']; try close_route.
    eapply ex_intro; eapply ex_intro. split; [reflexivity|]. unfold Http.contained. cbn.
    split; [tauto|]. split; [discriminate | reflexivity].
  - unfold Routes.listTransactions. after_verify c accountId w; try close_route.
    destruct (_ || _); [close_route|]. destruct (_ && _); [close_route|]. run_route.
    destruct (Routes.fetchAccountTransactions c _ _ _ _ _ w') as [[e'|r] w'']; close_route.
  - unfold Routes.listPaymentNetworks. after_verify c accountId w; try close_route.
    destruct (Routes.fetchPaymentNetworks c _ _ _ w') as [[e'|r] w'']; close_route.
  - unfold Routes.listAssetTransferNetworks. after_verify c accountId w; try close_route.
    destruct (Routes.fetchAssetTransferNetworks c _ _ _ w') as [[e'|r] w'']; close_route.
  - unfold Routes.showCurrentCustomer. run_route.
    destruct (Routes.fetchCurrentCustomer c w) as [[e|[k|]] w']; close_route.
Qed.

(** X18.  The page marker of [GET /accounts] is exact.  When the client
    returns the window [[offset, offset + limit)] of a collection with its
    size as total, for a non-negative offset and a positive limit, the route
    answers 200 with those items; it gives no [nextOffset] exactly when the
    page reaches the end of the collection (nothing is left behind it), and
    otherwise gives [nextOffset = String( offset + limit )], the page is full
    ([limit] items) and at least one item lies behind it. *)
Theorem X18_next_offset_is_exact (h : Routes.Host) (c : Routes.Client)
    (req : Routes.Request) (w w' : World) (r : PaginatedAccountsResult.t)
    (l : list Account.t) :
  let offset := Routes.int_or h (Routes.query req !! "offset") 0 in
  let limit := Routes.int_or h (Routes.query req !! "limit") 100 in
  Routes.fetchAccounts c offset limit w = (inr r, w') ->
  PaginatedAccountsResult.accounts r = Js.slice l offset (offset + limit) ->
  PaginatedAccountsResult.total r = Z.of_nat (length l) ->
  0 <= offset -> 0 < limit ->
  Routes.listAccounts h c req w
  = (inr (Http.send 200
            (Http.Page (Routes.page_of offset limit (Z.of_nat (length l)))
               (PaginatedAccountsResult.accounts r))), w')
  /\ (Routes.page_of offset limit (Z.of_nat (length l)) = None ->
      PaginatedAccountsResult.accounts r = drop (Z.to_nat offset) l)
  /\ (forall next, Routes.page_of offset limit (Z.of_nat (length l)) = Some next ->
        next = pretty (offset + limit)
        /\ Z.of_nat (length (PaginatedAccountsResult.accounts r)) = limit
        /\ drop (Z.to_nat (offset + limit)) l <> []).
Proof.
  intros offset limit Hf Hitems Htotal Ho Hl.
  split; [|split].
  - unfold Routes.listAccounts. run_route. fold offset limit. rewrite Hf, Htotal. reflexivity.
  - unfold Routes.page_of. cbv zeta.
    destruct (Z.ltb_spec (offset + limit) (Z.of_nat (length l))); [discriminate|].
    intros _. rewrite Hitems, slice_window by lia. unfold Observe.window.
    apply take_ge. rewrite length_drop. lia.
  - intros next. unfold Routes.page_of. cbv zeta.
    destruct (Z.ltb_spec (offset + limit) (Z.of_nat (length l))); [|discriminate].
    intros [= <-]. split; [reflexivity|]. split.
    + rewrite Hitems, slice_window by lia. unfold Observe.window.
      rewrite length_take, length_drop. lia.
    + intros Hnil. apply (f_equal length) in Hnil. rewrite length_drop in Hnil.
      simpl in Hnil. lia.
Qed.

Lemma X18_next_offset_is_exact_witness :
  Routes.listAccounts MoreExamples.web (MoreExamples.direct MoreExamples.env_off)
    (MoreExamples.request [("offset"%string, "1"%string); ("limit"%string, "1"%string)])
    (Examples.start Examples.zeros)
  = (inr (Http.send 200 (Http.Page (Some "2"%string) [MoreExamples.account "acc-2"])),
     {| rng := Examples.zeros; cursor := 0; trace := [Timer 100] |}).
Proof.
  pose proof (X18_next_offset_is_exact MoreExamples.web (MoreExamples.direct MoreExamples.env_off)
                (MoreExamples.request [("offset"%string, "1"%string); ("limit"%string, "1"%string)])
                (Examples.start Examples.zeros)
                {| rng := Examples.zeros; cursor := 0; trace := [Timer 100] |}
                {| PaginatedAccountsResult.accounts := [MoreExamples.account "acc-2"];
                   PaginatedAccountsResult.total := 3 |}
                (Activities.accounts MoreExamples.bank)) as H.
  destruct H as (H & _); [vm_compute; reflexivity .. | | |].
  - vm_compute. discriminate.
  - vm_compute. reflexivity.
  - rewrite H. vm_compute. reflexivity.
Defined.

(** X19.  A [limit] or [offset] of 0 cannot be asked for: a query value that
    parses to 0, or to no number at all, is replaced by the default (100 for
    the limit, 0 for the offset), so on a host where the absent value does
    not parse either, [GET /accounts] answers such a request exactly as it
    answers the request without that parameter. *)
Theorem X19_zero_limit_is_default (h : Routes.Host) (c : Routes.Client)
    (req : Routes.Request) (key text : string) (w : World) :
  Routes.parseInt h "undefined" = None ->
  key = "limit"%string \/ key = "offset"%string ->
  Routes.query req !! key = Some text ->
  Routes.parseInt h text = Some 0 \/ Routes.parseInt h text = None ->
  Routes.int_or h (Routes.query req !! "limit") 100 <> 0
  /\ Routes.listAccounts h c req w
     = Routes.listAccounts h c
         {| Routes.params := Routes.params req;
            Routes.query := delete key (Routes.query req) |} w.
Proof.
  intros Hundef Hkey Hq Hparse.
  assert (Hint : forall d, Routes.int_or h (Some text) d = Routes.int_or h None d).
  { intros d. unfold Routes.int_or. cbn [default from_option id]. rewrite Hundef.
    destruct Hparse as [-> | ->]; reflexivity. }
  split.
  - unfold Routes.int_or.
    destruct (Routes.parseInt h (default _ _)) as [n|]; [destruct (Z.eqb_spec n 0)|]; lia.
  - unfold Routes.listAccounts. cbv zeta. cbn [Routes.query].
    destruct Hkey as [-> | ->].
    + rewrite lookup_delete_eq, (lookup_delete_ne _ "limit" "offset") by discriminate.
      rewrite Hq, Hint. reflexivity.
    + rewrite lookup_delete_eq, (lookup_delete_ne _ "offset" "limit") by discriminate.
      rewrite Hq, Hint. reflexivity.
Qed.

Lemma X19_zero_limit_is_default_witness :
  Routes.listAccounts MoreExamples.web (MoreExamples.direct MoreExamples.env_off)
    (MoreExamples.request [("limit"%string, "0"%string)]) (Examples.start Examples.zeros)
  = Routes.listAccounts MoreExamples.web (MoreExamples.direct MoreExamples.env_off)
      {| Routes.params := ∅;
         Routes.query := delete "limit"%string
                           (list_to_map [("limit"%string, "0"%string)]) |}
      (Examples.start Examples.zeros).
Proof.
  apply (X19_zero_limit_is_default MoreExamples.web (MoreExamples.direct MoreExamples.env_off)
           (MoreExamples.request [("limit"%string, "0"%string)]) "limit" "0"
           (Examples.start Examples.zeros)).
  - vm_compute. reflexivity.
  - left. reflexivity.
  - vm_compute. reflexivity.
  - left. vm_compute. reflexivity.
Defined.

(** X20.  The date checks of the statement and transaction listings come
    after the account check and before any listing is fetched: once the
    account is found, a [startTime] or [endTime] that [isValidDate] rejects is
    answered 400 "Invalid date format ..." and, when both are given and valid,
    a [startTime] later than [endTime] is answered 400 "startTime must be
    before or equal to endTime"; in both cases nothing but the account was
    fetched. *)
Theorem X20_dates_are_checked_first (rt : Js.Runtime) (h : Routes.Host) (c : Routes.Client)
    (accountId : string) (req : Routes.Request) (a : Account.t) (w w' : World) :
  let startTime := Js.or_default (Routes.query req !! "startTime") EmptyString in
  let endTime := Js.or_default (Routes.query req !! "endTime") EmptyString in
  Routes.fetchAccountById c accountId w = (inr (Some a), w') ->
  (Routes.isValidDate h startTime = false \/ Routes.isValidDate h endTime = false ->
   Routes.listStatements rt h c accountId req w
   = (inr (Http.send 400 (Http.Error None "Invalid date format for startTime or endTime")), w')
   /\ Routes.listTransactions rt h c accountId req w
      = (inr (Http.send 400 (Http.Error None "Invalid date format for startTime or endTime")),
         w'))
  /\ (Routes.isValidDate h startTime = true -> Routes.isValidDate h endTime = true ->
      startTime <> EmptyString -> endTime <> EmptyString ->
      Routes.date_gt rt startTime endTime = true ->
      Routes.listStatements rt h c accountId req w
      = (inr (Http.send 400 (Http.Error None "startTime must be before or equal to endTime")),
         w')
      /\ Routes.listTransactions rt h c accountId req w
         = (inr (Http.send 400 (Http.Error None "startTime must be before or equal to endTime")),
            w')).
Proof.
  intros startTime endTime Hf.
  assert (Hv : forall A, @Routes.verifyAccount c A accountId 701 w = (inr (inr a), w')).
  { intros A. unfold Routes.verifyAccount. run_route. rewrite Hf. reflexivity. }
  split.
  - intros Hbad.
    assert (Hor : negb (Routes.isValidDate h startTime) || negb (Routes.isValidDate h endTime)
                  = true)
      by (destruct Hbad as [-> | ->]; rewrite ?orb_true_r; reflexivity).
    unfold Routes.listStatements, Routes.listTransactions. run_route.
    fold startTime endTime. rewrite !Hv, Hor. split; reflexivity.
  - intros Hs He Hns Hne Hgt.
    apply String.eqb_neq in Hns, Hne.
    unfold Routes.listStatements, Routes.listTransactions. run_route.
    fold startTime endTime. rewrite !Hv, Hs, He, Hns, Hne, Hgt. split; reflexivity.
Qed.

Lemma X20_dates_are_checked_first_witness :
  Routes.listStatements Examples.host MoreExamples.web (MoreExamples.direct MoreExamples.env_off)
    "acc-1"
    (MoreExamples.request [("startTime"%string, "2024-03-01"%string);
                           ("endTime"%string, "2024-01-01"%string)])
    (Examples.start Examples.zeros)
  = (inr (Http.send 400 (Http.Error None "startTime must be before or equal to endTime")),
     {| rng := Examples.zeros; cursor := 0; trace := [Timer 50] |}).
Proof.
  apply (X20_dates_are_checked_first Examples.host MoreExamples.web
           (MoreExamples.direct MoreExamples.env_off) "acc-1"
           (MoreExamples.request [("startTime"%string, "2024-03-01"%string);
                                  ("endTime"%string, "2024-01-01"%string)])
           (MoreExamples.account "acc-1") (Examples.start Examples.zeros)
           {| rng := Examples.zeros; cursor := 0; trace := [Timer 50] |});
    try (vm_compute; reflexivity); vm_compute; discriminate.
Defined.

(** X21.  No route under an account serves an account that is not found:
    when the account lookup returns [null], the account route and each of
    its six sub-routes answer 404 with code 701, and the answer depends on
    no other client call (the contact, the listings and the statement are
    not fetched). *)
Theorem X21_unknown_account_is_404 (rt : Js.Runtime) (h : Routes.Host) (c : Routes.Client)
    (accountId statementId : string) (req : Routes.Request) (w w' : World) :
  Routes.fetchAccountById c accountId w = (inr None, w') ->
  let missing {A} : Thrown + Http.Reply A :=
    inr (Http.send 404 (Http.Error (Some 701) Routes.account_not_found)) in
  Routes.showAccount c accountId w = (missing, w')
  /\ Routes.showContact c accountId w = (missing, w')
  /\ Routes.listStatements rt h c accountId req w = (missing, w')
  /\ Routes.showStatement c accountId statementId w = (missing, w')
  /\ Routes.listTransactions rt h c accountId req w = (missing, w')
  /\ Routes.listPaymentNetworks h c accountId req w = (missing, w')
  /\ Routes.listAssetTransferNetworks h c accountId req w = (missing, w').
Proof.
  intros Hf missing.
  assert (Hv : forall A, @Routes.verifyAccount c A accountId 701 w
                         = (inr (inl (Http.send 404
                                        (Http.Error (Some 701) Routes.account_not_found))), w')).
  { intros A. unfold Routes.verifyAccount. run_route. rewrite Hf. reflexivity. }
  unfold Routes.showAccount, Routes.showContact, Routes.listStatements, Routes.showStatement,
    Routes.listTransactions, Routes.listPaymentNetworks, Routes.listAssetTransferNetworks.
  run_route. rewrite !Hv, Hf. repeat split; reflexivity.
Qed.

Lemma X21_unknown_account_is_404_witness :
  Routes.listPaymentNetworks MoreExamples.web (MoreExamples.direct MoreExamples.env_off)
    "acc-404" (MoreExamples.request []) (Examples.start Examples.zeros)
  = (inr (Http.send 404 (Http.Error (Some 701) Routes.account_not_found)),
     {| rng := Examples.zeros; cursor := 0; trace := [Timer 50] |}).
Proof.
  apply (X21_unknown_account_is_404 Examples.host MoreExamples.web
           (MoreExamples.direct MoreExamples.env_off) "acc-404" "s1" (MoreExamples.request [])
           (Examples.start Examples.zeros)
           {| rng := Examples.zeros; cursor := 0; trace := [Timer 50] |}).
  vm_compute. reflexivity.
Defined.

(** ** The access-token middleware *)

Lemma substring_all (s : string) : String.substring 0 (String.length s) s = s.
Proof. induction s as [|c s IH]; [reflexivity|]. simpl. rewrite IH. reflexivity. Qed.

Lemma append_cons (c : Ascii.ascii) (s t : string) :
  String c s +:+ t = String c (s +:+ t).
Proof. reflexivity. Qed.

(** A string that starts with [p] is [p] followed by its slice from the
    length of [p]. *)
Lemma startsWith_split (p s : string) :
  Auth.startsWith s p = true <-> s = p +:+ Auth.slice_from s (String.length p).
Proof.
  unfold Auth.startsWith, Auth.slice_from. revert s.
  induction p as [|c p IH]; intros s.
  - simpl. rewrite Nat.sub_0_r, substring_all.
    destruct s; split; reflexivity || auto.
  - destruct s as [|d s]; simpl; [split; discriminate|].
    destruct (Ascii.ascii_dec c d) as [->|Hne].
    + rewrite IH, append_cons.
      split; [intros H; f_equal; exact H | intros [= H]; exact H].
    + rewrite append_cons. split; [discriminate | intros [= H _]; congruence].
Qed.

Lemma startsWith_append (p t : string) : Auth.startsWith (p +:+ t) p = true.
Proof.
  unfold Auth.startsWith. induction p as [|c p IH].
  - destruct t; reflexivity.
  - rewrite append_cons. cbn [String.prefix].
    destruct (Ascii.ascii_dec c c); [exact IH | congruence].
Qed.

Lemma slice_from_append (p t : string) : Auth.slice_from (p +:+ t) (String.length p) = t.
Proof.
  unfold Auth.slice_from. induction p as [|c p IH].
  - change (EmptyString +:+ t) with t. cbn [String.length]. rewrite Nat.sub_0_r.
    apply substring_all.
  - rewrite append_cons. cbn [String.length String.substring]. exact IH.
Qed.

Lemma token_of_bearer (t : string) :
  Auth.token_of (Some (Auth.One ("Bearer " +:+ t))) = t.
Proof.
  unfold Auth.token_of. rewrite startsWith_append.
  change 7%nat with (String.length "Bearer "). apply slice_from_append.
Qed.

(** The token is not empty only for a string header that is ["Bearer "]
    followed by that token. *)
Lemma token_of_nonempty (a : option Auth.HeaderValue) :
  Auth.token_of a <> EmptyString ->
  a = Some (Auth.One ("Bearer " +:+ Auth.token_of a)).
Proof.
  destruct a as [[s|l]|]; simpl; try congruence.
  destruct (Auth.startsWith s "Bearer ") eqn:E; [|congruence].
  intros _. apply startsWith_split in E. simpl in E. rewrite <- E. reflexivity.
Qed.

(** X22.  The middleware lets a request through in two cases only: its path
    starts with ["/public"] (and then no user is attached), or its
    [Authorization] header is the string ["Bearer "] followed by a non-empty
    token that [jwtVerify] accepted (and then the verified claims are
    attached).  A request with no header, a repeated header, another scheme,
    or a token that fails verification is never passed on. *)
Theorem X22_only_verified_requests_pass (P : Type) (jwtVerify : string -> Thrown + P)
    (path : string) (authorization : option Auth.HeaderValue) (user : option P) :
  Auth.decision (Auth.middleware jwtVerify path authorization) = Auth.Next user ->
  (Auth.startsWith path "/public" = true /\ user = None)
  \/ (exists token claims,
        token <> EmptyString
        /\ authorization = Some (Auth.One ("Bearer " +:+ token))
        /\ jwtVerify token = inr claims
        /\ user = Some claims).
Proof.
  unfold Auth.middleware.
  destruct (Auth.startsWith path "/public") eqn:Hpub.
  - cbn. intros [= <-]. left. auto.
  - cbv zeta. intros H. right.
    destruct (Auth.token_of authorization) as [|c t] eqn:Htok; [discriminate H|].
    destruct (jwtVerify (String c t)) as [e|claims] eqn:Hv; [discriminate H|].
    cbn in H. injection H as <-.
    exists (String c t), claims. repeat split; [discriminate | | exact Hv].
    rewrite <- Htok. apply token_of_nonempty. rewrite Htok. discriminate.
Qed.

Lemma X22_only_verified_requests_pass_witness :
  (Auth.startsWith "/public/health" "/public" = true /\ @None nat = None)
  \/ (exists token claims,
        token <> EmptyString
        /\ None = Some (Auth.One ("Bearer " +:+ token))
        /\ (fun _ : string => @inl Thrown nat (TypeError "no key")) token = inr claims
        /\ @None nat = Some claims).
Proof.
  apply (X22_only_verified_requests_pass nat (fun _ => inl (TypeError "no key"))
           "/public/health" None None).
  vm_compute. reflexivity.
Defined.

(** X23.  The verifier sees the token exactly as sent: for a path outside
    ["/public"] and the header ["Bearer " + token] with a non-empty token,
    the decision is that of [jwtVerify] on that very token: the request
    passes with the verified claims, or is rejected as "Invalid access token".
    Without such a header the request is rejected as "Missing access token"
    whatever the verifier would say. *)
Theorem X23_bearer_token_round_trip (P : Type) (jwtVerify : string -> Thrown + P)
    (path token : string) (authorization : option Auth.HeaderValue) :
  Auth.startsWith path "/public" = false ->
  (token <> EmptyString ->
   Auth.decision (Auth.middleware jwtVerify path (Some (Auth.One ("Bearer " +:+ token))))
   = match jwtVerify token with
     | inr claims => Auth.Next (Some claims)
     | inl _ => Auth.Reject "Invalid access token" "Authentication failed"
     end)
  /\ (Auth.token_of authorization = EmptyString ->
      Auth.middleware jwtVerify path authorization
      = {| Auth.decision := Auth.Reject "Missing access token" "Authentication required";
           Auth.logs := [ "API request received"%string;
                          "Token validation failed - No bearer token"%string ] |})
  /\ (forall l, Auth.token_of (Some (Auth.Many l)) = EmptyString)
  /\ Auth.token_of None = EmptyString
  /\ Auth.token_of (Some (Auth.One "Bearer ")) = EmptyString
  /\ (forall s, Auth.startsWith s "Bearer " = false ->
                Auth.token_of (Some (Auth.One s)) = EmptyString).
Proof.
  intros Hpub. repeat apply conj.
  - intros Hne. unfold Auth.middleware. rewrite Hpub. cbv zeta.
    rewrite token_of_bearer. destruct token as [|c t]; [congruence|].
    destruct (jwtVerify (String c t)); reflexivity.
  - intros Htok. unfold Auth.middleware. rewrite Hpub. cbv zeta. rewrite Htok. reflexivity.
  - reflexivity.
  - reflexivity.
  - reflexivity.
  - intros s Hs. simpl. rewrite Hs. reflexivity.
Qed.

Lemma X23_bearer_token_round_trip_witness :
  Auth.decision
    (Auth.middleware (fun t : string => if String.eqb t "abc.def.ghi" then inr 7%nat
                                        else inl (TypeError "bad signature"))
       "/api/fdx/v6/accounts" (Some (Auth.One "Bearer abc.def.ghi")))
  = Auth.Next (Some 7%nat).
Proof.
  apply (X23_bearer_token_round_trip nat
           (fun t : string => if String.eqb t "abc.def.ghi" then inr 7%nat
                              else inl (TypeError "bad signature"))
           "/api/fdx/v6/accounts" "abc.def.ghi" None).
  - vm_compute. reflexivity.
  - discriminate.
Defined.

(** ** From the client to the activities *)

(** X24.  Every helper of [client.ts] starts a workflow that [workflows.ts]
    exports, on the queue of the worker, and that workflow calls the activity
    of the matching name with the helper's arguments, unchanged and in the
    same order; each of these activities is one the worker registers. *)
Theorem X24_client_reaches_its_activity (uuid : string) (id id2 startTime endTime : string)
    (offset limit : Z) (filters : CustomerFilters.t) :
  let reach (s : Dispatch.Start) (activity : string) (args : list Dispatch.Arg) : Prop :=
    Dispatch.taskQueue s = Dispatch.TASK_QUEUE
    /\ Dispatch.workflows (Dispatch.workflowName s) (Dispatch.args s)
       = Some {| Dispatch.activity := activity;
                 Dispatch.arguments := List.map Some args |}
    /\ activity ∈ Activities.exported in
  reach (Dispatch.fetchCurrentCustomer uuid) "getCurrentCustomer"%string []
  /\ reach (Dispatch.fetchCustomerById uuid id) "getCustomerById"%string [Dispatch.Str id]
  /\ reach (Dispatch.fetchCustomers uuid filters) "getCustomers"%string
       [Dispatch.Filters filters]
  /\ reach (Dispatch.fetchAccounts uuid offset limit) "getAccounts"%string
       [Dispatch.Num offset; Dispatch.Num limit]
  /\ reach (Dispatch.fetchAccountById uuid id) "getAccountById"%string [Dispatch.Str id]
  /\ reach (Dispatch.fetchAccountContactById uuid id) "getAccountContactById"%string
       [Dispatch.Str id]
  /\ reach (Dispatch.fetchAccountStatements uuid id offset limit startTime endTime)
       "getAccountStatements"%string
       [Dispatch.Str id; Dispatch.Num offset; Dispatch.Num limit;
        Dispatch.Str startTime; Dispatch.Str endTime]
  /\ reach (Dispatch.fetchAccountStatementById uuid id id2) "getAccountStatementById"%string
       [Dispatch.Str id; Dispatch.Str id2]
  /\ reach (Dispatch.fetchAccountTransactions uuid id offset limit startTime endTime)
       "getAccountTransactions"%string
       [Dispatch.Str id; Dispatch.Num offset; Dispatch.Num limit;
        Dispatch.Str startTime; Dispatch.Str endTime]
  /\ reach (Dispatch.fetchPaymentNetworks uuid id offset limit) "getPaymentNetworks"%string
       [Dispatch.Str id; Dispatch.Num offset; Dispatch.Num limit]
  /\ reach (Dispatch.fetchAssetTransferNetworks uuid id offset limit)
       "getAssetTransferNetworks"%string
       [Dispatch.Str id; Dispatch.Num offset; Dispatch.Num limit].
Proof.
  cbv zeta.
  repeat apply conj; try reflexivity;
    apply (bool_decide_unpack _); vm_compute; reflexivity.
Qed.

Lemma append_length_inj (a a' b b' : string) :
  String.length a = String.length a' ->
  a +:+ b = a' +:+ b' -> a = a' /\ b = b'.
Proof.
  revert a'. induction a as [|c a IH]; intros [|c' a']; try discriminate.
  - intros _ H. split; [reflexivity | exact H].
  - rewrite !append_cons. intros [= Hlen] [= -> H].
    destruct (IH a' Hlen H) as [-> ->]. split; reflexivity.
Qed.

(** X25.  Workflow ids are as unique as the uuids: the id is the workflow
    name, a dash and the uuid, so two starts with uuids of the same length (as
    version 4 uuids are) have the same id only if they have the same name and
    the same uuid; in particular two starts of one workflow with different
    uuids never share an id. *)
Theorem X25_workflow_ids_are_distinct (uuid uuid' name name' : string)
    (args args' : list Dispatch.Arg) :
  String.length uuid = String.length uuid' ->
  Dispatch.workflowId (Dispatch.executeWorkflow uuid name args)
  = Dispatch.workflowId (Dispatch.executeWorkflow uuid' name' args') ->
  name = name' /\ uuid = uuid'.
Proof.
  unfold Dispatch.executeWorkflow. cbn [Dispatch.workflowId]. intros Hlen Hid.
  pose proof (f_equal String.length Hid) as Hl.
  rewrite (string_length_append name), (string_length_append name') in Hl.
  rewrite (string_length_append "-" uuid), (string_length_append "-" uuid') in Hl.
  destruct (append_length_inj name name' _ _ ltac:(lia) Hid) as [-> Hrest].
  destruct (append_length_inj "-" "-" _ _ eq_refl Hrest) as [_ ->].
  split; reflexivity.
Qed.

Lemma X25_workflow_ids_are_distinct_witness :
  "getAccountsWorkflow"%string = "getAccountsWorkflow"%string
  /\ "1b4e28ba-2fa1-41d2-883f-0016d3cca427"%string
     = "1b4e28ba-2fa1-41d2-883f-0016d3cca427"%string.
Proof.
  apply (X25_workflow_ids_are_distinct "1b4e28ba-2fa1-41d2-883f-0016d3cca427"
           "1b4e28ba-2fa1-41d2-883f-0016d3cca427" "getAccountsWorkflow" "getAccountsWorkflow"
           [Dispatch.Num 0; Dispatch.Num 10] []).
  - reflexivity.
  - reflexivity.
Defined.
